(** * phishing_feature_extractor: the feature extractors and the aggregator

    A shallow embedding of [extract_general_features.py],
    [extract_contentinfo_features.py] and [orchestrator.py].

    The extractors are dynamically typed Python over values decoded from
    JSON, so the embedding has a type [pyval] of such values, an error
    monad [result] whose failures are the Python exceptions, and one Rocq
    function per Python builtin the source calls ([len], [int], [str],
    [dict.get], [in], [str.lower], ...), each defined on every [pyval] and
    raising where Python does.

    Conventions.
    - A Python [str] is a Stdlib [string]; one [ascii] is one code point, so
      the texts of the model are those over U+0000..U+00FF.
    - A Python [int] is a [Z]; the optional limit on int/str conversion
      length ([sys.int_max_str_digits]) is off, and the recursion limit of
      the interpreter is outside the model, so that [str()] of a nested
      value always returns.
    - A Python [float] computed by the extractors is the rational it
      denotes ([Q]); division is exact, and the way [round(x, 3)] breaks an
      exact tie is a parameter.
    - Library functions ([urllib.parse.urlparse], the five [re] patterns)
      follow CPython 3.11. *)

From Stdlib Require Import ZArith QArith List String Ascii Bool Lia.
From Stdlib Require Import Numbers.DecimalString.
Import ListNotations.

Set Warnings "-register-all".

Local Open Scope string_scope.
Local Open Scope Z_scope.

(* ================================================================= *)
(** ** Exceptions and the error monad *)

Inductive exn : Type :=
| TypeError
| AttributeError
| ValueError
| OverflowError
| OtherException (cls : string).

Inductive result (A : Type) : Type :=
| Ok (a : A)
| Raise (e : exn).

Arguments Ok {A} a.
Arguments Raise {A} e.

Definition bind {A B : Type} (m : result A) (k : A -> result B) : result B :=
  match m with
  | Ok a => k a
  | Raise e => Raise e
  end.

Notation "x <- m ;; k" := (bind m (fun x => k))
  (at level 61, m at next level, right associativity).

Definition is_ok {A : Type} (m : result A) : bool :=
  match m with Ok _ => true | Raise _ => false end.

(** [mapM f l]: run [f] over [l] from left to right, stop at the first
    exception. *)
Fixpoint mapM {A B : Type} (f : A -> result B) (l : list A) : result (list B) :=
  match l with
  | [] => Ok []
  | x :: xs => y <- f x ;; ys <- mapM f xs ;; Ok (y :: ys)
  end.

(* ================================================================= *)
(** ** Text *)

Definition code (c : ascii) : nat := nat_of_ascii c.

Definition between (lo hi n : nat) : bool := (Nat.leb lo n && Nat.leb n hi)%bool.

Definition is_digit (c : ascii) : bool := between 48 57 (code c).
Definition is_ascii_lower (c : ascii) : bool := between 97 122 (code c).
Definition is_ascii_upper (c : ascii) : bool := between 65 90 (code c).
Definition is_ascii_alpha (c : ascii) : bool := (is_ascii_lower c || is_ascii_upper c)%bool.
Definition is_ascii_alnum (c : ascii) : bool := (is_ascii_alpha c || is_digit c)%bool.

(** [str.lower] on one code point below U+0100: A-Z and the Latin-1
    capitals U+00C0..U+00DE, the multiplication sign U+00D7 excepted. *)
Definition lower_char (c : ascii) : ascii :=
  let n := code c in
  if (between 65 90 n || (between 192 222 n && negb (Nat.eqb n 215)))%bool
  then ascii_of_nat (n + 32)
  else c.

Fixpoint lower (s : string) : string :=
  match s with
  | EmptyString => EmptyString
  | String c s' => String (lower_char c) (lower s')
  end.

Definition len (s : string) : Z := Z.of_nat (String.length s).

(** [s.startswith(p)] *)
Fixpoint startswith (p s : string) : bool :=
  match p, s with
  | EmptyString, _ => true
  | String a p', String b s' => (Ascii.eqb a b && startswith p' s')%bool
  | String _ _, EmptyString => false
  end.

(** [sub in s] for two strings *)
Fixpoint str_in (sub s : string) : bool :=
  (startswith sub s ||
   match s with
   | EmptyString => false
   | String _ s' => str_in sub s'
   end)%bool.

(** [c in s] for one character *)
Fixpoint char_in (c : ascii) (s : string) : bool :=
  match s with
  | EmptyString => false
  | String a s' => (Ascii.eqb a c || char_in c s')%bool
  end.

(** [s.count(sub)]: occurrences of [sub] that do not overlap, from the
    left.  [skip] is the number of characters still covered by the last
    occurrence counted. *)
Fixpoint count_from (sub s : string) (skip : nat) : nat :=
  match s with
  | EmptyString =>
      match skip, sub with
      | O, EmptyString => 1%nat
      | _, _ => 0%nat
      end
  | String _ s' =>
      match skip with
      | S k => count_from sub s' k
      | O => if startswith sub s
             then S (count_from sub s' (Nat.pred (String.length sub)))
             else count_from sub s' 0
      end
  end.

Definition str_count (sub s : string) : Z := Z.of_nat (count_from sub s 0).

(** [s.endswith(p)] *)
Fixpoint endswith (p s : string) : bool :=
  (String.eqb p s ||
   match s with
   | EmptyString => false
   | String _ s' => endswith p s'
   end)%bool.

(** [sep.join(l)] *)
Definition join (sep : string) (l : list string) : string := String.concat sep l.

Fixpoint filter_chars (p : ascii -> bool) (s : string) : string :=
  match s with
  | EmptyString => EmptyString
  | String c s' => if p c then String c (filter_chars p s') else filter_chars p s'
  end.

(** [s.lstrip(chars)] with the set of characters given as a predicate *)
Fixpoint lstrip (p : ascii -> bool) (s : string) : string :=
  match s with
  | EmptyString => EmptyString
  | String c s' => if p c then lstrip p s' else s
  end.

(** [s.partition(c)] for a one-character separator: the text before the
    first [c] and the text after it, or [None] when [c] does not occur. *)
Fixpoint partition_char (c : ascii) (s : string) : option (string * string) :=
  match s with
  | EmptyString => None
  | String a s' =>
      if Ascii.eqb a c then Some (EmptyString, s')
      else match partition_char c s' with
           | Some (l, r) => Some (String a l, r)
           | None => None
           end
  end.

(** [s.rpartition(c)] *)
Fixpoint rpartition_char (c : ascii) (s : string) : option (string * string) :=
  match s with
  | EmptyString => None
  | String a s' =>
      match rpartition_char c s' with
      | Some (l, r) => Some (String a l, r)
      | None => if Ascii.eqb a c then Some (EmptyString, s') else None
      end
  end.

Fixpoint all_chars (p : ascii -> bool) (s : string) : bool :=
  match s with
  | EmptyString => true
  | String c s' => (p c && all_chars p s')%bool
  end.

Fixpoint rev_string (s : string) : string :=
  match s with
  | EmptyString => EmptyString
  | String c s' => rev_string s' ++ String c EmptyString
  end.

(* ================================================================= *)
(** ** Values decoded from JSON *)

(** A float read from JSON is kept as what the extractors can observe of
    it: the number itself, seen by [int()] and by truth tests, and the text
    that [str()] prints for it (the shortest-repr algorithm is outside the
    model). *)
Inductive float_number : Type :=
| FFinite (q : Q)
| FNan
| FInf (negative : bool).

Record pyfloat : Type := mk_float {
  float_number_of : float_number;
  float_repr : string
}.

Inductive pyval : Type :=
| PNone
| PBool (b : bool)
| PInt (z : Z)
| PFloat (x : pyfloat)
| PStr (s : string)
| PList (l : list pyval)
| PDict (d : list (string * pyval)).

(** The first binding of key [k], as a dict decoded from JSON has one
    binding per key. *)
Fixpoint assoc {A : Type} (k : string) (d : list (string * A)) : option A :=
  match d with
  | [] => None
  | (k', v) :: d' => if String.eqb k' k then Some v else assoc k d'
  end.

Definition keys {A : Type} (d : list (string * A)) : list string := map fst d.

(** Truth value of an object: [bool(v)], [if v], [v or w]. *)
Definition py_truthy (v : pyval) : bool :=
  match v with
  | PNone => false
  | PBool b => b
  | PInt z => negb (z =? 0)
  | PFloat x =>
      match float_number_of x with
      | FFinite q => negb (Qeq_bool q 0)
      | FNan | FInf _ => true
      end
  | PStr s => negb (String.eqb s "")
  | PList l => match l with [] => false | _ => true end
  | PDict d => match d with [] => false | _ => true end
  end.

(** [a or b] *)
Definition py_or (a b : pyval) : pyval := if py_truthy a then a else b.

(** [o.get(k, default)]; only a dict has the method. *)
Definition py_get (o : pyval) (k : string) (default : pyval) : result pyval :=
  match o with
  | PDict d => Ok (match assoc k d with Some v => v | None => default end)
  | _ => Raise AttributeError
  end.

(** [len(v)] *)
Definition py_len (v : pyval) : result Z :=
  match v with
  | PStr s => Ok (len s)
  | PList l => Ok (Z.of_nat (List.length l))
  | PDict d => Ok (Z.of_nat (List.length d))
  | _ => Raise TypeError
  end.

(** Code points that [int()] skips as white space around a literal, below
    U+0100: tab to carriage return and the space, which [Py_ISSPACE]
    accepts, and U+0085 and U+00A0, which the conversion turns into spaces
    beforehand.  U+001C..U+001F are white space for [str.strip()] but not
    here. *)
Definition is_space (c : ascii) : bool :=
  let n := code c in
  (between 9 13 n || Nat.eqb n 32 || Nat.eqb n 133 || Nat.eqb n 160)%bool.

Definition strip (s : string) : string :=
  rev_string (lstrip is_space (rev_string (lstrip is_space s))).

Definition digit_value (c : ascii) : Z := Z.of_nat (code c - 48).

(** Digits of a decimal literal after the first one; single underscores
    may separate digits. *)
Fixpoint digits_acc (s : string) (acc : Z) (after_underscore : bool) : option Z :=
  match s with
  | EmptyString => if after_underscore then None else Some acc
  | String c s' =>
      if is_digit c then digits_acc s' (10 * acc + digit_value c) false
      else if (Ascii.eqb c "_" && negb after_underscore)%bool
           then digits_acc s' acc true
           else None
  end.

Definition parse_digits (s : string) : option Z :=
  match s with
  | String c s' => if is_digit c then digits_acc s' (digit_value c) false else None
  | EmptyString => None
  end.

(** [int(s)] for a text [s], base ten. *)
Definition int_of_text (s : string) : option Z :=
  match strip s with
  | String "+" r => parse_digits r
  | String "-" r => option_map Z.opp (parse_digits r)
  | t => parse_digits t
  end.

(** [int(v)] *)
Definition py_int (v : pyval) : result Z :=
  match v with
  | PBool b => Ok (if b then 1 else 0)
  | PInt z => Ok z
  | PFloat x =>
      match float_number_of x with
      | FFinite q => Ok (Z.quot (Qnum q) (Z.pos (Qden q)))
      | FNan => Raise ValueError
      | FInf _ => Raise OverflowError
      end
  | PStr s =>
      match int_of_text s with
      | Some z => Ok z
      | None => Raise ValueError
      end
  | PNone | PList _ | PDict _ => Raise TypeError
  end.

(** [int(b)] for a truth value *)
Definition int_of_bool (b : bool) : Z := if b then 1 else 0.

Definition dquote : ascii := ascii_of_nat 34.
Definition squote : ascii := ascii_of_nat 39.
Definition backslash : ascii := ascii_of_nat 92.

Definition hex_digit (n : nat) : ascii :=
  if Nat.ltb n 10 then ascii_of_nat (48 + n) else ascii_of_nat (87 + n).

(** One character of [repr(s)], [q] being the quote in use. *)
Definition repr_char (q c : ascii) : string :=
  let n := code c in
  if (Ascii.eqb c q || Ascii.eqb c backslash)%bool
  then String backslash (String c EmptyString)
  else if Nat.eqb n 9 then String backslash "t"
  else if Nat.eqb n 10 then String backslash "n"
  else if Nat.eqb n 13 then String backslash "r"
  else if (Nat.ltb n 32 || Nat.eqb n 127 || between 128 160 n || Nat.eqb n 173)%bool
  then String backslash
         (String "x" (String (hex_digit (n / 16)) (String (hex_digit (n mod 16)) EmptyString)))
  else String c EmptyString.

Fixpoint repr_chars (q : ascii) (s : string) : string :=
  match s with
  | EmptyString => EmptyString
  | String c s' => repr_char q c ++ repr_chars q s'
  end.

(** [repr(s)] for a text: single quotes unless the text has a single quote
    and no double quote. *)
Definition repr_text (s : string) : string :=
  let q := if (char_in squote s && negb (char_in dquote s))%bool then dquote else squote in
  String q (repr_chars q s ++ String q EmptyString).

Definition text_of_int (z : Z) : string := NilEmpty.string_of_int (Z.to_int z).

(** [repr(v)] *)
Fixpoint py_repr (v : pyval) : string :=
  match v with
  | PNone => "None"
  | PBool true => "True"
  | PBool false => "False"
  | PInt z => text_of_int z
  | PFloat x => float_repr x
  | PStr s => repr_text s
  | PList l => "[" ++ join ", " (map py_repr l) ++ "]"
  | PDict d =>
      "{" ++ join ", " (map (fun kv => repr_text (fst kv) ++ ": " ++ py_repr (snd kv)) d) ++ "}"
  end.

(** [str(v)] *)
Definition py_str (v : pyval) : string :=
  match v with
  | PStr s => s
  | _ => py_repr v
  end.

Definition is_text (t : string) (v : pyval) : bool :=
  match v with
  | PStr s => String.eqb s t
  | _ => false
  end.

(** [x in container] for a text [x]: substring of a text, element of a
    list, key of a dict; other objects are not iterable. *)
Definition py_contains (x : string) (container : pyval) : result bool :=
  match container with
  | PStr s => Ok (str_in x s)
  | PList l => Ok (existsb (is_text x) l)
  | PDict d => Ok (existsb (String.eqb x) (keys d))
  | _ => Raise TypeError
  end.

(** [v.lower()] *)
Definition py_lower (v : pyval) : result string :=
  match v with
  | PStr s => Ok (lower s)
  | _ => Raise AttributeError
  end.

(** [v.count(x)] for a text [x]: texts and lists have the method. *)
Definition py_count (v : pyval) (x : string) : result Z :=
  match v with
  | PStr s => Ok (str_count x s)
  | PList l => Ok (Z.of_nat (List.length (filter (is_text x) l)))
  | _ => Raise AttributeError
  end.

(** [v.startswith(p)] *)
Definition py_startswith (v : pyval) (p : string) : result bool :=
  match v with
  | PStr s => Ok (startswith p s)
  | _ => Raise AttributeError
  end.

Fixpoint chars_of (s : string) : list pyval :=
  match s with
  | EmptyString => []
  | String c s' => PStr (String c EmptyString) :: chars_of s'
  end.

(** The elements a [for] loop or a comprehension draws from [v]. *)
Definition py_iter (v : pyval) : result (list pyval) :=
  match v with
  | PStr s => Ok (chars_of s)
  | PList l => Ok l
  | PDict d => Ok (map (fun kv => PStr (fst kv)) d)
  | _ => Raise TypeError
  end.

(* ================================================================= *)
(** ** Regular expressions ([re]) *)

(** The fragment of the pattern language the extractors use, matched with
    Brzozowski derivatives.  [Rep lo hi r] is [r{lo,hi}], [hi = None] for
    an open upper bound. *)
Inductive regex : Type :=
| Void
| Eps
| Class (p : ascii -> bool)
| Cat (r1 r2 : regex)
| Alt (r1 r2 : regex)
| Rep (lo : nat) (hi : option nat) (r : regex).

Fixpoint nullable (r : regex) : bool :=
  match r with
  | Void => false
  | Eps => true
  | Class _ => false
  | Cat r1 r2 => (nullable r1 && nullable r2)%bool
  | Alt r1 r2 => (nullable r1 || nullable r2)%bool
  | Rep lo _ r' => (Nat.eqb lo 0 || nullable r')%bool
  end.

Fixpoint deriv (c : ascii) (r : regex) : regex :=
  match r with
  | Void | Eps => Void
  | Class p => if p c then Eps else Void
  | Cat r1 r2 =>
      if nullable r1
      then Alt (Cat (deriv c r1) r2) (deriv c r2)
      else Cat (deriv c r1) r2
  | Alt r1 r2 => Alt (deriv c r1) (deriv c r2)
  | Rep lo hi r' =>
      match hi with
      | Some O => Void
      | _ => Cat (deriv c r') (Rep (Nat.pred lo) (option_map Nat.pred hi) r')
      end
  end.

(** The whole of [s] matches [r]. *)
Fixpoint full_match (r : regex) (s : string) : bool :=
  match s with
  | EmptyString => nullable r
  | String c s' => full_match (deriv c r) s'
  end.

(** Some prefix of [s] matches [r]. *)
Fixpoint prefix_match (r : regex) (s : string) : bool :=
  (nullable r ||
   match s with
   | EmptyString => false
   | String c s' => prefix_match (deriv c r) s'
   end)%bool.

(** [bool(re.search(r, s))] *)
Fixpoint re_search (r : regex) (s : string) : bool :=
  (prefix_match r s ||
   match s with
   | EmptyString => false
   | String _ s' => re_search r s'
   end)%bool.

Definition newline : ascii := ascii_of_nat 10.

(** [s] without its last character when that is a newline. *)
Fixpoint chop_newline (s : string) : string :=
  match s with
  | EmptyString => EmptyString
  | String c EmptyString => if Ascii.eqb c newline then EmptyString else s
  | String c s' => String c (chop_newline s')
  end.

(** [re.search(r + "$", s)] for an [r] that matches no newline: the length
    of the leftmost match, which runs to the end of [s] or to the newline
    that ends [s]. *)
Fixpoint re_search_end (r : regex) (s : string) : option nat :=
  if full_match r s then Some (String.length s)
  else if full_match r (chop_newline s) then Some (String.length (chop_newline s))
  else match s with
       | EmptyString => None
       | String _ s' => re_search_end r s'
       end.

Definition lit (c : ascii) : regex := Class (Ascii.eqb c).

Fixpoint lits (s : string) : regex :=
  match s with
  | EmptyString => Eps
  | String c s' => Cat (lit c) (lits s')
  end.

(** [\.([a-zA-Z0-9]{1,6})] (the [$] is applied by [re_search_end]) *)
Definition re_file_extension : regex :=
  Cat (lit ".") (Rep 1 (Some 6%nat) (Class is_ascii_alnum)).

(** [[0-9a-z]{15,}] *)
Definition re_random_label : regex :=
  Rep 15 None (Class (fun c => (is_digit c || is_ascii_lower c)%bool)).

(** [\d]: among the code points below U+0100 the decimal digits are 0-9. *)
Definition class_digit : ascii -> bool := is_digit.

(** [[^a-zA-Z0-9]] *)
Definition class_special : ascii -> bool := fun c => negb (is_ascii_alnum c).

(** [https?://\d{1,3}(\.\d{1,3}){3}] *)
Definition re_ip_url : regex :=
  Cat (lits "http")
   (Cat (Rep 0 (Some 1%nat) (lit "s"))
     (Cat (lits "://")
       (Cat (Rep 1 (Some 3%nat) (Class class_digit))
            (Rep 3 (Some 3%nat)
               (Cat (lit ".") (Rep 1 (Some 3%nat) (Class class_digit))))))).

(** [re.search(r, v)] and [re.findall(cls, v)] take a text. *)
Definition py_re_search (r : regex) (v : pyval) : result bool :=
  match v with
  | PStr s => Ok (re_search r s)
  | _ => Raise TypeError
  end.

Definition py_re_findall (cls : ascii -> bool) (v : pyval) : result string :=
  match v with
  | PStr s => Ok (filter_chars cls s)
  | _ => Raise TypeError
  end.

(* ================================================================= *)
(** ** Feature vectors and rows *)

(** What a feature or a cell of a row holds. *)
Inductive value : Type :=
| VInt (z : Z)
| VFloat (q : Q)
| VStr (s : string).

(** A Python dict with text keys, in insertion order. *)
Definition dict : Type := list (string * value).

(** [d[k] = v]: overwrite in place, or append a new key. *)
Fixpoint dict_set (k : string) (v : value) (d : dict) : dict :=
  match d with
  | [] => [(k, v)]
  | (k', v') :: d' =>
      if String.eqb k' k then (k', v) :: d' else (k', v') :: dict_set k v d'
  end.

(** [d.update(e)] *)
Definition dict_update (d e : dict) : dict :=
  fold_left (fun acc kv => dict_set (fst kv) (snd kv) acc) e d.

Section Extractors.

(* ================================================================= *)
(** ** [urllib.parse.urlparse] *)

(** The verdict of [urllib.parse._check_bracketed_host] on the text between
    the brackets of a network location: it accepts IPvFuture and IPv6
    literals, through the [ipaddress] library, which is not modelled. *)
Variable bracketed_host_ok : string -> bool.

Record ParseResult : Type := mk_parse {
  scheme : string;
  netloc : string;
  path : string;
  params : string;
  query : string;
  fragment : string
}.

Definition is_c0_control_or_space (c : ascii) : bool := Nat.leb (code c) 32.

Definition is_unsafe_url_byte (c : ascii) : bool :=
  let n := code c in (Nat.eqb n 9 || Nat.eqb n 13 || Nat.eqb n 10)%bool.

Definition is_scheme_char (c : ascii) : bool :=
  (is_ascii_alnum c || Ascii.eqb c "+" || Ascii.eqb c "-" || Ascii.eqb c ".")%bool.

Definition first_is (p : ascii -> bool) (s : string) : bool :=
  match s with
  | String c _ => p c
  | EmptyString => false
  end.

(** [_splitnetloc(url, 2)] on the text after the two slashes: the network
    location runs to the first of [/], [?], [#]. *)
Fixpoint splitnetloc (s : string) : string * string :=
  match s with
  | EmptyString => (EmptyString, EmptyString)
  | String c s' =>
      if (Ascii.eqb c "/" || Ascii.eqb c "?" || Ascii.eqb c "#")%bool
      then (EmptyString, s)
      else let (n, rest) := splitnetloc s' in (String c n, rest)
  end.

(** [s.partition(c)[0]] and [s.partition(c)[2]] *)
Definition before_char (c : ascii) (s : string) : string :=
  match partition_char c s with Some (l, _) => l | None => s end.
Definition after_char (c : ascii) (s : string) : string :=
  match partition_char c s with Some (_, r) => r | None => EmptyString end.

(** [_check_bracketed_netloc]; [true] when it returns, [false] when it
    raises [ValueError]. *)
Definition check_bracketed_netloc (nl : string) : bool :=
  let hostname_and_port :=
    match rpartition_char "@" nl with Some (_, r) => r | None => nl end in
  match partition_char "[" hostname_and_port with
  | Some (before_bracket, bracketed) =>
      if negb (String.eqb before_bracket "") then false
      else
        let hostname := before_char "]" bracketed in
        let port := after_char "]" bracketed in
        if (negb (String.eqb port "") && negb (startswith ":" port))%bool then false
        else bracketed_host_ok hostname
  | None => bracketed_host_ok (before_char ":" hostname_and_port)
  end.

(** [unicodedata.normalize('NFKC', c)] for one code point below U+0100, as
    the code points of the result.  Fourteen of them have a compatibility
    mapping; the others, the accented Latin-1 letters among them, are their
    own normal form. *)
Definition nfkc_char (c : ascii) : list N :=
  match N_of_ascii c with
  | 160 => [32]
  | 168 => [32; 776]
  | 170 => [97]
  | 175 => [32; 772]
  | 178 => [50]
  | 179 => [51]
  | 180 => [32; 769]
  | 181 => [956]
  | 184 => [32; 807]
  | 185 => [49]
  | 186 => [111]
  | 188 => [49; 8260; 52]
  | 189 => [49; 8260; 50]
  | 190 => [51; 8260; 52]
  | n => [n]
  end%N.

(** [unicodedata.normalize('NFKC', s)]: below U+0100 no code point combines
    with its neighbours, so the normal form of a text is that of its code
    points one after the other. *)
Fixpoint nfkc (s : string) : list N :=
  match s with
  | EmptyString => []
  | String c s' => (nfkc_char c ++ nfkc s')%list
  end.

Fixpoint code_points (s : string) : list N :=
  match s with
  | EmptyString => []
  | String c s' => N_of_ascii c :: code_points s'
  end.

Fixpoint same_code_points (a b : list N) : bool :=
  match a, b with
  | [], [] => true
  | x :: a', y :: b' => (N.eqb x y && same_code_points a' b')%bool
  | _, _ => false
  end.

Definition isascii (s : string) : bool := all_chars (fun c => Nat.ltb (code c) 128) s.

(** [_checknetloc(netloc)]; [true] when it returns, [false] when it raises
    [ValueError]. *)
Definition checknetloc (netloc : string) : bool :=
  if (String.eqb netloc "" || isascii netloc)%bool then true
  else
    let n :=
      filter_chars
        (fun c => negb (Ascii.eqb c "@" || Ascii.eqb c ":" || Ascii.eqb c "#"
                        || Ascii.eqb c "?"))
        netloc in
    let netloc2 := nfkc n in
    if same_code_points (code_points n) netloc2 then true
    else negb (existsb (fun c => existsb (N.eqb c) netloc2) [47; 63; 35; 64; 58]%N).

(** [urlsplit(url)] for a text. *)
Definition urlsplit (url : string)
  : result (string * string * string * string * string) :=
  let url := lstrip is_c0_control_or_space url in
  let url := filter_chars (fun c => negb (is_unsafe_url_byte c)) url in
  let '(scheme, url) :=
    match partition_char ":" url with
    | Some (pre, rest) =>
        if (negb (String.eqb pre "") && first_is is_ascii_alpha url
            && all_chars is_scheme_char pre)%bool
        then (lower pre, rest)
        else (EmptyString, url)
    | None => (EmptyString, url)
    end in
  r <- (if startswith "//" url
        then
          let '(nl, rest) := splitnetloc (String.substring 2 (String.length url - 2) url) in
          if (xorb (char_in "[" nl) (char_in "]" nl))%bool then Raise ValueError
          else if (char_in "[" nl && char_in "]" nl)%bool
               then if check_bracketed_netloc nl then Ok (nl, rest) else Raise ValueError
               else Ok (nl, rest)
        else Ok (EmptyString, url)) ;;
  let '(netloc, url) := r in
  let '(url, fragment) :=
    match partition_char "#" url with
    | Some (l, f) => (l, f)
    | None => (url, EmptyString)
    end in
  let '(url, query) :=
    match partition_char "?" url with
    | Some (l, q) => (l, q)
    | None => (url, EmptyString)
    end in
  if checknetloc netloc then Ok (scheme, netloc, url, query, fragment)
  else Raise ValueError.

Definition uses_params : list string :=
  [""; "ftp"; "hdl"; "prospero"; "http"; "imap"; "https"; "shttp"; "rtsp";
   "rtspu"; "sip"; "sips"; "mms"; "sftp"; "tel"].

(** [_splitparams(url)], called when [;] occurs in [url] *)
Definition splitparams (url : string) : string * string :=
  match rpartition_char "/" url with
  | Some (head, tail) =>
      match partition_char ";" tail with
      | Some (l, p) => (head ++ "/" ++ l, p)
      | None => (url, EmptyString)
      end
  | None =>
      match partition_char ";" url with
      | Some (l, p) => (l, p)
      | None => (url, EmptyString)
      end
  end.

Definition urlparse_text (url : string) : result ParseResult :=
  sp <- urlsplit url ;;
  let '(scheme, netloc, url, query, fragment) := sp in
  let '(url, params) :=
    if (existsb (String.eqb scheme) uses_params && char_in ";" url)%bool
    then splitparams url
    else (url, EmptyString) in
  Ok (mk_parse scheme netloc url params query fragment).

(** [urlparse(url)].  An argument that is not a text goes through
    [_decode_args]: a truthy one has no [decode] method, a falsy one is
    read as the empty URL (its parts come back as empty [bytes], which the
    extractor cannot tell from empty texts: it compares [scheme] with a
    text and takes every other part through [or ""]). *)
Definition urlparse (url : pyval) : result ParseResult :=
  match url with
  | PStr s => urlparse_text s
  | _ =>
      if py_truthy url then Raise AttributeError
      else Ok (mk_parse "" "" "" "" "" "")
  end.

(* ================================================================= *)
(** ** Floats computed by the extractors *)

(** [round(num / den, 3)] turns on the integer nearest to
    [1000 * num / den].  When that quotient is exactly half way between two
    integers, the float standing for [num / den] lies on one side of the
    midpoint or the other and [round] follows it (on the midpoint itself it
    rounds to even); [tie_rounds_up num den] is the outcome, which depends
    on the binary rounding of the quotient and is left open.  Away from
    the midpoints the float quotient and the exact one round alike (for
    every divisor below 10^12). *)
Variable tie_rounds_up : Z -> Z -> bool.

(** The integer nearest to [num / den], [den > 0]. *)
Definition round_nearest (num den : Z) : Z :=
  let d := num / den in
  let r := num mod den in
  if 2 * r <? den then d
  else if den <? 2 * r then d + 1
  else if tie_rounds_up num den then d + 1 else d.

(** [round(num / den, 3)] for integers [num] and [den > 0]. *)
Definition round3_div (num den : Z) : Q :=
  Qred (Qmake (round_nearest (1000 * num) den) 1000).

(** [num / den], true division of integers, [den > 0]. *)
Definition true_div (num den : Z) : Q := Qred (Qmake num (Z.to_pos den)).

(* ================================================================= *)
(** ** [extract_general_features.py] *)

Definition nonempty (s : string) : bool := negb (String.eqb s "").

Definition is_some {A : Type} (o : option A) : bool :=
  match o with Some _ => true | None => false end.

(** [any(x in v for x in xs)] *)
Fixpoint py_any_in (xs : list string) (v : pyval) : result bool :=
  match xs with
  | [] => Ok false
  | x :: xs' => b <- py_contains x v ;; if b then Ok true else py_any_in xs' v
  end.

(** [any(term in s for term in terms)] on a text *)
Definition any_in (terms : list string) (s : string) : bool :=
  existsb (fun term => str_in term s) terms.

Definition suspicious_terms : list string :=
  ["login"; "update"; "verify"; "secure"; "bank"; "account"; "signin";
   "password"; "confirm"].

(** The assignments [features[k] = v] of the source use pairwise distinct
    keys, so the dict they build is the list of the bindings in program
    order; a later read of [features[k]] is the local name of that value. *)
Definition extract_general_features (data : pyval) : result dict :=
  (* URL structure analysis *)
  url0 <- py_get data "url" (PStr "") ;;
  let url := py_or url0 (PStr "") in
  parsed <- urlparse url ;;
  url_length <- py_len url ;;
  let scheme_http := int_of_bool (String.eqb (scheme parsed) "http") in
  let scheme_https := int_of_bool (String.eqb (scheme parsed) "https") in
  (* Path & query analysis *)
  let path := path parsed in
  let query := query parsed in
  let path_length := len path in
  let query_length := len query in
  let num_path_segments := if nonempty path then str_count "/" path else 0 in
  let num_query_params := if nonempty query then str_count "&" query + 1 else 0 in
  let has_query := int_of_bool (nonempty query) in
  (* Filename / extension detection *)
  let match_ext := re_search_end re_file_extension path in
  let has_file_extension := int_of_bool (is_some match_ext) in
  let file_extension_len :=
    match match_ext with
    | Some n => Z.of_nat n - 1
    | None => 0
    end in
  (* Subdomain analysis *)
  subdomain0 <- py_get data "subdomain" (PStr "") ;;
  let subdomain := py_or (py_or subdomain0 (PStr (netloc parsed))) (PStr "") in
  has_subdomain0 <- py_get data "has_subdomain" (PBool false) ;;
  has_subdomain <- py_int has_subdomain0 ;;
  subdomain_length <- py_len subdomain ;;
  num_subdomain_levels <- py_count subdomain "." ;;
  random_label <- py_re_search re_random_label subdomain ;;
  let contains_random_subdomain := int_of_bool random_label in
  (* URL lexical/entropy indicators *)
  digits <- py_re_findall class_digit url ;;
  let num_digits_in_url := len digits in
  specials <- py_re_findall class_special url ;;
  let num_special_chars := len specials in
  ip <- py_re_search re_ip_url url ;;
  let contains_ip_in_url := int_of_bool ip in
  percent <- py_contains "%" url ;;
  encoded <- (if percent then Ok true else py_any_in ["+"; "-"; "_"; "="] url) ;;
  let contains_encoded_chars := int_of_bool encoded in
  (* Suspicious keywords *)
  url_lower <- py_lower url ;;
  let contains_suspicious_keyword := int_of_bool (any_in suspicious_terms url_lower) in
  (* Ratio features *)
  let digit_ratio := round3_div num_digits_in_url (url_length + 1) in
  let special_char_ratio := round3_div num_special_chars (url_length + 1) in
  (* DNS and HTTP content status *)
  dns_status0 <- py_get data "dns_status" (PStr "") ;;
  let dns_status := lower (py_str dns_status0) in
  content_status0 <- py_get data "content_status" (PInt 0) ;;
  content_status <- py_int content_status0 ;;
  let dns_resolves := int_of_bool (str_in "resolve" dns_status) in
  let dns_error := int_of_bool (str_in "error" dns_status || str_in "fail" dns_status) in
  let is_http_ok := int_of_bool ((200 <=? content_status) && (content_status <? 300)) in
  let is_http_redirect := int_of_bool ((300 <=? content_status) && (content_status <? 400)) in
  let is_http_client_error := int_of_bool ((400 <=? content_status) && (content_status <? 500)) in
  let is_http_server_error := int_of_bool ((500 <=? content_status) && (content_status <? 600)) in
  (* Derived heuristics and tech_info *)
  let is_complex_url :=
    int_of_bool ((80 <? url_length) || (10 <? num_special_chars)
                 || negb (contains_random_subdomain =? 0)) in
  let is_suspicious_dns_or_status :=
    int_of_bool (negb (dns_error =? 0) || negb (is_http_client_error =? 0)
                 || negb (is_http_server_error =? 0)) in
  tech_info <- py_get data "tech_info" (PList []) ;;
  tech_info_count <- py_len tech_info ;;
  let has_tech_info := int_of_bool (py_truthy tech_info) in
  Ok [ ("url_length", VInt url_length);
       ("scheme_http", VInt scheme_http);
       ("scheme_https", VInt scheme_https);
       ("path_length", VInt path_length);
       ("query_length", VInt query_length);
       ("num_path_segments", VInt num_path_segments);
       ("num_query_params", VInt num_query_params);
       ("has_query", VInt has_query);
       ("has_file_extension", VInt has_file_extension);
       ("file_extension_len", VInt file_extension_len);
       ("has_subdomain", VInt has_subdomain);
       ("subdomain_length", VInt subdomain_length);
       ("num_subdomain_levels", VInt num_subdomain_levels);
       ("contains_random_subdomain", VInt contains_random_subdomain);
       ("num_digits_in_url", VInt num_digits_in_url);
       ("num_special_chars", VInt num_special_chars);
       ("contains_ip_in_url", VInt contains_ip_in_url);
       ("contains_encoded_chars", VInt contains_encoded_chars);
       ("contains_suspicious_keyword", VInt contains_suspicious_keyword);
       ("digit_ratio", VFloat digit_ratio);
       ("special_char_ratio", VFloat special_char_ratio);
       ("dns_resolves", VInt dns_resolves);
       ("dns_error", VInt dns_error);
       ("content_status", VInt content_status);
       ("is_http_ok", VInt is_http_ok);
       ("is_http_redirect", VInt is_http_redirect);
       ("is_http_client_error", VInt is_http_client_error);
       ("is_http_server_error", VInt is_http_server_error);
       ("is_complex_url", VInt is_complex_url);
       ("is_suspicious_dns_or_status", VInt is_suspicious_dns_or_status);
       ("tech_info_count", VInt tech_info_count);
       ("has_tech_info", VInt has_tech_info) ].

(* ================================================================= *)
(** ** [extract_contentinfo_features.py] *)

(** A left fold that stops at the first exception: a [for] loop whose body
    updates local state. *)
Fixpoint foldM {A S : Type} (f : S -> A -> result S) (l : list A) (s : S) : result S :=
  match l with
  | [] => Ok s
  | x :: xs => s' <- f s x ;; foldM f xs s'
  end.

(** Body of the loop over the headers of one HAR entry; the state is the
    pair of lists [servers], [content_types]. *)
Definition header_step (acc : list string * list string) (h : pyval)
  : result (list string * list string) :=
  key0 <- py_get h "key" (PStr "") ;;
  key <- py_lower key0 ;;
  value0 <- py_get h "value" (PStr "") ;;
  value <- py_lower value0 ;;
  let servers := if String.eqb key "server" then (fst acc ++ [value])%list else fst acc in
  let content_types :=
    if String.eqb key "content-type" then (snd acc ++ [value])%list else snd acc in
  Ok (servers, content_types).

(** Body of the loop over the HAR entries. *)
Definition entry_step (acc : list string * list string) (entry : pyval)
  : result (list string * list string) :=
  response <- py_get entry "response" (PDict []) ;;
  headers <- py_get response "headers" (PList []) ;;
  hs <- py_iter headers ;;
  foldM header_step hs acc.

Definition collect_headers (har_entries : pyval) : result (list string * list string) :=
  entries <- py_iter har_entries ;;
  foldM entry_step entries ([], []).

(** [sum(x in t for t in ts)] *)
Definition count_containing (x : string) (ts : list string) : Z :=
  Z.of_nat (List.length (filter (str_in x) ts)).

(** Objects that can be members of a set. *)
Definition py_hashable (v : pyval) : bool :=
  match v with
  | PList _ | PDict _ => false
  | _ => true
  end.

Definition number_of (v : pyval) : option float_number :=
  match v with
  | PBool b => Some (FFinite (inject_Z (int_of_bool b)))
  | PInt z => Some (FFinite (inject_Z z))
  | PFloat x => Some (float_number_of x)
  | _ => None
  end.

(** [a == b] between the members of a set: numbers compare by value
    across [bool], [int] and [float]; NaN is the one object [json] decodes
    it to, which a set keeps once. *)
Definition py_eq (a b : pyval) : bool :=
  match a, b with
  | PNone, PNone => true
  | PStr s, PStr t => String.eqb s t
  | _, _ =>
      match number_of a, number_of b with
      | Some (FFinite p), Some (FFinite q) => Qeq_bool p q
      | Some FNan, Some FNan => true
      | Some (FInf m), Some (FInf n) => Bool.eqb m n
      | _, _ => false
      end
  end.

Fixpoint distinct (l : list pyval) : list pyval :=
  match l with
  | [] => []
  | x :: xs => if existsb (py_eq x) xs then distinct xs else x :: distinct xs
  end.

(** [len(set(l))] *)
Definition py_set_size (l : list pyval) : result Z :=
  if forallb py_hashable l then Ok (Z.of_nat (List.length (distinct l)))
  else Raise TypeError.

(** [[r.get("md5") for r in responses if "md5" in r]] *)
Definition md5_step (acc : list pyval) (r : pyval) : result (list pyval) :=
  present <- py_contains "md5" r ;;
  if present then (m <- py_get r "md5" PNone ;; Ok (acc ++ [m])%list) else Ok acc.

(** [len(r.get("file_type", ""))] *)
Definition file_type_len (r : pyval) : result Z :=
  ft <- py_get r "file_type" (PStr "") ;; py_len ft.

(** [x in r.get("file_type", "").lower()] *)
Definition file_type_has (x : string) (r : pyval) : result bool :=
  ft <- py_get r "file_type" (PStr "") ;;
  ft_lower <- py_lower ft ;;
  Ok (str_in x ft_lower).

Definition sumZ (l : list Z) : Z := fold_right Z.add 0 l.

Definition count_true (l : list bool) : Z := Z.of_nat (List.length (filter id l)).

Definition is_none (v : pyval) : bool :=
  match v with PNone => true | _ => false end.

Definition extract_contentinfo_features (content_info : pyval) : result dict :=
  (* Basic page metadata *)
  status_code0 <- py_get content_info "status_code" (PInt 0) ;;
  status_code <- py_int status_code0 ;;
  error_msg <- py_get content_info "error_msg" PNone ;;
  let has_error := int_of_bool (negb (is_none error_msg)) in
  title_test <- py_get content_info "title" PNone ;;
  title_length <-
    (if py_truthy title_test
     then (title <- py_get content_info "title" (PStr "") ;; py_len title)
     else Ok 0) ;;
  html_test <- py_get content_info "html" PNone ;;
  let has_html := int_of_bool (py_truthy html_test) in
  html0 <- py_get content_info "html" (PStr "") ;;
  html_length <- py_len html0 ;;
  (* Analyze HTML content if available *)
  html1 <- py_get content_info "html" (PStr "") ;;
  html <- py_lower html1 ;;
  let contains_loader_text :=
    int_of_bool (any_in ["please wait"; "loading"; "redirect"] html) in
  let contains_script_tag := int_of_bool (str_in "<script" html) in
  let contains_iframe := int_of_bool (str_in "<iframe" html) in
  let contains_form := int_of_bool (str_in "<form" html) in
  let num_links := str_count "href=" html in
  let num_scripts := str_count "<script" html in
  (* Destination URL *)
  destination <- py_get content_info "destination" (PStr "") ;;
  url_length <- py_len destination ;;
  num_subdomains <- py_count destination "." ;;
  https <- py_startswith destination "https" ;;
  let uses_https := int_of_bool https in
  ip <- py_re_search re_ip_url destination ;;
  let contains_ip_in_url := int_of_bool ip in
  percent <- py_contains "%" destination ;;
  encoded <- (if percent then Ok true else py_any_in ["+"; "-"; "_"] destination) ;;
  let contains_encoded_chars := int_of_bool encoded in
  ar_io <- py_contains ".ar-io.dev" destination ;;
  arweave <- (if ar_io then Ok true else py_contains "arweave" destination) ;;
  let is_arweave_host := int_of_bool arweave in
  (* HAR and network responses *)
  har_entries <- py_get content_info "har" (PList []) ;;
  responses <- py_get content_info "responses" (PList []) ;;
  num_requests <- py_len har_entries ;;
  num_responses <- py_len responses ;;
  (* Extract server/CDN hints *)
  collected <- collect_headers har_entries ;;
  let servers := fst collected in
  let content_types := snd collected in
  let server_string := join " " servers in
  let content_string := join " " content_types in
  let has_cloudflare := int_of_bool (str_in "cloudflare" server_string) in
  let has_aws_cloudfront := int_of_bool (str_in "cloudfront" server_string) in
  let has_tencent_cos := int_of_bool (str_in "tencent-cos" server_string) in
  let num_js_files := count_containing "javascript" content_types in
  let num_css_files := count_containing "css" content_types in
  let num_html_files := count_containing "html" content_types in
  let has_gzip_encoding := int_of_bool (str_in "gzip" content_string) in
  let has_csp_header := int_of_bool (str_in "content-security-policy" content_string) in
  (* Response metadata (from responses[]) *)
  rs1 <- py_iter responses ;;
  md5_list <- foldM md5_step rs1 [] ;;
  num_unique_md5 <- py_set_size md5_list ;;
  rs2 <- py_iter responses ;;
  sizes <- mapM file_type_len rs2 ;;
  count <- py_len responses ;;
  let avg_file_size_class := true_div (sumZ sizes) (if count =? 0 then 1 else count) in
  rs3 <- py_iter responses ;;
  long_lines <- mapM (file_type_has "long lines") rs3 ;;
  let num_long_lines_files := count_true long_lines in
  rs4 <- py_iter responses ;;
  asciis <- mapM (file_type_has "ascii") rs4 ;;
  let num_ascii_files := count_true asciis in
  (* Derived indicators *)
  let is_suspicious_loader_page :=
    int_of_bool (negb (contains_loader_text =? 0) && (3 <? num_js_files)
                 && (100 <? url_length)) in
  let is_heavy_page := int_of_bool ((10000 <? html_length) && (5 <? num_requests)) in
  Ok [ ("status_code", VInt status_code);
       ("has_error", VInt has_error);
       ("title_length", VInt title_length);
       ("has_html", VInt has_html);
       ("html_length", VInt html_length);
       ("contains_loader_text", VInt contains_loader_text);
       ("contains_script_tag", VInt contains_script_tag);
       ("contains_iframe", VInt contains_iframe);
       ("contains_form", VInt contains_form);
       ("num_links", VInt num_links);
       ("num_scripts", VInt num_scripts);
       ("url_length", VInt url_length);
       ("num_subdomains", VInt num_subdomains);
       ("uses_https", VInt uses_https);
       ("contains_ip_in_url", VInt contains_ip_in_url);
       ("contains_encoded_chars", VInt contains_encoded_chars);
       ("is_arweave_host", VInt is_arweave_host);
       ("num_requests", VInt num_requests);
       ("num_responses", VInt num_responses);
       ("has_cloudflare", VInt has_cloudflare);
       ("has_aws_cloudfront", VInt has_aws_cloudfront);
       ("has_tencent_cos", VInt has_tencent_cos);
       ("num_js_files", VInt num_js_files);
       ("num_css_files", VInt num_css_files);
       ("num_html_files", VInt num_html_files);
       ("has_gzip_encoding", VInt has_gzip_encoding);
       ("has_csp_header", VInt has_csp_header);
       ("num_unique_md5", VInt num_unique_md5);
       ("avg_file_size_class", VFloat avg_file_size_class);
       ("num_long_lines_files", VInt num_long_lines_files);
       ("num_ascii_files", VInt num_ascii_files);
       ("is_suspicious_loader_page", VInt is_suspicious_loader_page);
       ("is_heavy_page", VInt is_heavy_page) ].

(* ================================================================= *)
(** ** [orchestrator.py] *)

(** What a call of an extractor hands back to [safe_call]: a dict, or an
    object of another type. *)
Inductive returned : Type :=
| RetDict (d : dict)
| RetOther.

Definition extractor : Type := pyval -> result returned.

(** The modules [extract_hostinfo_features] and
    [extract_additional_features] are imported by the orchestrator and are
    not among the sources; the aggregator is modelled over any two
    extractors in their place. *)
Variable extract_hostinfo_features : extractor.
Variable extract_additional_features : extractor.

Definition general_extractor : extractor :=
  fun data => d <- extract_general_features data ;; Ok (RetDict d).

Definition contentinfo_extractor : extractor :=
  fun content_info => d <- extract_contentinfo_features content_info ;; Ok (RetDict d).

(** What the orchestrator writes, in program order: the lines it prints on
    standard output, and [Traceback] for each call of
    [traceback.print_exc()], which writes the trace of the exception being
    handled on standard error.  The progress bars of [tqdm] are left out. *)
Inductive log_line : Type :=
| ExtractorError (fname filename : string) (e : exn)
| Traceback
| EmptyFileSkipped (filename : string)
| InvalidJson (filename : string)
| ErrorReading (filename : string)
| FolderNotFound (folder_path : string)
| ProcessingFolder (category_name : string) (label : Z)
| SkippedInvalidStructure (filename : string)
| DatasetBuilt (samples columns : nat).

Definition BENIGN_PATH : string := "D:/Downloads/benign".
Definition MALICIOUS_PATH : string := "D:/Downloads/malicious".

(** [safe_call(func, arg, fname, filename)]: the dict it returns and what
    it writes. *)
Definition safe_call (func : extractor) (arg : pyval) (fname filename : string)
  : dict * list log_line :=
  let arg := if is_none arg then PDict [] else arg in
  match func arg with
  | Ok (RetDict result) => (result, [])
  | Ok RetOther => ([], [])
  | Raise e => ([], [ExtractorError fname filename e; Traceback])
  end.

(** A file of a folder, as [load_json_file] finds it. *)
Inductive file_content : Type :=
| Unreadable               (* opening or reading raises *)
| Blank                    (* nothing but white space *)
| Malformed                (* [json.loads] raises [JSONDecodeError] *)
| Json (v : pyval).        (* [json.loads] returns [v] *)

(** [load_json_file(file_path, filename)], [None] standing for Python's
    [None]. *)
Definition load_json_file (f : file_content) (filename : string)
  : option pyval * list log_line :=
  match f with
  | Blank => (None, [EmptyFileSkipped filename])
  | Json v => (Some v, [])
  | Malformed => (None, [InvalidJson filename])
  | Unreadable => (None, [ErrorReading filename; Traceback])
  end.

(** [os.listdir] of a folder with the content of each file; [None] when
    the folder does not exist. *)
Definition filesystem : Type := string -> option (list (string * file_content)).

(** [d.get(k) or {}] on the dict of a record *)
Definition section_of (d : list (string * pyval)) (k : string) : pyval :=
  py_or (match assoc k d with Some v => v | None => PNone end) (PDict []).

(** The body of the loop over the files once [data] is known to be a dict
    [d]: the row and the lines printed. *)
Definition build_row (d : list (string * pyval)) (label : Z)
    (filename category_name : string) : dict * list log_line :=
  let data := PDict d in
  let row : dict := [] in
  let '(general, log1) :=
    safe_call general_extractor data "extract_general_features" filename in
  let row := dict_update row general in
  let host_info := section_of d "host_info" in
  let content_info := section_of d "content_info" in
  let additional := section_of d "additional" in
  let '(host, log2) :=
    safe_call extract_hostinfo_features host_info "extract_hostinfo_features" filename in
  let row := dict_update row host in
  let '(content, log3) :=
    safe_call contentinfo_extractor content_info "extract_contentinfo_features" filename in
  let row := dict_update row content in
  let '(extra, log4) :=
    safe_call extract_additional_features additional "extract_additional_features" filename in
  let row := dict_update row extra in
  let row := dict_set "label" (VInt label) row in
  let row := dict_set "filename" (VStr filename) row in
  let row := dict_set "category" (VStr category_name) row in
  (row, (log1 ++ log2 ++ log3 ++ log4)%list).

(** One turn of the loop over the files of a folder: the rows to append
    to [data_rows] (one or none) and the lines printed. *)
Definition process_file (label : Z) (category_name : string)
    (entry : string * file_content) : list dict * list log_line :=
  let '(filename, f) := entry in
  let '(data, log0) := load_json_file f filename in
  match data with
  | None => ([], log0)
  | Some v =>
      if negb (py_truthy v) then ([], log0)
      else match v with
           | PDict d =>
               let '(row, log1) := build_row d label filename category_name in
               ([row], (log0 ++ log1)%list)
           | _ => ([], (log0 ++ [SkippedInvalidStructure filename])%list)
           end
  end.

Fixpoint process_files (label : Z) (category_name : string)
    (files : list (string * file_content)) : list dict * list log_line :=
  match files with
  | [] => ([], [])
  | entry :: rest =>
      let '(rows1, log1) := process_file label category_name entry in
      let '(rows2, log2) := process_files label category_name rest in
      ((rows1 ++ rows2)%list, (log1 ++ log2)%list)
  end.

Definition categories : list (string * Z * string) :=
  [ (BENIGN_PATH, 1, "benign");
    (MALICIOUS_PATH, 0, "malicious") ].

Definition is_json_name (fn : string) : bool := endswith ".json" (lower fn).

(** One turn of the loop over [categories]. *)
Definition process_category (fs : filesystem) (c : string * Z * string)
  : list dict * list log_line :=
  let '(folder_path, label, category_name) := c in
  match fs folder_path with
  | None => ([], [FolderNotFound folder_path])
  | Some listing =>
      let files := filter (fun entry => is_json_name (fst entry)) listing in
      let '(rows, log) := process_files label category_name files in
      (rows, (ProcessingFolder category_name label :: log))
  end.

(** The list [data_rows] when the loops are over, and the lines printed. *)
Fixpoint collect_rows (fs : filesystem) (cs : list (string * Z * string))
  : list dict * list log_line :=
  match cs with
  | [] => ([], [])
  | c :: rest =>
      let '(rows1, log1) := process_category fs c in
      let '(rows2, log2) := collect_rows fs rest in
      ((rows1 ++ rows2)%list, (log1 ++ log2)%list)
  end.

(** A table: its columns and one list of cells per record. *)
Record DataFrame : Type := mk_frame {
  columns : list string;
  records : list (list value)
}.

Definition add_column (cols : list string) (k : string) : list string :=
  if existsb (String.eqb k) cols then cols else (cols ++ [k])%list.

(** The union of the keys of the rows, each at its first appearance. *)
Definition columns_of (rows : list dict) : list string :=
  fold_left (fun cols row => fold_left add_column (keys row) cols) rows [].

(** [pd.DataFrame(data_rows)] followed by [fillna(0)]: a cell a row has no
    key for holds 0 (the dtype of a column is not modelled). *)
Definition frame_of (rows : list dict) : DataFrame :=
  let cols := columns_of rows in
  mk_frame cols
    (map (fun row =>
            map (fun c => match assoc c row with Some v => v | None => VInt 0 end) cols)
         rows).

Definition build_global_dataframe (fs : filesystem) : DataFrame * list log_line :=
  let '(data_rows, log) := collect_rows fs categories in
  let df := frame_of data_rows in
  (df, (log ++ [DatasetBuilt (List.length (records df)) (List.length (columns df))])%list).

(* ================================================================= *)
(** ** Vocabularies, input shapes and sample collaborators *)

(** The keys [extract_general_features] assigns, in program order. *)
Definition general_keys : list string :=
  [ "url_length"; "scheme_http"; "scheme_https"; "path_length"; "query_length";
    "num_path_segments"; "num_query_params"; "has_query"; "has_file_extension";
    "file_extension_len"; "has_subdomain"; "subdomain_length";
    "num_subdomain_levels"; "contains_random_subdomain"; "num_digits_in_url";
    "num_special_chars"; "contains_ip_in_url"; "contains_encoded_chars";
    "contains_suspicious_keyword"; "digit_ratio"; "special_char_ratio";
    "dns_resolves"; "dns_error"; "content_status"; "is_http_ok";
    "is_http_redirect"; "is_http_client_error"; "is_http_server_error";
    "is_complex_url"; "is_suspicious_dns_or_status"; "tech_info_count";
    "has_tech_info" ].

(** The keys [extract_contentinfo_features] assigns, in program order. *)
Definition content_keys : list string :=
  [ "status_code"; "has_error"; "title_length"; "has_html"; "html_length";
    "contains_loader_text"; "contains_script_tag"; "contains_iframe";
    "contains_form"; "num_links"; "num_scripts"; "url_length"; "num_subdomains";
    "uses_https"; "contains_ip_in_url"; "contains_encoded_chars";
    "is_arweave_host"; "num_requests"; "num_responses"; "has_cloudflare";
    "has_aws_cloudfront"; "has_tencent_cos"; "num_js_files"; "num_css_files";
    "num_html_files"; "has_gzip_encoding"; "has_csp_header"; "num_unique_md5";
    "avg_file_size_class"; "num_long_lines_files"; "num_ascii_files";
    "is_suspicious_loader_page"; "is_heavy_page" ].

Definition shared_keys : list string :=
  [ "url_length"; "contains_ip_in_url"; "contains_encoded_chars" ].

(** The ratio and average features, whose values are floats. *)
Definition float_keys : list string :=
  [ "digit_ratio"; "special_char_ratio"; "avg_file_size_class" ].

(** The vector over [ks] with 0 under every key, 0.0 under the float keys. *)
Definition zero_vector (ks : list string) : dict :=
  map (fun k => (k, if existsb (String.eqb k) float_keys then VFloat 0 else VInt 0)) ks.

Definition metadata_keys : list string := [ "label"; "filename"; "category" ].

(** The binding of [k] that [update] meets last when it goes through [d];
    it is the binding of [k] when [d] has one binding per key, as a Python
    dict has. *)
Definition binding (k : string) (d : dict) : option value := assoc k (rev d).

(** The value a merge of [ds], merged from left to right, leaves under
    [k]: that of the last dict that has the key. *)
Fixpoint last_writer (k : string) (ds : list dict) : option value :=
  match ds with
  | [] => None
  | d :: rest =>
      match last_writer k rest with
      | Some v => Some v
      | None => binding k d
      end
  end.

(** The extractor [func], called on [arg], returns a dict that has the key
    [k]: merging its result writes [k] in the row. *)
Definition writes (func : extractor) (arg : pyval) (k : string) : Prop :=
  exists h, func arg = Ok (RetDict h) /\ In k (keys h).

(** Shapes of JSON values. *)
Definition absent_or (p : pyval -> bool) (o : option pyval) : bool :=
  match o with None => true | Some v => p v end.

Definition is_str (v : pyval) : bool := match v with PStr _ => true | _ => false end.
Definition is_int (v : pyval) : bool := match v with PInt _ => true | _ => false end.
Definition is_bool_or_int (v : pyval) : bool :=
  match v with PBool _ | PInt _ => true | _ => false end.
Definition is_null_or_str (v : pyval) : bool :=
  match v with PNone | PStr _ => true | _ => false end.
Definition is_list_of (p : pyval -> bool) (v : pyval) : bool :=
  match v with PList l => forallb p l | _ => false end.

Definition is_null_or_parsable_url (v : pyval) : bool :=
  match v with
  | PNone => true
  | PStr s => is_ok (urlparse_text s)
  | _ => false
  end.

(** A record whose fields, where present, have the types the general
    extractor is written for: [url] null or a text that [urlparse] accepts,
    [subdomain] null or a text, [has_subdomain] a boolean or an integer,
    [content_status] an integer, [tech_info] a list; [dns_status] is free. *)
Definition general_wf (data : pyval) : bool :=
  match data with
  | PDict d =>
      (absent_or is_null_or_parsable_url (assoc "url" d)
       && absent_or is_null_or_str (assoc "subdomain" d)
       && absent_or is_bool_or_int (assoc "has_subdomain" d)
       && absent_or is_int (assoc "content_status" d)
       && absent_or (is_list_of (fun _ => true)) (assoc "tech_info" d))%bool
  | _ => false
  end.

Definition header_wf (h : pyval) : bool :=
  match h with
  | PDict hd => (absent_or is_str (assoc "key" hd) && absent_or is_str (assoc "value" hd))%bool
  | _ => false
  end.

Definition response_object_wf (r : pyval) : bool :=
  match r with
  | PDict rd => absent_or (is_list_of header_wf) (assoc "headers" rd)
  | _ => false
  end.

Definition entry_wf (e : pyval) : bool :=
  match e with
  | PDict ed => absent_or response_object_wf (assoc "response" ed)
  | _ => false
  end.

Definition response_wf (r : pyval) : bool :=
  match r with
  | PDict rd =>
      (absent_or py_hashable (assoc "md5" rd) && absent_or is_str (assoc "file_type" rd))%bool
  | _ => false
  end.

(** A [content_info] whose fields, where present, have the types the
    content extractor is written for: [status_code] an integer, [title] null
    or a text, [html] and [destination] texts, [har] a list of entries whose
    [response.headers] is a list of key/value texts, [responses] a list of
    objects with a hashable [md5] and a text [file_type]; [error_msg] is
    free. *)
Definition content_wf (content_info : pyval) : bool :=
  match content_info with
  | PDict d =>
      (absent_or is_int (assoc "status_code" d)
       && absent_or is_null_or_str (assoc "title" d)
       && absent_or is_str (assoc "html" d)
       && absent_or is_str (assoc "destination" d)
       && absent_or (is_list_of entry_wf) (assoc "har" d)
       && absent_or (is_list_of response_wf) (assoc "responses" d))%bool
  | _ => false
  end.


(** Collaborators for the worked examples: a host validator that rejects
    every bracketed host, a rule for ties, and two extractors in the place
    of the missing modules. *)
Definition no_bracketed_host : string -> bool := fun _ => false.

Definition ties_to_even : Z -> Z -> bool := fun num den => Z.odd (num / den).

Definition sample_hostinfo_features : extractor :=
  fun host_info =>
    n <- py_len host_info ;; Ok (RetDict [("host_fields", VInt n)]).

Definition sample_additional_features : extractor :=
  fun _ => Ok (RetDict [("extra_seen", VInt 1)]).

(* ================================================================= *)
(** ** Worked examples *)

(** The [content_info] of Example 4 of the specification, piece by piece. *)
Definition server_header : pyval :=
  PDict [("key", PStr "Server"); ("value", PStr "cloudflare")].

Definition har_response : pyval := PDict [("headers", PList [server_header])].

Definition har_entry : pyval := PDict [("response", har_response)].

Definition har_example : pyval := PDict [("har", PList [har_entry])].

(** [example_data] of [extract_general_features.py]. *)
Definition example_record : list (string * pyval) :=
  [ ("url", PStr "https://ctcggaptffisfgxbf3b4c7amaazzwni5rt4leqols7tyurhvbokq.ar-io.dev/FMRjAfMpUSKa4S7DwXwMADObNR2M-LJBy5fnikT1C5U");
    ("tech_info", PList []);
    ("has_path", PBool true);
    ("has_subdomain", PBool true);
    ("subdomain", PStr "ctcggaptffisfgxbf3b4c7amaazzwni5rt4leqols7tyurhvbokq.ar-io.dev");
    ("content_status", PInt 404);
    ("dns_status", PStr "dns_resolves") ].

Definition example_data : pyval := PDict example_record.

Definition example_features : dict :=
  Eval vm_compute in
    match extract_general_features example_data with
    | Ok f => f
    | Raise _ => []
    end.

Definition har_example_features : dict :=
  Eval vm_compute in
    match extract_contentinfo_features har_example with
    | Ok f => f
    | Raise _ => []
    end.

(** A record whose [content_info] has a null [html]. *)
Definition null_html_record : list (string * pyval) :=
  [ ("url", PStr "http://a.b/login");
    ("host_info", PDict [("ip", PStr "10.0.0.1")]);
    ("content_info", PDict [("html", PNone); ("destination", PStr "")]) ].

(** A record whose general and content vectors disagree on [url_length]. *)
Definition redirected_record : list (string * pyval) :=
  [ ("url", PStr "http://a");
    ("content_info", PDict [("destination", PStr "")]) ].


Definition redirected_features : dict :=
  Eval vm_compute in
    match extract_general_features (PDict redirected_record) with
    | Ok f => f
    | Raise _ => []
    end.

Definition sample_filesystem : filesystem :=
  fun folder_path =>
    if String.eqb folder_path BENIGN_PATH
    then Some [ ("notes.txt", Blank);
                ("a.json", Json (PDict null_html_record));
                ("b.JSON", Json example_data);
                ("c.json", Malformed) ]
    else if String.eqb folder_path MALICIOUS_PATH
    then Some [ ("m.json", Json (PDict redirected_record));
                ("n.json", Json (PList [PInt 1])) ]
    else None.

(** The row [build_row] makes for a record. *)
Definition row_of (d : list (string * pyval)) (label : Z)
    (filename category_name : string) : dict :=
  fst (build_row d label filename category_name).

(** [q] is a multiple of 1/1000 at distance at most 1/2000 from
    [num / den]. *)
Definition nearest_thousandth (num den : Z) (q : Q) : Prop :=
  exists k : Z, (q == k # 1000)%Q /\ 2 * Z.abs (1000 * num - k * den) <= den.

(* ================================================================= *)
(** ** Notions used to state further properties *)

(** The first [n] characters of [s] exist and all satisfy [p]. *)
Fixpoint starts_with_run (p : ascii -> bool) (n : nat) (s : string) : bool :=
  match n with
  | O => true
  | S n' =>
      match s with
      | EmptyString => false
      | String c s' => (p c && starts_with_run p n' s')%bool
      end
  end.

(** The class of the pattern [[0-9a-z]]. *)
Definition is_random_label_char (c : ascii) : bool := (is_digit c || is_ascii_lower c)%bool.

(** [s] has [n] consecutive characters that all satisfy [p]. *)
Definition has_run (p : ascii -> bool) (n : nat) (s : string) : Prop :=
  exists before run after,
    s = before ++ run ++ after /\ String.length run = n /\ all_chars p run = true.

(** The file name and the dict of an entry of a folder that gives a row:
    the name ends in [.json], in any case, and the file holds a JSON object
    that is not empty. *)
Definition record_of (entry : string * file_content)
  : option (string * list (string * pyval)) :=
  if is_json_name (fst entry)
  then match snd entry with
       | Json (PDict (binding :: d)) => Some (fst entry, binding :: d)
       | _ => None
       end
  else None.

Fixpoint records_of (listing : list (string * file_content))
  : list (string * list (string * pyval)) :=
  match listing with
  | [] => []
  | entry :: rest =>
      match record_of entry with
      | Some r => r :: records_of rest
      | None => records_of rest
      end
  end.

(** The names under which the orchestrator reports its four extractors. *)
Definition extractor_names : list string :=
  [ "extract_general_features"; "extract_hostinfo_features";
    "extract_contentinfo_features"; "extract_additional_features" ].

(** More inputs for worked examples. *)
Definition query_record : list (string * pyval) :=
  [ ("url", PStr "http://example.com/a/b/index.php?x=1&y=2");
    ("tech_info", PList [PStr "nginx"; PStr "php"]) ].

Definition query_features : dict :=
  Eval vm_compute in
    match extract_general_features (PDict query_record) with
    | Ok f => f
    | Raise _ => []
    end.

(** A URL whose host has the superscript two, U+00B2, which NFKC turns
    into the digit 2. *)
Definition superscript_url : string :=
  "http://x" ++ String (ascii_of_nat 178) ".example.com/a;b?c#d".

Definition superscript_record : list (string * pyval) :=
  [ ("url", PStr superscript_url); ("tech_info", PList []) ].

Definition login_record : list (string * pyval) := [ ("url", PStr "http://a.b/LogIn") ].

Definition login_features : dict :=
  Eval vm_compute in
    match extract_general_features (PDict login_record) with
    | Ok f => f
    | Raise _ => []
    end.

Definition type_header : pyval :=
  PDict [("key", PStr "Content-Type"); ("value", PStr "Text/JavaScript; gzip")].

Definition page_entry : pyval :=
  PDict [("response", PDict [("headers", PList [server_header; type_header])])].

Definition page_example : list (string * pyval) :=
  [ ("html", PStr "<SCRIPT src=x></script><a HREF=y>go</a>");
    ("har", PList [page_entry]);
    ("responses",
     PList [ PDict [("md5", PStr "a"); ("file_type", PStr "ASCII text, with very long lines")];
             PDict [("md5", PStr "a"); ("file_type", PStr "HTML document")];
             PDict [("file_type", PStr "data")] ]) ].

Definition page_features : dict :=
  Eval vm_compute in
    match extract_contentinfo_features (PDict page_example) with
    | Ok f => f
    | Raise _ => []
    end.

(* ================================================================= *)
(** ** Reasoning about runs of the extractors *)

(** Split a successful run [H : m >>= k = Ok _] into its steps. *)
Ltac run_steps H :=
  repeat match type of H with
    | bind ?m _ = Ok _ =>
        let E := fresh "E" in
        destruct m eqn:E; cbn [bind] in H; [| discriminate H]
    | Raise _ = Ok _ => discriminate H
    end.

Lemma bind_ok {A B : Type} (m : result A) (k : A -> result B) (b : B) :
  bind m k = Ok b -> exists a, m = Ok a /\ k a = Ok b.
Proof.
  destruct m as [a|e]; simpl; intros H; [exists a; auto | discriminate].
Qed.

Lemma general_keys_of_run (data : pyval) (f : dict) :
  extract_general_features data = Ok f -> keys f = general_keys.
Proof.
  unfold extract_general_features. intros H.
  run_steps H. inversion H. reflexivity.
Qed.

Lemma content_keys_of_run (content_info : pyval) (f : dict) :
  extract_contentinfo_features content_info = Ok f -> keys f = content_keys.
Proof.
  unfold extract_contentinfo_features. intros H.
  run_steps H. inversion H. reflexivity.
Qed.

Ltac bucket_cases :=
  unfold int_of_bool;
  repeat match goal with
    | |- context [?a <=? ?b] => destruct (Z.leb_spec a b)
    | |- context [?a <? ?b] => destruct (Z.ltb_spec a b)
    end; cbn [andb]; lia.

(** C6. Whenever [extract_general_features] returns, the four HTTP bucket
    features are 0 or 1 and at most one of them is 1; exactly one is 1
    when the coerced [content_status] lies in [200, 600), all four are 0
    when it lies outside, and a status of 404 gives
    [is_http_client_error = 1] with the other three 0. *)
Theorem http_status_buckets (data : pyval) (f : dict) :
  extract_general_features data = Ok f ->
  exists raw status ok redirect client server,
    py_get data "content_status" (PInt 0) = Ok raw /\
    py_int raw = Ok status /\
    assoc "content_status" f = Some (VInt status) /\
    assoc "is_http_ok" f = Some (VInt ok) /\
    assoc "is_http_redirect" f = Some (VInt redirect) /\
    assoc "is_http_client_error" f = Some (VInt client) /\
    assoc "is_http_server_error" f = Some (VInt server) /\
    (0 <= ok <= 1 /\ 0 <= redirect <= 1 /\ 0 <= client <= 1 /\ 0 <= server <= 1) /\
    ok + redirect + client + server <= 1 /\
    (200 <= status < 600 -> ok + redirect + client + server = 1) /\
    (status < 200 \/ 600 <= status ->
     ok = 0 /\ redirect = 0 /\ client = 0 /\ server = 0) /\
    (status = 404 -> client = 1 /\ ok = 0 /\ redirect = 0 /\ server = 0).
Proof.
  unfold extract_general_features. intros H.
  run_steps H. inversion H; subst f; clear H.
  do 6 eexists.
  split; [reflexivity|]. split; [eassumption|].
  do 5 (split; [reflexivity|]).
  repeat split; try bucket_cases.
  all: intros; bucket_cases.
Qed.

Lemma round_nearest_near (num den : Z) :
  0 < den -> 2 * Z.abs (num - round_nearest num den * den) <= den.
Proof.
  intros Hden. unfold round_nearest.
  pose proof (Z.div_mod num den ltac:(lia)) as Hdm.
  pose proof (Z.mod_pos_bound num den Hden) as Hr.
  destruct (Z.ltb_spec (2 * (num mod den)) den);
    [| destruct (Z.ltb_spec den (2 * (num mod den)));
       [| destruct (tie_rounds_up num den)]]; nia.
Qed.

Lemma round_nearest_bounds (num den m : Z) :
  0 < den -> 0 <= num -> num < m * den ->
  0 <= round_nearest num den <= m.
Proof.
  intros Hden Hnum Hm. unfold round_nearest.
  pose proof (Z.div_mod num den ltac:(lia)) as Hdm.
  pose proof (Z.mod_pos_bound num den Hden) as Hr.
  assert (0 <= num / den) by (apply Z.div_pos; lia).
  assert (num / den < m) by (apply Z.div_lt_upper_bound; lia).
  destruct (Z.ltb_spec (2 * (num mod den)) den);
    [| destruct (Z.ltb_spec den (2 * (num mod den)));
       [| destruct (tie_rounds_up num den)]]; lia.
Qed.

Lemma round3_div_unit (num den : Z) :
  0 <= num < den -> (0 <= round3_div num den <= 1)%Q.
Proof.
  intros H. unfold round3_div.
  destruct (round_nearest_bounds (1000 * num) den 1000) as [Hlo Hhi]; try lia.
  split; rewrite Qred_correct; unfold Qle; cbn [Qnum Qden]; lia.
Qed.

Lemma round3_div_nearest (num den : Z) :
  0 < den -> nearest_thousandth num den (round3_div num den).
Proof.
  intros H. exists (round_nearest (1000 * num) den). split.
  - unfold round3_div. apply Qred_correct.
  - apply round_nearest_near; assumption.
Qed.

Lemma filter_chars_length (p : ascii -> bool) (s : string) :
  (String.length (filter_chars p s) <= String.length s)%nat.
Proof.
  induction s as [|c s IH]; simpl; [lia|].
  destruct (p c); simpl; lia.
Qed.

Lemma findall_within_len (cls : ascii -> bool) (v : pyval) (s : string) (n : Z) :
  py_re_findall cls v = Ok s -> py_len v = Ok n -> 0 <= len s <= n.
Proof.
  destruct v; simpl; try discriminate.
  intros H1 H2. inversion H1; inversion H2; subst.
  unfold len. pose proof (filter_chars_length cls s0). lia.
Qed.

(** C7. Whenever [extract_general_features] returns, [digit_ratio] and
    [special_char_ratio] are [num_digits_in_url] and [num_special_chars]
    divided by [url_length + 1] and rounded to three decimals; the divisor
    is positive and both ratios lie in [0, 1]. *)
Theorem ratio_features (data : pyval) (f : dict) :
  extract_general_features data = Ok f ->
  exists digits specials length,
    assoc "num_digits_in_url" f = Some (VInt digits) /\
    assoc "num_special_chars" f = Some (VInt specials) /\
    assoc "url_length" f = Some (VInt length) /\
    assoc "digit_ratio" f = Some (VFloat (round3_div digits (length + 1))) /\
    assoc "special_char_ratio" f = Some (VFloat (round3_div specials (length + 1))) /\
    0 < length + 1 /\
    nearest_thousandth digits (length + 1) (round3_div digits (length + 1)) /\
    nearest_thousandth specials (length + 1) (round3_div specials (length + 1)) /\
    (0 <= round3_div digits (length + 1) <= 1)%Q /\
    (0 <= round3_div specials (length + 1) <= 1)%Q.
Proof.
  unfold extract_general_features. intros H.
  run_steps H. inversion H; subst f; clear H.
  do 3 eexists.
  do 5 (split; [reflexivity|]).
  match goal with
  | Hl : py_len ?u = Ok ?n,
    Hd : py_re_findall class_digit ?u = Ok ?ds,
    Hs : py_re_findall class_special ?u = Ok ?ss |- _ =>
      pose proof (findall_within_len _ _ _ _ Hd Hl);
      pose proof (findall_within_len _ _ _ _ Hs Hl)
  end.
  split; [lia|].
  split; [apply round3_div_nearest; lia|].
  split; [apply round3_div_nearest; lia|].
  split; apply round3_div_unit; lia.
Qed.

Lemma py_any_in_text (xs : list string) (s : string) :
  py_any_in xs (PStr s) = Ok (existsb (fun x => str_in x s) xs).
Proof.
  induction xs as [|x xs IH]; simpl; [reflexivity|].
  destruct (str_in x s); simpl; [reflexivity | exact IH].
Qed.

Lemma py_or_nonempty_text (s : string) :
  s <> "" -> py_or (PStr s) (PStr "") = PStr s.
Proof.
  intros Hs. destruct s; [congruence | reflexivity].
Qed.

Lemma str_in_nonempty (x s : string) :
  x <> "" -> str_in x s = true -> s <> "".
Proof.
  intros Hx H ->. destruct x; [congruence | discriminate].
Qed.

Ltac ok_inj :=
  repeat match goal with
    | E : Ok _ = Ok _ |- _ => inversion E; subst; clear E
    end.

(** C5. On the empty dict each extractor returns the vector that has 0
    under every key of its vocabulary (0.0 under the ratio and average
    keys), and every run that returns has exactly that vocabulary as its
    keys. *)
Theorem default_vector_on_empty_input :
  extract_general_features (PDict []) = Ok (zero_vector general_keys) /\
  extract_contentinfo_features (PDict []) = Ok (zero_vector content_keys) /\
  (forall data f, extract_general_features data = Ok f -> keys f = general_keys) /\
  (forall content_info f,
      extract_contentinfo_features content_info = Ok f -> keys f = content_keys).
Proof.
  split; [vm_compute; reflexivity|].
  split; [vm_compute; reflexivity|].
  split; [exact general_keys_of_run | exact content_keys_of_run].
Qed.

(* ================================================================= *)
(** ** Totality on inputs of the expected shape *)

Lemma get_shape (p : pyval -> bool) (d : list (string * pyval)) (k : string)
    (default : pyval) :
  absent_or p (assoc k d) = true -> p default = true ->
  exists v, py_get (PDict d) k default = Ok v /\ p v = true.
Proof.
  unfold py_get. destruct (assoc k d) as [v|]; simpl; intros H1 H2; eauto.
Qed.

Lemma url_shape (v : pyval) :
  is_null_or_parsable_url v = true ->
  exists u p, py_or v (PStr "") = PStr u /\ urlparse_text u = Ok p.
Proof.
  destruct v; simpl; try discriminate; intros H.
  - exists "". eexists. split; [reflexivity | vm_compute; reflexivity].
  - destruct s as [|c s].
    + exists "". eexists. split; [reflexivity | vm_compute; reflexivity].
    + destruct (urlparse_text (String c s)) as [p|e] eqn:E; [|discriminate].
      exists (String c s), p. split; [reflexivity | exact E].
Qed.

Lemma subdomain_shape (v : pyval) (host : string) :
  is_null_or_str v = true ->
  exists t, py_or (py_or v (PStr host)) (PStr "") = PStr t.
Proof.
  destruct v; simpl; try discriminate; intros _.
  - destruct host; eexists; reflexivity.
  - destruct s; [destruct host|]; eexists; reflexivity.
Qed.

Lemma int_shape (v : pyval) :
  is_bool_or_int v = true -> exists z, py_int v = Ok z.
Proof.
  destruct v; simpl; try discriminate; eauto.
Qed.

Lemma is_int_bool_or_int (v : pyval) : is_int v = true -> is_bool_or_int v = true.
Proof. destruct v; simpl; auto. Qed.

Lemma list_shape (p : pyval -> bool) (v : pyval) :
  is_list_of p v = true -> exists l, v = PList l /\ forallb p l = true.
Proof.
  destruct v; simpl; try discriminate; eauto.
Qed.

Lemma general_total (data : pyval) :
  general_wf data = true -> exists f, extract_general_features data = Ok f.
Proof.
  destruct data as [| | | | | |d]; try discriminate.
  unfold general_wf. intros Hwf.
  repeat (apply andb_prop in Hwf as [Hwf ?]).
  destruct (get_shape _ d "url" (PStr "") Hwf) as (url0 & Eurl & Hurl);
    [vm_compute; reflexivity|].
  destruct (url_shape _ Hurl) as (u & p & Eu & Ep).
  destruct (get_shape _ d "subdomain" (PStr "") ltac:(eassumption) eq_refl)
    as (sub0 & Esub & Hsub).
  destruct (subdomain_shape _ (netloc p) Hsub) as (t & Et).
  destruct (get_shape _ d "has_subdomain" (PBool false) ltac:(eassumption) eq_refl)
    as (hs0 & Ehs & Hhs).
  destruct (int_shape _ Hhs) as (hs & Ehsi).
  destruct (get_shape _ d "content_status" (PInt 0) ltac:(eassumption) eq_refl)
    as (cs0 & Ecs & Hcs).
  destruct (int_shape _ (is_int_bool_or_int _ Hcs)) as (cs & Ecsi).
  destruct (get_shape _ d "tech_info" (PList []) ltac:(eassumption) eq_refl)
    as (ti & Eti & Hti).
  destruct (list_shape _ _ Hti) as (til & -> & _).
  unfold extract_general_features.
  rewrite Eurl; cbn [bind]. rewrite Eu. cbn [urlparse]. rewrite Ep; cbn [bind py_len].
  rewrite Esub; cbn [bind]. rewrite Et. rewrite Ehs; cbn [bind]. rewrite Ehsi.
  cbn [bind py_len py_count py_re_search py_re_findall py_contains py_lower].
  rewrite py_any_in_text. destruct (str_in "%" u); cbn [bind];
    (destruct (py_get (PDict d) "dns_status" (PStr "")) eqn:Edns; [|discriminate Edns]);
    cbn [bind]; rewrite Ecs; cbn [bind]; rewrite Ecsi; cbn [bind];
    rewrite Eti; cbn [bind py_len]; eexists; reflexivity.
Qed.

Lemma foldM_invariant {A S : Type} (P : S -> Prop) (f : S -> A -> result S)
    (l : list A) :
  (forall x, In x l -> forall s, P s -> exists s', f s x = Ok s' /\ P s') ->
  forall s, P s -> exists s', foldM f l s = Ok s' /\ P s'.
Proof.
  induction l as [|x xs IH]; intros Hf s Hs; simpl.
  - eauto.
  - destruct (Hf x (or_introl eq_refl) s Hs) as (s1 & E1 & H1).
    rewrite E1; simpl. apply IH; [|exact H1].
    intros y Hy. apply Hf. right; exact Hy.
Qed.

Lemma mapM_total {A B : Type} (f : A -> result B) (l : list A) :
  (forall x, In x l -> exists y, f x = Ok y) -> exists ys, mapM f l = Ok ys.
Proof.
  induction l as [|x xs IH]; intros Hf; simpl.
  - eauto.
  - destruct (Hf x (or_introl eq_refl)) as (y & Ey). rewrite Ey; simpl.
    destruct IH as (ys & Eys); [intros z Hz; apply Hf; right; exact Hz|].
    rewrite Eys; simpl. eauto.
Qed.

Lemma str_shape (v : pyval) : is_str v = true -> exists s, v = PStr s.
Proof. destruct v; simpl; try discriminate; eauto. Qed.

Lemma header_step_total (h : pyval) (acc : list string * list string) :
  header_wf h = true -> exists acc', header_step acc h = Ok acc'.
Proof.
  destruct h as [| | | | | |hd]; try discriminate.
  unfold header_wf. intros Hwf. apply andb_prop in Hwf as [Hk Hv].
  destruct (get_shape _ hd "key" (PStr "") Hk eq_refl) as (k & Ek & Hks).
  destruct (get_shape _ hd "value" (PStr "") Hv eq_refl) as (v & Ev & Hvs).
  destruct (str_shape _ Hks) as (ks & ->). destruct (str_shape _ Hvs) as (vs & ->).
  unfold header_step. rewrite Ek; cbn [bind py_lower]. rewrite Ev; cbn [bind py_lower].
  eauto.
Qed.

Lemma entry_step_total (e : pyval) (acc : list string * list string) :
  entry_wf e = true -> exists acc', entry_step acc e = Ok acc'.
Proof.
  destruct e as [| | | | | |ed]; try discriminate.
  unfold entry_wf. intros Hwf.
  destruct (get_shape _ ed "response" (PDict []) Hwf eq_refl) as (r & Er & Hr).
  destruct r as [| | | | | |rd]; try discriminate.
  destruct (get_shape _ rd "headers" (PList []) Hr eq_refl) as (hs & Ehs & Hhs).
  destruct (list_shape _ _ Hhs) as (hl & -> & Hall).
  unfold entry_step. rewrite Er; cbn [bind]. rewrite Ehs; cbn [bind py_iter].
  destruct (foldM_invariant (fun _ => True) header_step hl) with (s := acc)
    as (acc' & E & _); [|exact I|eauto].
  intros h Hh s _. rewrite forallb_forall in Hall.
  destruct (header_step_total h s (Hall h Hh)) as (s' & Es). eauto.
Qed.

Lemma collect_headers_total (v : pyval) :
  is_list_of entry_wf v = true -> exists r, collect_headers v = Ok r.
Proof.
  intros H. destruct (list_shape _ _ H) as (l & -> & Hall).
  unfold collect_headers; cbn [py_iter bind].
  destruct (foldM_invariant (fun _ => True) entry_step l)
    with (s := (@nil string, @nil string)) as (r & E & _); [|exact I|eauto].
  intros e He s _. rewrite forallb_forall in Hall.
  destruct (entry_step_total e s (Hall e He)) as (s' & Es). eauto.
Qed.

Lemma md5_step_hashable (r : pyval) (acc : list pyval) :
  response_wf r = true -> forallb py_hashable acc = true ->
  exists acc', md5_step acc r = Ok acc' /\ forallb py_hashable acc' = true.
Proof.
  destruct r as [| | | | | |rd]; try discriminate.
  unfold response_wf. intros Hwf Hacc. apply andb_prop in Hwf as [Hm _].
  unfold md5_step; cbn [py_contains bind].
  destruct (existsb (String.eqb "md5") (keys rd)); [|eauto].
  destruct (get_shape _ rd "md5" PNone Hm eq_refl) as (m & Em & Hmh).
  rewrite Em; cbn [bind]. eexists; split; [reflexivity|].
  rewrite forallb_app, Hacc; simpl. rewrite Hmh. reflexivity.
Qed.

Lemma file_type_total (r : pyval) :
  response_wf r = true ->
  (exists n, file_type_len r = Ok n) /\
  (forall x, exists b, file_type_has x r = Ok b).
Proof.
  destruct r as [| | | | | |rd]; try discriminate.
  unfold response_wf. intros Hwf. apply andb_prop in Hwf as [_ Hf].
  destruct (get_shape _ rd "file_type" (PStr "") Hf eq_refl) as (ft & Eft & Hfs).
  destruct (str_shape _ Hfs) as (s & ->).
  unfold file_type_len, file_type_has. rewrite Eft; cbn [bind py_len py_lower].
  split; eauto.
Qed.

Lemma content_total (content_info : pyval) :
  content_wf content_info = true ->
  exists f, extract_contentinfo_features content_info = Ok f.
Proof.
  destruct content_info as [| | | | | |d]; try discriminate.
  unfold content_wf. intros Hwf.
  repeat (apply andb_prop in Hwf as [Hwf ?]).
  destruct (get_shape _ d "status_code" (PInt 0) Hwf eq_refl) as (sc0 & Esc & Hsc).
  destruct (int_shape _ (is_int_bool_or_int _ Hsc)) as (sc & Esci).
  destruct (get_shape _ d "html" (PStr "") ltac:(eassumption) eq_refl)
    as (html & Ehtml & Hhtml).
  destruct (str_shape _ Hhtml) as (h & ->).
  destruct (get_shape _ d "destination" (PStr "") ltac:(eassumption) eq_refl)
    as (dest & Edest & Hdest).
  destruct (str_shape _ Hdest) as (dst & ->).
  destruct (get_shape _ d "har" (PList []) ltac:(eassumption) eq_refl)
    as (har & Ehar & Hhar).
  destruct (collect_headers_total _ Hhar) as (coll & Ecoll).
  destruct (list_shape _ _ Hhar) as (harl & -> & _).
  destruct (get_shape _ d "responses" (PList []) ltac:(eassumption) eq_refl)
    as (resp & Eresp & Hresp).
  destruct (list_shape _ _ Hresp) as (rl & -> & Hrl).
  rewrite forallb_forall in Hrl.
  destruct (foldM_invariant (fun acc => forallb py_hashable acc = true) md5_step rl)
    with (s := @nil pyval) as (md5s & Emd5 & Hmd5);
    [intros r Hr s Hs; apply md5_step_hashable; auto | reflexivity |].
  destruct (mapM_total file_type_len rl) as (sizes & Esizes);
    [intros r Hr; apply (file_type_total r (Hrl r Hr))|].
  destruct (mapM_total (file_type_has "long lines") rl) as (longs & Elongs);
    [intros r Hr; apply (file_type_total r (Hrl r Hr))|].
  destruct (mapM_total (file_type_has "ascii") rl) as (asciis & Easciis);
    [intros r Hr; apply (file_type_total r (Hrl r Hr))|].
  assert (Htitle : exists n,
             (if py_truthy (match assoc "title" d with Some v => v | None => PNone end)
              then (title <- py_get (PDict d) "title" (PStr "") ;; py_len title)
              else Ok 0) = Ok n).
  { cbn [py_get]. destruct (assoc "title" d) as [[]|]; try discriminate;
      cbn [py_truthy bind py_len]; try (destruct (negb _)); eauto. }
  destruct Htitle as (tl & Etl).
  unfold extract_contentinfo_features.
  rewrite Esc; cbn [bind]. rewrite Esci; cbn [bind].
  cbn [py_get bind] in *. rewrite Etl; cbn [bind].
  inversion Ehtml as [Ehtml']; rewrite !Ehtml'; cbn [bind py_len py_lower].
  inversion Edest as [Edest']; rewrite !Edest'.
  cbn [bind py_len py_count py_startswith py_re_search py_contains].
  rewrite py_any_in_text.
  inversion Ehar as [Ehar']; rewrite !Ehar'.
  inversion Eresp as [Eresp']; rewrite !Eresp'.
  destruct (str_in "%" dst); destruct (str_in ".ar-io.dev" dst);
    cbn [bind py_len py_contains py_iter];
    rewrite Ecoll; cbn [bind py_iter]; rewrite Emd5; cbn [bind];
    unfold py_set_size; rewrite Hmd5; cbn [bind];
    rewrite Esizes; cbn [bind py_len]; rewrite Elongs; cbn [bind];
    rewrite Easciis; cbn [bind]; eexists; reflexivity.
Qed.

(** C10. The content extractor's [contains_encoded_chars] is 0 for a
    [destination] that has an equals sign and none of [%], [+], [-], [_]:
    every run on such a [content_info] that returns says so, and a run on a
    [content_info] of the expected shape does return.  The general
    extractor's [contains_encoded_chars] is 1 for a [url] that has an
    equals sign, in the same two senses. *)
Theorem equals_sign_marks_encoding_in_url_only :
  (forall d destination,
      assoc "destination" d = Some (PStr destination) ->
      str_in "=" destination = true ->
      str_in "%" destination = false ->
      str_in "+" destination = false ->
      str_in "-" destination = false ->
      str_in "_" destination = false ->
      (forall f, extract_contentinfo_features (PDict d) = Ok f ->
                 assoc "contains_encoded_chars" f = Some (VInt 0)) /\
      (content_wf (PDict d) = true ->
       exists f, extract_contentinfo_features (PDict d) = Ok f /\
                 assoc "contains_encoded_chars" f = Some (VInt 0))) /\
  (forall d url,
      assoc "url" d = Some (PStr url) ->
      str_in "=" url = true ->
      (forall f, extract_general_features (PDict d) = Ok f ->
                 assoc "contains_encoded_chars" f = Some (VInt 1)) /\
      (general_wf (PDict d) = true ->
       exists f, extract_general_features (PDict d) = Ok f /\
                 assoc "contains_encoded_chars" f = Some (VInt 1))).
Proof.
  split.
  - intros d destination Hd Heq Hpc Hpl Hmi Hus.
    assert (Hrun : forall f, extract_contentinfo_features (PDict d) = Ok f ->
                             assoc "contains_encoded_chars" f = Some (VInt 0)).
    { intros f H. unfold extract_contentinfo_features in H.
      run_steps H. inversion H; subst f; clear H.
      cbn [py_get] in *. rewrite Hd in *. ok_inj.
      cbn [py_contains] in *. ok_inj.
      match goal with
      | E : (if _ then _ else py_any_in _ _) = Ok ?b |- _ =>
          rewrite Hpc, py_any_in_text in E; cbn [existsb] in E;
          rewrite Hpl, Hmi, Hus in E; inversion E; subst b
      end.
      reflexivity. }
    split; [exact Hrun|].
    intros Hwf. destruct (content_total _ Hwf) as (f & Hf).
    exists f. split; [exact Hf | exact (Hrun f Hf)].
  - intros d url Hd Heq.
    assert (Hrun : forall f, extract_general_features (PDict d) = Ok f ->
                             assoc "contains_encoded_chars" f = Some (VInt 1)).
    { intros f H. unfold extract_general_features in H.
      run_steps H. inversion H; subst f; clear H.
      cbn [py_get] in *. rewrite Hd in *. ok_inj.
      rewrite py_or_nonempty_text in *
        by (eapply str_in_nonempty; [|exact Heq]; discriminate).
      cbn [py_contains] in *. ok_inj.
      match goal with
      | E : (if _ then _ else py_any_in _ _) = Ok ?b |- _ =>
          rewrite py_any_in_text in E; cbn [existsb] in E;
          rewrite Heq in E; rewrite !orb_true_r in E;
          destruct (str_in "%" url); inversion E; subst b
      end.
      all: reflexivity. }
    split; [exact Hrun|].
    intros Hwf. destruct (general_total _ Hwf) as (f & Hf).
    exists f. split; [exact Hf | exact (Hrun f Hf)].
Qed.

(* ================================================================= *)
(** ** Substrings *)

Lemma startswith_iff (p s : string) :
  startswith p s = true <-> exists b, s = p ++ b.
Proof.
  revert s. induction p as [|a p IH]; intros s; simpl.
  - split; [intros _; exists s; reflexivity | reflexivity].
  - destruct s as [|c s].
    + split; [discriminate | intros (b & Hb); discriminate].
    + rewrite andb_true_iff, Ascii.eqb_eq, IH. split.
      * intros (-> & b & ->). exists b. reflexivity.
      * intros (b & Hb). inversion Hb. split; [reflexivity | exists b; reflexivity].
Qed.

Lemma str_in_iff (sub s : string) :
  str_in sub s = true <-> exists a b, s = a ++ sub ++ b.
Proof.
  induction s as [|c s IH].
  - simpl. rewrite orb_false_r, startswith_iff. split.
    + intros (b & ->). exists "", b. reflexivity.
    + intros (a & b & H). destruct a; [exists b; exact H|discriminate].
  - cbn [str_in]. rewrite orb_true_iff, startswith_iff, IH. split.
    + intros [(b & ->) | (a & b & ->)].
      * exists "", b. reflexivity.
      * exists (String c a), b. reflexivity.
    + intros (a & b & H). destruct a as [|c' a].
      * left. exists b. exact H.
      * right. inversion H. exists a, b. reflexivity.
Qed.

Lemma append_assoc (a b c : string) : (a ++ b) ++ c = a ++ b ++ c.
Proof. induction a; simpl; congruence. Qed.

Lemma append_empty (a : string) : a ++ "" = a.
Proof. induction a; simpl; congruence. Qed.

Lemma str_in_trans (x y z : string) :
  str_in x y = true -> str_in y z = true -> str_in x z = true.
Proof.
  rewrite !str_in_iff. intros (a & b & ->) (a' & b' & ->).
  exists (a' ++ a), (b ++ b'). rewrite !append_assoc. reflexivity.
Qed.

Lemma str_in_join (sep x : string) (l : list string) :
  In x l -> str_in x (join sep l) = true.
Proof.
  unfold join. induction l as [|y l IH]; [intros []|].
  intros [-> | Hx]; apply str_in_iff.
  - destruct l; simpl.
    + exists "", "". simpl. rewrite append_empty. reflexivity.
    + exists "". eexists. reflexivity.
  - destruct l as [|z l]; [destruct Hx|].
    apply IH in Hx. apply str_in_iff in Hx as (a & b & E).
    change (concat sep (y :: z :: l)) with (y ++ sep ++ concat sep (z :: l)).
    rewrite E. exists (y ++ sep ++ a), b. rewrite !append_assoc. reflexivity.
Qed.

(* ================================================================= *)
(** ** The header loops *)

Lemma header_step_keeps (acc acc' : list string * list string) (h : pyval) (x : string) :
  header_step acc h = Ok acc' -> In x (fst acc) -> In x (fst acc').
Proof.
  unfold header_step. intros H Hx. run_steps H. inversion H; subst; cbn [fst].
  destruct (String.eqb _ "server"); [apply in_or_app; left|]; exact Hx.
Qed.

Lemma headers_keep (hs : list pyval) (acc acc' : list string * list string) (x : string) :
  foldM header_step hs acc = Ok acc' -> In x (fst acc) -> In x (fst acc').
Proof.
  revert acc. induction hs as [|h hs IH]; simpl; intros acc H Hx.
  - inversion H; subst; exact Hx.
  - apply bind_ok in H as (acc1 & E1 & H). eapply IH; [exact H|].
    eapply header_step_keeps; eauto.
Qed.

Lemma headers_collect_server (hs : list pyval) (acc acc' : list string * list string)
    (h : pyval) (key value : string) :
  foldM header_step hs acc = Ok acc' -> In h hs ->
  py_get h "key" (PStr "") = Ok (PStr key) ->
  py_get h "value" (PStr "") = Ok (PStr value) ->
  lower key = "server" ->
  In (lower value) (fst acc').
Proof.
  revert acc. induction hs as [|h0 hs IH]; simpl; intros acc H Hin Hk Hv Hs; [contradiction|].
  apply bind_ok in H as (acc1 & E1 & H).
  destruct Hin as [-> | Hin]; [|eapply IH; eauto].
  eapply headers_keep; [exact H|].
  unfold header_step in E1. rewrite Hk, Hv in E1. cbn [bind py_lower] in E1.
  rewrite Hs in E1. inversion E1; subst; cbn [fst].
  apply in_or_app. right. left. reflexivity.
Qed.

Lemma entry_step_keeps (acc acc' : list string * list string) (e : pyval) (x : string) :
  entry_step acc e = Ok acc' -> In x (fst acc) -> In x (fst acc').
Proof.
  unfold entry_step. intros H Hx. run_steps H. eapply headers_keep; eauto.
Qed.

Lemma entries_keep (es : list pyval) (acc acc' : list string * list string) (x : string) :
  foldM entry_step es acc = Ok acc' -> In x (fst acc) -> In x (fst acc').
Proof.
  revert acc. induction es as [|e es IH]; simpl; intros acc H Hx.
  - inversion H; subst; exact Hx.
  - apply bind_ok in H as (acc1 & E1 & H). eapply IH; [exact H|].
    eapply entry_step_keeps; eauto.
Qed.

Lemma entries_collect_server (es : list pyval) (acc acc' : list string * list string)
    (entry response headers h : pyval) (hs : list pyval) (key value : string) :
  foldM entry_step es acc = Ok acc' -> In entry es ->
  py_get entry "response" (PDict []) = Ok response ->
  py_get response "headers" (PList []) = Ok headers ->
  py_iter headers = Ok hs -> In h hs ->
  py_get h "key" (PStr "") = Ok (PStr key) ->
  py_get h "value" (PStr "") = Ok (PStr value) ->
  lower key = "server" ->
  In (lower value) (fst acc').
Proof.
  revert acc. induction es as [|e es IH]; simpl;
    intros acc H Hin Hr Hh Hi Hhin Hk Hv Hs; [contradiction|].
  apply bind_ok in H as (acc1 & E1 & H).
  destruct Hin as [-> | Hin]; [|eapply IH; eauto].
  eapply entries_keep; [exact H|].
  unfold entry_step in E1. rewrite Hr in E1; cbn [bind] in E1.
  rewrite Hh in E1; cbn [bind] in E1. rewrite Hi in E1; cbn [bind] in E1.
  eapply headers_collect_server; eauto.
Qed.

(** C8. On the example with one header [Server: cloudflare] the content
    extractor returns [has_cloudflare = 1].  In general a header whose
    lowercased key is [server] puts its lowercased value in the list
    [servers], so whatever occurs in that value occurs in the joined server
    string the fingerprint tests read, and if it is [cloudflare] then
    [has_cloudflare = 1]. *)
Theorem har_server_header_case_insensitive :
  (exists f, extract_contentinfo_features har_example = Ok f /\
             assoc "has_cloudflare" f = Some (VInt 1)) /\
  (forall d har entries entry response headers hs h key value f,
      py_get (PDict d) "har" (PList []) = Ok har ->
      py_iter har = Ok entries -> In entry entries ->
      py_get entry "response" (PDict []) = Ok response ->
      py_get response "headers" (PList []) = Ok headers ->
      py_iter headers = Ok hs -> In h hs ->
      py_get h "key" (PStr "") = Ok (PStr key) ->
      py_get h "value" (PStr "") = Ok (PStr value) ->
      lower key = "server" ->
      extract_contentinfo_features (PDict d) = Ok f ->
      exists servers content_types,
        collect_headers har = Ok (servers, content_types) /\
        In (lower value) servers /\
        (forall mark, str_in mark (lower value) = true ->
                      str_in mark (join " " servers) = true) /\
        assoc "has_cloudflare" f
          = Some (VInt (int_of_bool (str_in "cloudflare" (join " " servers)))) /\
        assoc "has_aws_cloudfront" f
          = Some (VInt (int_of_bool (str_in "cloudfront" (join " " servers)))) /\
        assoc "has_tencent_cos" f
          = Some (VInt (int_of_bool (str_in "tencent-cos" (join " " servers)))) /\
        (str_in "cloudflare" (lower value) = true ->
         assoc "has_cloudflare" f = Some (VInt 1))).
Proof.
  split.
  - eexists. split; vm_compute; reflexivity.
  - intros d har entries entry response headers hs h key value f
      Hhar Hit Hin Hr Hh Hhs Hhin Hk Hv Hs H.
    unfold extract_contentinfo_features in H.
    run_steps H. inversion H; subst f; clear H.
    ok_inj.
    match goal with
    | E : collect_headers har = Ok ?c |- _ =>
        destruct c as [servers content_types];
        exists servers, content_types;
        assert (Hval : In (lower value) servers)
          by (unfold collect_headers in E; rewrite Hit in E; cbn [bind] in E;
              exact (entries_collect_server _ _ _ _ _ _ _ _ _ _ E Hin Hr Hh Hhs Hhin Hk Hv Hs))
    end.
    assert (Hsub : forall mark, str_in mark (lower value) = true ->
                                str_in mark (join " " servers) = true).
    { intros mark Hm. eapply str_in_trans; [exact Hm|]. apply str_in_join. exact Hval. }
    split; [assumption|]. split; [exact Hval|]. split; [exact Hsub|].
    do 3 (split; [reflexivity|]).
    intros Hcf. cbn [fst assoc String.eqb Ascii.eqb Bool.eqb].
    rewrite (Hsub _ Hcf). reflexivity.
Qed.

(* ================================================================= *)
(** ** Dicts *)

Lemma assoc_app {A : Type} (k : string) (d1 d2 : list (string * A)) :
  assoc k (d1 ++ d2) = match assoc k d1 with Some v => Some v | None => assoc k d2 end.
Proof.
  induction d1 as [|[k' v'] d1 IH]; simpl; [reflexivity|].
  destruct (String.eqb k' k); [reflexivity | exact IH].
Qed.

Lemma assoc_none {A : Type} (k : string) (d : list (string * A)) :
  ~ In k (keys d) -> assoc k d = None.
Proof.
  induction d as [|[k' v'] d IH]; simpl; intros H; [reflexivity|].
  destruct (String.eqb_spec k' k) as [->|Hne]; [exfalso; auto|].
  apply IH. intros Hin. apply H. right. exact Hin.
Qed.

Lemma assoc_in_keys {A : Type} (k : string) (d : list (string * A)) (v : A) :
  assoc k d = Some v -> In k (keys d).
Proof.
  induction d as [|[k' v'] d IH]; simpl; [discriminate|].
  destruct (String.eqb_spec k' k) as [->|Hne]; [left; reflexivity|].
  intros H. right. exact (IH H).
Qed.

Lemma assoc_dict_set (q k : string) (v : value) (d : dict) :
  assoc q (dict_set k v d) = if String.eqb k q then Some v else assoc q d.
Proof.
  induction d as [|[k' v'] d IH]; simpl; [reflexivity|].
  destruct (String.eqb_spec k' k) as [->|Hne]; simpl.
  - destruct (String.eqb k q); reflexivity.
  - rewrite IH. destruct (String.eqb_spec k' q) as [->|Hq]; [|reflexivity].
    destruct (String.eqb_spec k q) as [->|]; [congruence | reflexivity].
Qed.

Lemma keys_dict_set (q k : string) (v : value) (d : dict) :
  In q (keys (dict_set k v d)) <-> q = k \/ In q (keys d).
Proof.
  induction d as [|[k' v'] d IH]; simpl.
  - intuition.
  - destruct (String.eqb_spec k' k) as [->|Hne]; simpl; [intuition|].
    rewrite IH. intuition.
Qed.

Lemma assoc_dict_update (q : string) (e d : dict) :
  assoc q (dict_update d e)
  = match binding q e with Some v => Some v | None => assoc q d end.
Proof.
  unfold dict_update, binding. revert d.
  induction e as [|[k v] e IH]; intros d; simpl; [reflexivity|].
  rewrite IH, assoc_app, assoc_dict_set. simpl.
  destruct (assoc q (rev e)); [reflexivity|].
  destruct (String.eqb k q); reflexivity.
Qed.

Lemma keys_dict_update (q : string) (e d : dict) :
  In q (keys (dict_update d e)) <-> In q (keys d) \/ In q (keys e).
Proof.
  unfold dict_update. revert d.
  induction e as [|[k v] e IH]; intros d; simpl; [intuition|].
  rewrite IH, keys_dict_set. intuition.
Qed.

Lemma binding_assoc (q : string) (d : dict) :
  NoDup (keys d) -> binding q d = assoc q d.
Proof.
  unfold binding. induction d as [|[k v] d IH]; simpl; intros Hnd; [reflexivity|].
  inversion Hnd as [|? ? Hk Hd]; subst.
  rewrite assoc_app, (IH Hd). simpl.
  destruct (String.eqb_spec k q) as [->|Hne].
  - rewrite assoc_none by exact Hk. reflexivity.
  - destruct (assoc q d); reflexivity.
Qed.

Lemma binding_in_keys (q : string) (d : dict) (v : value) :
  binding q d = Some v -> In q (keys d).
Proof.
  unfold binding. intros H. apply assoc_in_keys in H.
  unfold keys in *. rewrite map_rev in H. apply in_rev. exact H.
Qed.


Lemma existsb_eqb_in (k : string) (l : list string) :
  existsb (String.eqb k) l = true <-> In k l.
Proof.
  rewrite existsb_exists. split.
  - intros (x & Hx & E). apply String.eqb_eq in E. subst. exact Hx.
  - intros H. exists k. split; [exact H | apply String.eqb_refl].
Qed.

Lemma in_keys_assoc {A : Type} (k : string) (d : list (string * A)) :
  In k (keys d) -> exists v, assoc k d = Some v.
Proof.
  induction d as [|[k' v'] d IH]; simpl; [intros []|].
  destruct (String.eqb_spec k' k) as [->|Hne]; [eauto|].
  intros [H|H]; [congruence | exact (IH H)].
Qed.

Lemma general_keys_nodup : NoDup general_keys.
Proof.
  replace general_keys with (nodup string_dec general_keys) by (vm_compute; reflexivity).
  apply NoDup_nodup.
Qed.

Lemma content_keys_nodup : NoDup content_keys.
Proof.
  replace content_keys with (nodup string_dec content_keys) by (vm_compute; reflexivity).
  apply NoDup_nodup.
Qed.

Lemma shared_keys_are_the_common_keys (k : string) :
  In k general_keys /\ In k content_keys <-> In k shared_keys.
Proof.
  replace shared_keys
    with (filter (fun x => existsb (String.eqb x) content_keys) general_keys)
    by (vm_compute; reflexivity).
  rewrite filter_In, existsb_eqb_in. reflexivity.
Qed.

(* ================================================================= *)
(** ** The aggregator *)

Lemma build_row_merge (d : list (string * pyval)) (label : Z)
    (filename category_name : string) :
  fst (build_row d label filename category_name)
  = dict_set "category" (VStr category_name)
      (dict_set "filename" (VStr filename)
         (dict_set "label" (VInt label)
            (dict_update
               (dict_update
                  (dict_update
                     (dict_update []
                        (fst (safe_call general_extractor (PDict d)
                                "extract_general_features" filename)))
                     (fst (safe_call extract_hostinfo_features (section_of d "host_info")
                             "extract_hostinfo_features" filename)))
                  (fst (safe_call contentinfo_extractor (section_of d "content_info")
                          "extract_contentinfo_features" filename)))
               (fst (safe_call extract_additional_features (section_of d "additional")
                       "extract_additional_features" filename))))).
Proof.
  unfold build_row.
  destruct (safe_call general_extractor _ _ _).
  destruct (safe_call extract_hostinfo_features _ _ _).
  destruct (safe_call contentinfo_extractor _ _ _).
  destruct (safe_call extract_additional_features _ _ _).
  reflexivity.
Qed.

Lemma row_label_category (d : list (string * pyval)) (label : Z)
    (filename category_name : string) :
  assoc "label" (fst (build_row d label filename category_name)) = Some (VInt label) /\
  assoc "category" (fst (build_row d label filename category_name))
    = Some (VStr category_name).
Proof.
  rewrite build_row_merge. rewrite !assoc_dict_set. split; reflexivity.
Qed.

Lemma process_file_rows (label : Z) (category_name : string)
    (entry : string * file_content) (row : dict) :
  In row (fst (process_file label category_name entry)) ->
  exists d, snd entry = Json (PDict d) /\ d <> [] /\
            row = fst (build_row d label (fst entry) category_name).
Proof.
  destruct entry as [filename f]. unfold process_file.
  destruct f as [| | |v]; simpl; try contradiction.
  destruct (py_truthy v) eqn:Et; simpl; [|contradiction].
  destruct v; simpl; try contradiction.
  destruct (build_row d label filename category_name) as [r lg] eqn:Eb. simpl.
  intros [<-|[]]. exists d. split; [reflexivity|]. split.
  - intros ->. discriminate Et.
  - rewrite Eb. reflexivity.
Qed.

Lemma process_files_app (label : Z) (category_name : string)
    (files1 files2 : list (string * file_content)) :
  fst (process_files label category_name (files1 ++ files2))
  = (fst (process_files label category_name files1)
     ++ fst (process_files label category_name files2))%list.
Proof.
  induction files1 as [|entry files1 IH]; simpl; [reflexivity|].
  destruct (process_file label category_name entry) as [r1 l1].
  destruct (process_files label category_name (files1 ++ files2)) as [r2 l2].
  destruct (process_files label category_name files1) as [r3 l3].
  simpl in *. rewrite IH. apply app_assoc.
Qed.

Lemma process_files_rows (label : Z) (category_name : string)
    (files : list (string * file_content)) (row : dict) :
  In row (fst (process_files label category_name files)) <->
  exists entry, In entry files /\ In row (fst (process_file label category_name entry)).
Proof.
  induction files as [|entry files IH]; simpl.
  - split; [intros [] | intros (e & [] & _)].
  - destruct (process_file label category_name entry) as [r1 l1] eqn:E1.
    destruct (process_files label category_name files) as [r2 l2].
    simpl in *. rewrite in_app_iff, IH. split.
    + intros [H | (e & He & H)].
      * exists entry. rewrite E1. auto.
      * exists e. auto.
    + intros (e & [<- | He] & H).
      * rewrite E1 in H. auto.
      * right. exists e. auto.
Qed.

Lemma process_category_rows (fs : filesystem) (folder_path : string) (label : Z)
    (category_name : string) (row : dict) :
  In row (fst (process_category fs (folder_path, label, category_name))) <->
  exists listing entry,
    fs folder_path = Some listing /\ In entry listing /\
    is_json_name (fst entry) = true /\
    In row (fst (process_file label category_name entry)).
Proof.
  unfold process_category. destruct (fs folder_path) as [listing|]; simpl.
  - destruct (process_files label category_name
                (filter (fun entry => is_json_name (fst entry)) listing))
      as [rows lg] eqn:E. simpl.
    replace rows with (fst (process_files label category_name
                (filter (fun entry => is_json_name (fst entry)) listing)))
      by (rewrite E; reflexivity).
    rewrite process_files_rows. split.
    + intros (e & He & H). apply filter_In in He as [He Hj].
      exists listing, e. auto.
    + intros (l & e & Hl & He & Hj & H). inversion Hl; subst l.
      exists e. split; [apply filter_In; auto | exact H].
  - split; [intros [] | intros (l & e & Hl & _); discriminate].
Qed.

Lemma collect_rows_in (fs : filesystem) (cs : list (string * Z * string)) (row : dict) :
  In row (fst (collect_rows fs cs)) <->
  exists c, In c cs /\ In row (fst (process_category fs c)).
Proof.
  induction cs as [|c cs IH]; simpl.
  - split; [intros [] | intros (c & [] & _)].
  - destruct (process_category fs c) as [r1 l1] eqn:E1.
    destruct (collect_rows fs cs) as [r2 l2].
    simpl in *. rewrite in_app_iff, IH. split.
    + intros [H | (c' & Hc & H)].
      * exists c. rewrite E1. auto.
      * exists c'. auto.
    + intros (c' & [<- | Hc] & H).
      * rewrite E1 in H. auto.
      * right. exists c'. auto.
Qed.

(** C9. The table is made of the rows the loops append, and every such
    row has [label = 1] with [category = "benign"] or [label = 0] with
    [category = "malicious"]; so its label is 1 exactly when its category
    is [benign] and 0 exactly when its category is [malicious]. *)
Theorem label_follows_category (fs : filesystem) :
  fst (build_global_dataframe fs) = frame_of (fst (collect_rows fs categories)) /\
  forall row, In row (fst (collect_rows fs categories)) ->
    ((assoc "label" row = Some (VInt 1) /\ assoc "category" row = Some (VStr "benign")) \/
     (assoc "label" row = Some (VInt 0) /\
      assoc "category" row = Some (VStr "malicious"))) /\
    (assoc "label" row = Some (VInt 1) <-> assoc "category" row = Some (VStr "benign")) /\
    (assoc "label" row = Some (VInt 0) <-> assoc "category" row = Some (VStr "malicious")).
Proof.
  split.
  - unfold build_global_dataframe.
    destruct (collect_rows fs categories) as [rows lg]. reflexivity.
  - intros row H. apply collect_rows_in in H as (c & Hc & H).
    destruct c as [[folder_path label] category_name].
    apply process_category_rows in H as (listing & entry & _ & _ & _ & H).
    apply process_file_rows in H as (d & _ & _ & ->).
    destruct (row_label_category d label (fst entry) category_name) as [Hl Hcat].
    destruct Hc as [Hc | [Hc | []]]; inversion Hc; subst; rewrite Hl, Hcat;
      (split; [auto|]); split; split; intros E; try reflexivity; discriminate E.
Qed.


Lemma general_contribution_nodup (arg : pyval) (fname filename : string) :
  NoDup (keys (fst (safe_call general_extractor arg fname filename))).
Proof.
  unfold safe_call, general_extractor.
  destruct (extract_general_features _) as [f|e] eqn:E; simpl; [|constructor].
  rewrite (general_keys_of_run _ _ E). exact general_keys_nodup.
Qed.

Lemma section_of_not_none (d : list (string * pyval)) (k : string) :
  is_none (section_of d k) = false.
Proof.
  unfold section_of, py_or.
  destruct (assoc k d) as [[]|]; simpl; try reflexivity;
    match goal with |- context [if ?b then _ else _] => destruct b end; reflexivity.
Qed.

Lemma process_file_record (label : Z) (category_name filename : string)
    (d : list (string * pyval)) :
  d <> [] ->
  fst (process_file label category_name (filename, Json (PDict d)))
  = [fst (build_row d label filename category_name)].
Proof.
  intros Hd. unfold process_file, load_json_file.
  destruct d as [|b d]; [congruence|]. cbn [py_truthy negb].
  destruct (build_row (b :: d) label filename category_name). reflexivity.
Qed.

Lemma safe_call_dict (func : extractor) (arg : pyval) (fname filename : string) (f : dict) :
  func (if is_none arg then PDict [] else arg) = Ok (RetDict f) ->
  safe_call func arg fname filename = (f, []).
Proof.
  unfold safe_call. intros ->. reflexivity.
Qed.

Lemma safe_call_writes (func : extractor) (arg : pyval) (fname filename k : string) :
  is_none arg = false ->
  (In k (keys (fst (safe_call func arg fname filename))) <-> writes func arg k).
Proof.
  intros Hn. unfold safe_call, writes. rewrite Hn.
  destruct (func arg) as [[h|]|e]; simpl; split.
  - intros H. exists h. auto.
  - intros (h' & E & H). inversion E; subst. exact H.
  - intros [].
  - intros (h' & E & _). discriminate.
  - intros [].
  - intros (h' & E & _). discriminate.
Qed.

Lemma not_in_keys_binding (q : string) (d : dict) :
  ~ In q (keys d) -> binding q d = None.
Proof.
  intros H. destruct (binding q d) as [v|] eqn:E; [|reflexivity].
  exfalso. apply H. exact (binding_in_keys _ _ _ E).
Qed.

Lemma not_written_binding (func : extractor) (d : list (string * pyval))
    (section fname filename k : string) :
  ~ writes func (section_of d section) k ->
  binding k (fst (safe_call func (section_of d section) fname filename)) = None.
Proof.
  intros H. apply not_in_keys_binding. intros Hin. apply H.
  apply (safe_call_writes func _ fname filename k (section_of_not_none d section)).
  exact Hin.
Qed.

Lemma general_contribution (d : list (string * pyval)) (fname filename : string)
    (f : dict) :
  extract_general_features (PDict d) = Ok f ->
  safe_call general_extractor (PDict d) fname filename = (f, []).
Proof.
  intros H. apply safe_call_dict. cbn [is_none].
  unfold general_extractor. rewrite H. reflexivity.
Qed.

Lemma content_contribution (d : list (string * pyval)) (section fname filename : string)
    (g : dict) :
  extract_contentinfo_features (section_of d section) = Ok g ->
  safe_call contentinfo_extractor (section_of d section) fname filename = (g, []).
Proof.
  intros H. apply safe_call_dict. rewrite section_of_not_none.
  unfold contentinfo_extractor. rewrite H. reflexivity.
Qed.

Lemma general_keys_not_metadata (k : string) :
  In k general_keys -> ~ In k metadata_keys.
Proof.
  intros H M. simpl in M.
  destruct M as [<-|[<-|[<-|[]]]]; vm_compute in H;
    repeat (destruct H as [H|H]; [discriminate H|]); exact H.
Qed.

Lemma content_keys_not_metadata (k : string) :
  In k content_keys -> ~ In k metadata_keys.
Proof.
  intros H M. simpl in M.
  destruct M as [<-|[<-|[<-|[]]]]; vm_compute in H;
    repeat (destruct H as [H|H]; [discriminate H|]); exact H.
Qed.

Lemma row_is_the_merge (d : list (string * pyval)) (label : Z)
    (filename category_name k : string) :
  ~ In k metadata_keys ->
  assoc k (fst (build_row d label filename category_name))
  = last_writer k
      [ fst (safe_call general_extractor (PDict d) "extract_general_features" filename);
        fst (safe_call extract_hostinfo_features (section_of d "host_info")
               "extract_hostinfo_features" filename);
        fst (safe_call contentinfo_extractor (section_of d "content_info")
               "extract_contentinfo_features" filename);
        fst (safe_call extract_additional_features (section_of d "additional")
               "extract_additional_features" filename) ].
Proof.
  intros Hk. rewrite build_row_merge, !assoc_dict_set.
  destruct (String.eqb_spec "category" k) as [<-|_]; [exfalso; apply Hk; simpl; auto|].
  destruct (String.eqb_spec "filename" k) as [<-|_]; [exfalso; apply Hk; simpl; auto|].
  destruct (String.eqb_spec "label" k) as [<-|_]; [exfalso; apply Hk; simpl; auto|].
  rewrite !assoc_dict_update. cbn [last_writer assoc].
  destruct (binding k (fst (safe_call extract_additional_features _ _ _)));
    [reflexivity|].
  destruct (binding k (fst (safe_call contentinfo_extractor _ _ _))); [reflexivity|].
  destruct (binding k (fst (safe_call extract_hostinfo_features _ _ _)));
    [reflexivity|].
  destruct (binding k (fst (safe_call general_extractor _ _ _))); reflexivity.
Qed.


(** C2, as the code has it. The vocabularies of the two extractors have
    exactly three keys in common, [url_length], [contains_ip_in_url] and
    [contains_encoded_chars].  In the row the aggregator builds for a
    record on which both extractors return, these three hold the content
    extractor's value, unless the additional extractor, merged last,
    returns a dict with the key; every other key of the general vector
    holds the general extractor's value, unless the host or the additional
    extractor returns a dict with the key. *)
Theorem vocabularies_share_three_keys :
  (forall data content_info f g,
      extract_general_features data = Ok f ->
      extract_contentinfo_features content_info = Ok g ->
      forall k, In k (keys f) /\ In k (keys g) <-> In k shared_keys) /\
  (forall label category_name filename d f g,
      extract_general_features (PDict d) = Ok f ->
      extract_contentinfo_features (section_of d "content_info") = Ok g ->
      let row := fst (build_row d label filename category_name) in
      (forall k, In k shared_keys ->
         ~ writes extract_additional_features (section_of d "additional") k ->
         exists v, assoc k g = Some v /\ assoc k row = Some v) /\
      (forall k, In k (keys f) -> ~ In k shared_keys ->
         ~ writes extract_hostinfo_features (section_of d "host_info") k ->
         ~ writes extract_additional_features (section_of d "additional") k ->
         assoc k row = assoc k f)).
Proof.
  split.
  - intros data content_info f g Hf Hg k.
    rewrite (general_keys_of_run _ _ Hf), (content_keys_of_run _ _ Hg).
    apply shared_keys_are_the_common_keys.
  - intros label category_name filename d f g Hf Hg row.
    pose proof (general_keys_of_run _ _ Hf) as Kf.
    pose proof (content_keys_of_run _ _ Hg) as Kg.
    assert (Hndf : NoDup (keys f)) by (rewrite Kf; exact general_keys_nodup).
    assert (Hndg : NoDup (keys g)) by (rewrite Kg; exact content_keys_nodup).
    split.
    + intros k Hk Hx.
      apply shared_keys_are_the_common_keys in Hk as [_ Hk].
      pose proof (content_keys_not_metadata k Hk) as Hm.
      rewrite <- Kg in Hk. destruct (in_keys_assoc _ _ Hk) as (v & Ev).
      exists v. split; [exact Ev|].
      unfold row. rewrite (row_is_the_merge _ _ _ _ _ Hm). cbn [last_writer].
      rewrite (not_written_binding _ _ _ _ _ _ Hx).
      rewrite (content_contribution _ _ _ _ _ Hg). cbn [fst].
      rewrite (binding_assoc _ _ Hndg), Ev. reflexivity.
    + intros k Hk Hns Hh Hx.
      assert (Hkg : ~ In k (keys g)).
      { intros Hg'. apply Hns. apply shared_keys_are_the_common_keys.
        rewrite <- Kf, <- Kg. split; assumption. }
      assert (Hm : ~ In k metadata_keys)
        by (apply general_keys_not_metadata; rewrite <- Kf; exact Hk).
      unfold row. rewrite (row_is_the_merge _ _ _ _ _ Hm). cbn [last_writer].
      rewrite (not_written_binding _ _ _ _ _ _ Hx).
      rewrite (content_contribution _ _ _ _ _ Hg). cbn [fst].
      rewrite (not_in_keys_binding _ _ Hkg).
      rewrite (not_written_binding _ _ _ _ _ _ Hh).
      rewrite (general_contribution _ _ _ _ Hf). cbn [fst].
      apply binding_assoc. exact Hndf.
Qed.



(* ================================================================= *)
(** ** Coercion of [url] and [content_status] *)

Lemma urlparse_not_text (v : pyval) :
  py_truthy v = true -> is_str v = false -> urlparse v = Raise AttributeError.
Proof.
  intros Ht Hs. destruct v; simpl in Hs; try discriminate;
    unfold urlparse; rewrite Ht; reflexivity.
Qed.

(** C4, as the code has it. A [url] that is null or otherwise falsy is
    read as the empty text: the run is that of the same record with an
    empty [url].  A truthy [url] that is not a text makes the extractor
    raise [AttributeError].  [content_status] goes through [int()]: a run
    that returns has the converted integer under [content_status] (0 when
    the key is absent), and when the conversion raises the run raises and
    no value is put in its place. *)
Theorem url_and_status_coercion :
  (forall d1 d2 v,
      assoc "url" d1 = None -> py_truthy v = false ->
      extract_general_features (PDict (d1 ++ ("url", v) :: d2))
      = extract_general_features (PDict (d1 ++ ("url", PStr "") :: d2))) /\
  (forall d v,
      assoc "url" d = Some v -> py_truthy v = true -> is_str v = false ->
      extract_general_features (PDict d) = Raise AttributeError) /\
  (forall d f,
      extract_general_features (PDict d) = Ok f ->
      exists z,
        py_int (match assoc "content_status" d with Some v => v | None => PInt 0 end)
          = Ok z /\
        assoc "content_status" f = Some (VInt z)) /\
  (forall d e,
      py_int (match assoc "content_status" d with Some v => v | None => PInt 0 end)
        = Raise e ->
      exists e', extract_general_features (PDict d) = Raise e').
Proof.
  assert (Hstatus : forall d f,
      extract_general_features (PDict d) = Ok f ->
      exists z,
        py_int (match assoc "content_status" d with Some v => v | None => PInt 0 end)
          = Ok z /\
        assoc "content_status" f = Some (VInt z)).
  { intros d f H. unfold extract_general_features in H.
    run_steps H. inversion H; subst f; clear H.
    cbn [py_get] in *. ok_inj. eexists. split; [eassumption | reflexivity]. }
  split; [|split; [|split]].
  - intros d1 d2 v Hnone Hfalsy.
    unfold extract_general_features. cbn [py_get].
    rewrite !assoc_app, Hnone.
    cbn [assoc String.eqb Ascii.eqb Bool.eqb bind].
    replace (py_or v (PStr "")) with (PStr "")
      by (unfold py_or; rewrite Hfalsy; reflexivity).
    reflexivity.
  - intros d v Hv Ht Hs.
    unfold extract_general_features. cbn [py_get]. rewrite Hv. cbn [bind].
    unfold py_or. rewrite Ht, (urlparse_not_text v Ht Hs). reflexivity.
  - exact Hstatus.
  - intros d e He.
    destruct (extract_general_features (PDict d)) as [f|e'] eqn:E; [|eauto].
    destruct (Hstatus d f E) as (z & Hz & _). congruence.
Qed.

(** C1, as the code has it. The empty dict has the expected shape, and on
    every input of the expected shape ([general_wf], [content_wf]) the
    extractor returns a dict whose keys are its vocabulary. *)
Theorem extractors_total_on_expected_shapes :
  general_wf (PDict []) = true /\
  content_wf (PDict []) = true /\
  (forall data, general_wf data = true ->
     exists f, extract_general_features data = Ok f /\ keys f = general_keys) /\
  (forall content_info, content_wf content_info = true ->
     exists f, extract_contentinfo_features content_info = Ok f /\ keys f = content_keys).
Proof.
  split; [reflexivity|]. split; [reflexivity|]. split.
  - intros data Hwf. destruct (general_total data Hwf) as (f & Hf).
    exists f. split; [exact Hf | exact (general_keys_of_run _ _ Hf)].
  - intros ci Hwf. destruct (content_total ci Hwf) as (f & Hf).
    exists f. split; [exact Hf | exact (content_keys_of_run _ _ Hf)].
Qed.

(* ================================================================= *)
(** ** Further properties of the general extractor *)

Lemma count_from_le (sub s : string) (skip : nat) :
  sub <> "" -> (count_from sub s skip <= String.length s)%nat.
Proof.
  intros Hsub. revert skip. induction s as [|c s IH]; intros skip; simpl.
  - destruct skip; [destruct sub; [congruence | lia] | lia].
  - destruct skip as [|k]; [|specialize (IH k); lia].
    destruct (startswith sub (String c s)).
    + specialize (IH (Nat.pred (String.length sub))). lia.
    + specialize (IH 0%nat). lia.
Qed.

Lemma str_count_bounds (sub s : string) :
  sub <> "" -> 0 <= str_count sub s <= len s.
Proof.
  intros Hsub. unfold str_count, len.
  pose proof (count_from_le sub s 0 Hsub). lia.
Qed.

Lemma nonempty_len (s : string) : nonempty s = true <-> 0 < len s.
Proof.
  unfold nonempty, len. destruct s; simpl; split; intros H;
    try reflexivity; try discriminate; lia.
Qed.

(** X2. In every run of the general extractor that returns: [has_query]
    is 1 exactly when the query is not empty; without a query
    [num_query_params] is 0, with one it is at least 1 and at most
    [query_length + 1]; and [num_path_segments] lies between 0 and
    [path_length]. *)
Theorem query_and_path_counts (data : pyval) (f : dict) :
  extract_general_features data = Ok f ->
  exists has_query query_length params path_length segments,
    assoc "has_query" f = Some (VInt has_query) /\
    assoc "query_length" f = Some (VInt query_length) /\
    assoc "num_query_params" f = Some (VInt params) /\
    assoc "path_length" f = Some (VInt path_length) /\
    assoc "num_path_segments" f = Some (VInt segments) /\
    (has_query = 1 <-> 0 < query_length) /\
    (has_query = 0 <-> query_length = 0) /\
    (has_query = 0 -> params = 0) /\
    (has_query = 1 -> 1 <= params <= query_length + 1) /\
    0 <= segments <= path_length.
Proof.
  unfold extract_general_features. intros H.
  run_steps H. inversion H; subst f; clear H.
  do 5 eexists. do 5 (split; [reflexivity|]).
  match goal with
  | |- context [nonempty (query ?p)] =>
      pose proof (nonempty_len (query p)) as Hq;
      pose proof (str_count_bounds "&" (query p) ltac:(discriminate)) as Hc;
      pose proof (str_count_bounds "/" (path p) ltac:(discriminate)) as Hp;
      assert (Hlq : 0 <= len (query p)) by (unfold len; lia);
      assert (Hlp : 0 <= len (path p)) by (unfold len; lia);
      destruct (nonempty (query p)); destruct (nonempty (path p))
  end;
  unfold int_of_bool;
  repeat split; intros; try lia;
    try (destruct Hq as [Hq1 Hq2];
         first [ specialize (Hq1 eq_refl); lia
               | assert (0 < len (query a0) -> False)
                   by (intros Hpos; specialize (Hq2 Hpos); discriminate); lia ]).
Qed.

(* ----------------------------------------------------------------- *)
(** *** The patterns *)

Lemma full_match_void (s : string) : full_match Void s = false.
Proof. induction s; simpl; auto. Qed.

Lemma full_match_cat_void (r : regex) (s : string) : full_match (Cat Void r) s = false.
Proof. induction s; simpl; auto. Qed.

Lemma full_match_alt (a b : regex) (s : string) :
  full_match (Alt a b) s = (full_match a s || full_match b s)%bool.
Proof. revert a b. induction s as [|c s IH]; intros a b; simpl; auto. Qed.

Lemma full_match_cat_eps (r : regex) (s : string) :
  full_match (Cat Eps r) s = full_match r s.
Proof.
  destruct s as [|c s]; simpl; [reflexivity|].
  rewrite full_match_alt, full_match_cat_void. reflexivity.
Qed.

Lemma prefix_match_void (s : string) : prefix_match Void s = false.
Proof. induction s; simpl; auto. Qed.

Lemma prefix_match_cat_void (r : regex) (s : string) : prefix_match (Cat Void r) s = false.
Proof. induction s; simpl; auto. Qed.

Lemma prefix_match_alt (a b : regex) (s : string) :
  prefix_match (Alt a b) s = (prefix_match a s || prefix_match b s)%bool.
Proof.
  revert a b. induction s as [|c s IH]; intros a b; simpl.
  - rewrite !orb_false_r. reflexivity.
  - rewrite IH. destruct (nullable a), (nullable b),
      (prefix_match (deriv c a) s), (prefix_match (deriv c b) s); reflexivity.
Qed.

Lemma prefix_match_cat_eps (r : regex) (s : string) :
  prefix_match (Cat Eps r) s = prefix_match r s.
Proof.
  destruct s as [|c s]; simpl; [reflexivity|].
  rewrite prefix_match_alt, prefix_match_cat_void. reflexivity.
Qed.

Lemma full_match_bounded_class (p : ascii -> bool) (s : string) (lo k : nat) :
  full_match (Rep lo (Some k) (Class p)) s = true ->
  (lo <= String.length s <= k)%nat.
Proof.
  revert lo k. induction s as [|c s IH]; intros lo k;
    cbn [full_match nullable deriv].
  - rewrite orb_false_r. intros H. apply Nat.eqb_eq in H. simpl. lia.
  - destruct k as [|k]; [rewrite full_match_void; discriminate|].
    cbn [option_map]. destruct (p c).
    + rewrite full_match_cat_eps. intros H. apply IH in H. simpl. lia.
    + rewrite full_match_cat_void. discriminate.
Qed.

Lemma file_extension_match_length (s : string) :
  full_match re_file_extension s = true -> (2 <= String.length s <= 7)%nat.
Proof.
  unfold re_file_extension, lit. destruct s as [|c s];
    cbn [full_match nullable deriv andb]; [discriminate|].
  destruct (Ascii.eqb "." c).
  - rewrite full_match_cat_eps. intros H. apply full_match_bounded_class in H.
    simpl. lia.
  - rewrite full_match_cat_void. discriminate.
Qed.

Lemma chop_newline_length (s : string) :
  (String.length (chop_newline s) <= String.length s)%nat.
Proof.
  induction s as [|c s IH]; simpl; [lia|].
  destruct s as [|c' s']; [destruct (Ascii.eqb c newline); simpl; lia|].
  simpl in *. lia.
Qed.

Lemma re_search_end_some (r : regex) (s : string) (n : nat) :
  re_search_end r s = Some n ->
  exists m, full_match r m = true /\ n = String.length m /\ (n <= String.length s)%nat.
Proof.
  induction s as [|c s IH].
  - simpl. destruct (nullable r) eqn:E; [|discriminate].
    intros H. inversion H. exists "". auto.
  - cbn [re_search_end]. destruct (full_match r (String c s)) eqn:E1.
    + intros H. inversion H. exists (String c s). auto.
    + destruct (full_match r (chop_newline (String c s))) eqn:E2.
      * intros H.
        assert (Hn : n = String.length (chop_newline (String c s))) by congruence.
        rewrite Hn. exists (chop_newline (String c s)).
        split; [exact E2|]. split; [reflexivity|]. apply chop_newline_length.
      * intros H. destruct (IH H) as (m & Hm & Hn & Hle).
        exists m. simpl. repeat split; auto.
Qed.

(** X3. In every run of the general extractor that returns, either no
    file extension is found and [file_extension_len] is 0, or one is found
    and [file_extension_len] is between 1 and 6 and smaller than
    [path_length]. *)
Theorem file_extension_bounds (data : pyval) (f : dict) :
  extract_general_features data = Ok f ->
  exists has_ext ext_len path_length,
    assoc "has_file_extension" f = Some (VInt has_ext) /\
    assoc "file_extension_len" f = Some (VInt ext_len) /\
    assoc "path_length" f = Some (VInt path_length) /\
    ((has_ext = 0 /\ ext_len = 0) \/
     (has_ext = 1 /\ 1 <= ext_len <= 6 /\ ext_len < path_length)).
Proof.
  unfold extract_general_features. intros H.
  run_steps H. inversion H; subst f; clear H.
  do 3 eexists. do 3 (split; [reflexivity|]).
  match goal with
  | |- context [re_search_end re_file_extension ?p] =>
      destruct (re_search_end re_file_extension p) as [n|] eqn:Eext
  end.
  - right. apply re_search_end_some in Eext as (m & Hm & Hn & Hle).
    apply file_extension_match_length in Hm. unfold len. simpl. lia.
  - left. split; reflexivity.
Qed.

Lemma prefix_match_open_class (p : ascii -> bool) (n : nat) (s : string) :
  prefix_match (Rep n None (Class p)) s = starts_with_run p n s.
Proof.
  revert s. induction n as [|n IH]; intros s.
  - destruct s; reflexivity.
  - destruct s as [|c s]; [reflexivity|].
    cbn [prefix_match nullable deriv Nat.eqb orb option_map Nat.pred starts_with_run].
    destruct (p c); cbn [andb].
    + rewrite prefix_match_cat_eps. apply IH.
    + apply prefix_match_cat_void.
Qed.

Lemma starts_with_run_iff (p : ascii -> bool) (n : nat) (s : string) :
  starts_with_run p n s = true <->
  exists run after, s = run ++ after /\ String.length run = n /\ all_chars p run = true.
Proof.
  revert s. induction n as [|n IH]; intros s; simpl.
  - split; [intros _; exists "", s; auto|reflexivity].
  - destruct s as [|c s].
    + split; [discriminate|]. intros (run & after & E & Hl & _).
      destruct run; simpl in *; discriminate.
    + rewrite andb_true_iff, IH. split.
      * intros (Hc & run & after & -> & Hl & Hall).
        exists (String c run), after. simpl. rewrite Hc, Hall. auto.
      * intros (run & after & E & Hl & Hall).
        destruct run as [|c' run]; simpl in *; [discriminate|].
        inversion E; subst. apply andb_true_iff in Hall as [Hc Hall].
        split; [exact Hc|]. exists run, after. auto.
Qed.

Lemma re_search_iff (r : regex) (s : string) :
  re_search r s = true <->
  exists before rest, s = before ++ rest /\ prefix_match r rest = true.
Proof.
  induction s as [|c s IH].
  - simpl. rewrite !orb_false_r. split.
    + intros H. exists "", "". simpl. rewrite H. auto.
    + intros (b & t & E & H). destruct b; [|discriminate].
      simpl in E. subst t. simpl in H. rewrite orb_false_r in H. exact H.
  - cbn [re_search]. rewrite orb_true_iff, IH. split.
    + intros [H | (b & t & -> & H)].
      * exists "", (String c s). auto.
      * exists (String c b), t. auto.
    + intros (b & t & E & H). destruct b as [|c' b].
      * simpl in E. subst t. left. exact H.
      * inversion E; subst. right. exists b, t. auto.
Qed.

Lemma random_label_search (s : string) :
  re_search re_random_label s = true <-> has_run is_random_label_char 15 s.
Proof.
  unfold has_run. rewrite re_search_iff. split.
  - intros (b & t & -> & H).
    unfold re_random_label in H.
    change (fun c => (is_digit c || is_ascii_lower c)%bool) with is_random_label_char in H.
    rewrite prefix_match_open_class in H.
    apply starts_with_run_iff in H as (run & after & -> & Hl & Hall).
    exists b, run, after. auto.
  - intros (b & run & after & -> & Hl & Hall).
    exists b, (run ++ after). split; [reflexivity|].
    unfold re_random_label.
    change (fun c => (is_digit c || is_ascii_lower c)%bool) with is_random_label_char.
    rewrite prefix_match_open_class. apply starts_with_run_iff.
    exists run, after. auto.
Qed.

(** X4. For a record with a non-empty text [subdomain], a run that
    returns measures that text: [subdomain_length] is its length,
    [num_subdomain_levels] its number of dots, and
    [contains_random_subdomain] is 1 exactly when it has 15 consecutive
    characters among 0-9 and a-z, and 0 otherwise. *)
Theorem random_subdomain_is_a_long_run (d : list (string * pyval)) (s : string) (f : dict) :
  assoc "subdomain" d = Some (PStr s) -> s <> "" ->
  extract_general_features (PDict d) = Ok f ->
  assoc "subdomain_length" f = Some (VInt (len s)) /\
  assoc "num_subdomain_levels" f = Some (VInt (str_count "." s)) /\
  (assoc "contains_random_subdomain" f = Some (VInt 1) \/
   assoc "contains_random_subdomain" f = Some (VInt 0)) /\
  (assoc "contains_random_subdomain" f = Some (VInt 1)
   <-> has_run is_random_label_char 15 s).
Proof.
  intros Hs Hne H. unfold extract_general_features in H.
  run_steps H. inversion H; subst f; clear H.
  cbn [py_get] in *. rewrite Hs in *. ok_inj.
  assert (Hsub : forall host, py_or (py_or (PStr s) (PStr host)) (PStr "") = PStr s)
    by (intros host; destruct s; [congruence | reflexivity]).
  rewrite Hsub in *. cbn [py_len py_count py_re_search] in *. ok_inj.
  split; [reflexivity|]. split; [reflexivity|].
  cbn [assoc String.eqb Ascii.eqb Bool.eqb].
  rewrite <- random_label_search.
  destruct (re_search re_random_label s); cbn [int_of_bool].
  - split; [left; reflexivity|]. split; auto.
  - split; [right; reflexivity|]. split; intros E; discriminate E.
Qed.

(** X5. In every run of the general extractor that returns,
    [tech_info_count] is non-negative and [has_tech_info] is 1 exactly
    when it is positive, 0 exactly when it is 0. *)
Theorem tech_info_summary (data : pyval) (f : dict) :
  extract_general_features data = Ok f ->
  exists count has,
    assoc "tech_info_count" f = Some (VInt count) /\
    assoc "has_tech_info" f = Some (VInt has) /\
    0 <= count /\
    (has = 1 <-> 0 < count) /\
    (has = 0 <-> count = 0).
Proof.
  unfold extract_general_features. intros H.
  run_steps H. inversion H; subst f; clear H.
  do 2 eexists. do 2 (split; [reflexivity|]).
  match goal with
  | Hl : py_len ?t = Ok ?n |- context [py_truthy ?t] =>
      destruct t as [| | | |s|l|d]; try discriminate Hl;
      simpl in Hl; inversion Hl; subst; clear Hl
  end.
  - destruct s; cbn; unfold len; simpl; repeat split; intros; try lia; discriminate.
  - destruct l; cbn; repeat split; intros; try lia; discriminate.
  - destruct d; cbn; repeat split; intros; try lia; discriminate.
Qed.

Lemma lower_app (a b : string) : lower (a ++ b) = lower a ++ lower b.
Proof. induction a as [|c a IH]; simpl; [reflexivity | rewrite IH; reflexivity]. Qed.

Lemma str_in_lower (w s : string) :
  str_in w s = true -> str_in (lower w) (lower s) = true.
Proof.
  rewrite !str_in_iff. intros (a & b & ->).
  exists (lower a), (lower b). rewrite !lower_app. reflexivity.
Qed.

(** X6. The suspicious-keyword test ignores case.  For a record with a
    text [url], a run that returns has [contains_suspicious_keyword = 1]
    exactly when the lowercased URL contains one of the nine terms; in
    particular when the URL contains a word that is a term up to case. *)
Theorem suspicious_keyword_ignores_case (d : list (string * pyval)) (url : string)
    (f : dict) :
  assoc "url" d = Some (PStr url) ->
  extract_general_features (PDict d) = Ok f ->
  (assoc "contains_suspicious_keyword" f = Some (VInt 1)
   <-> exists term, In term suspicious_terms /\ str_in term (lower url) = true) /\
  (assoc "contains_suspicious_keyword" f = Some (VInt 1) \/
   assoc "contains_suspicious_keyword" f = Some (VInt 0)) /\
  (forall word, In (lower word) suspicious_terms -> str_in word url = true ->
     assoc "contains_suspicious_keyword" f = Some (VInt 1)).
Proof.
  intros Hurl H.
  assert (Hiff : assoc "contains_suspicious_keyword" f = Some (VInt 1)
                 <-> exists term, In term suspicious_terms /\ str_in term (lower url) = true).
  { unfold extract_general_features in H.
    run_steps H. injection H as <-.
    cbn [py_get] in *. rewrite Hurl in *. ok_inj.
    assert (Hl : forall s, py_lower (py_or (PStr url) (PStr "")) = Ok s -> s = lower url).
    { intros s Hs. destruct url; simpl in Hs; inversion Hs; reflexivity. }
    match goal with E : py_lower _ = Ok ?s |- _ => apply Hl in E; subst s end.
    cbn [assoc String.eqb Ascii.eqb Bool.eqb].
    match goal with
    | |- Some (VInt (int_of_bool ?b)) = _ <-> _ =>
        change b with (any_in suspicious_terms (lower url))
    end.
    unfold any_in at 1. rewrite <- existsb_exists.
    destruct (existsb _ suspicious_terms); cbn [int_of_bool];
      split; intros E; first [reflexivity | discriminate E]. }
  split; [exact Hiff|]. split.
  - unfold extract_general_features in H.
    run_steps H. inversion H; subst f; clear H.
    cbn [assoc String.eqb Ascii.eqb Bool.eqb].
    match goal with
    | |- Some (VInt (int_of_bool ?b)) = _ \/ _ => destruct b
    end; [left | right]; reflexivity.
  - intros word Hw Hin. apply Hiff. exists (lower word).
    split; [exact Hw | apply str_in_lower; exact Hin].
Qed.

(** X7. An argument that is not a dict makes both extractors raise
    [AttributeError] at their first [get], whatever else it is. *)
Theorem non_dict_argument_raises (v : pyval) :
  (forall d, v <> PDict d) ->
  extract_general_features v = Raise AttributeError /\
  extract_contentinfo_features v = Raise AttributeError.
Proof.
  intros Hv. destruct v; try (split; reflexivity).
  exfalso. eapply Hv. reflexivity.
Qed.

(* ----------------------------------------------------------------- *)
(** *** The parts of a parsed URL *)

Lemma length_app (a b : string) :
  String.length (a ++ b) = (String.length a + String.length b)%nat.
Proof. induction a; simpl; auto. Qed.

Lemma char_in_app (c : ascii) (a b : string) :
  char_in c (a ++ b) = (char_in c a || char_in c b)%bool.
Proof.
  induction a as [|x a IH]; simpl; [reflexivity|].
  rewrite IH. apply orb_assoc.
Qed.

Lemma partition_char_eq (c : ascii) (s l r : string) :
  partition_char c s = Some (l, r) -> s = l ++ String c r.
Proof.
  revert l. induction s as [|a s IH]; intros l; simpl; [discriminate|].
  destruct (Ascii.eqb_spec a c) as [->|Hne].
  - intros H. inversion H. reflexivity.
  - destruct (partition_char c s) as [[l' r']|]; [|discriminate].
    intros H. inversion H; subst. simpl. rewrite (IH l' eq_refl). reflexivity.
Qed.

Lemma rpartition_char_eq (c : ascii) (s l r : string) :
  rpartition_char c s = Some (l, r) -> s = l ++ String c r.
Proof.
  revert l. induction s as [|a s IH]; intros l; simpl; [discriminate|].
  destruct (rpartition_char c s) as [[l' r']|].
  - intros H. inversion H; subst. simpl. rewrite (IH l' eq_refl). reflexivity.
  - destruct (Ascii.eqb_spec a c) as [->|Hne]; [|discriminate].
    intros H. inversion H. reflexivity.
Qed.

Lemma lstrip_suffix (p : ascii -> bool) (s : string) :
  exists pre, s = pre ++ lstrip p s.
Proof.
  induction s as [|c s (pre & IH)]; simpl; [exists ""; reflexivity|].
  destruct (p c).
  - exists (String c pre). simpl. rewrite <- IH. reflexivity.
  - exists "". reflexivity.
Qed.

Lemma filter_chars_char_in (p : ascii -> bool) (c : ascii) (s : string) :
  char_in c (filter_chars p s) = true -> char_in c s = true.
Proof.
  induction s as [|a s IH]; simpl; [discriminate|].
  destruct (p a); simpl; intros H.
  - apply orb_true_iff in H as [H|H]; rewrite ?H, ?(IH H), ?orb_true_r; reflexivity.
  - rewrite (IH H), orb_true_r. reflexivity.
Qed.

Lemma splitnetloc_eq (s n r : string) : splitnetloc s = (n, r) -> s = n ++ r.
Proof.
  revert n. induction s as [|c s IH]; intros n; simpl.
  - intros H. inversion H. reflexivity.
  - destruct (Ascii.eqb c "/" || Ascii.eqb c "?" || Ascii.eqb c "#")%bool.
    + intros H. inversion H. reflexivity.
    + destruct (splitnetloc s) as [n' r']. intros H. inversion H; subst.
      simpl. rewrite (IH n' eq_refl). reflexivity.
Qed.

Lemma substring_all (s : string) : String.substring 0 (String.length s) s = s.
Proof. induction s as [|c s IH]; simpl; [reflexivity | rewrite IH; reflexivity]. Qed.

Lemma after_two_slashes (url : string) :
  startswith "//" url = true ->
  url = "//" ++ String.substring 2 (String.length url - 2) url.
Proof.
  intros H. apply startswith_iff in H as (rest & ->).
  simpl. rewrite Nat.sub_0_r, substring_all. reflexivity.
Qed.

Lemma lower_length (s : string) : String.length (lower s) = String.length s.
Proof. induction s; simpl; auto. Qed.

(** What [urlsplit] does to a text before it looks for the parts. *)
Lemma cleaned_url (url : string) :
  let u := filter_chars (fun c => negb (is_unsafe_url_byte c))
             (lstrip is_c0_control_or_space url) in
  (String.length u <= String.length url)%nat /\
  (forall c, char_in c u = true -> char_in c url = true).
Proof.
  destruct (lstrip_suffix is_c0_control_or_space url) as (pre & E).
  split.
  - pose proof (filter_chars_length (fun c => negb (is_unsafe_url_byte c))
                  (lstrip is_c0_control_or_space url)).
    rewrite E at 2. rewrite length_app. lia.
  - intros c H. apply filter_chars_char_in in H.
    rewrite E, char_in_app, H, orb_true_r. reflexivity.
Qed.

(** [_checknetloc] never raises on texts below U+0100: the normal form of
    such a code point holds none of [/?#@:] unless the code point is one of
    them, and [_splitnetloc] leaves no [/] in the network location. *)
Lemma nfkc_char_brings_no_delimiter (a : ascii) (c : N) :
  char_in a "/?#@:" = false -> In c [47; 63; 35; 64; 58]%N ->
  existsb (N.eqb c) (nfkc_char a) = false.
Proof.
  intros Ha Hc. simpl in Hc.
  destruct Hc as [<-|[<-|[<-|[<-|[<-|[]]]]]]; revert Ha;
    destruct a as [[] [] [] [] [] [] [] []]; vm_compute; intros Ha;
    (reflexivity || discriminate Ha).
Qed.

Lemma nfkc_brings_no_delimiter (s : string) (c : N) :
  all_chars (fun a => negb (char_in a "/?#@:")) s = true ->
  In c [47; 63; 35; 64; 58]%N ->
  existsb (N.eqb c) (nfkc s) = false.
Proof.
  intros Hs Hc. induction s as [|a s IH]; [reflexivity|].
  cbn [all_chars] in Hs. apply andb_true_iff in Hs as [Ha Hs].
  apply negb_true_iff in Ha.
  cbn [nfkc]. rewrite existsb_app, (nfkc_char_brings_no_delimiter a c Ha Hc).
  exact (IH Hs).
Qed.

Lemma kept_char_is_no_delimiter (a : ascii) :
  negb (Ascii.eqb a "@" || Ascii.eqb a ":" || Ascii.eqb a "#" || Ascii.eqb a "?") = true ->
  Ascii.eqb a "/" = false ->
  char_in a "/?#@:" = false.
Proof.
  destruct a as [[] [] [] [] [] [] [] []]; vm_compute; intros H1 H2;
    (reflexivity || discriminate H1 || discriminate H2).
Qed.

Lemma checknetloc_without_slash (nl : string) :
  char_in "/" nl = false -> checknetloc nl = true.
Proof.
  intros Hslash. unfold checknetloc.
  destruct (String.eqb nl "" || isascii nl)%bool; [reflexivity|].
  set (keep := fun c => negb (Ascii.eqb c "@" || Ascii.eqb c ":" || Ascii.eqb c "#"
                              || Ascii.eqb c "?")).
  destruct (same_code_points _ _); [reflexivity|].
  assert (Hn : all_chars (fun a => negb (char_in a "/?#@:")) (filter_chars keep nl) = true).
  { clear -Hslash. induction nl as [|a s IH]; [reflexivity|].
    cbn [char_in] in Hslash. apply orb_false_iff in Hslash as [Ha Hs].
    cbn [filter_chars]. destruct (keep a) eqn:Ek; [|exact (IH Hs)].
    cbn [all_chars]. rewrite (kept_char_is_no_delimiter a Ek Ha). exact (IH Hs). }
  cbn [existsb].
  rewrite !(nfkc_brings_no_delimiter _ _ Hn) by (simpl; tauto).
  reflexivity.
Qed.

Lemma splitnetloc_without_slash (s : string) : char_in "/" (fst (splitnetloc s)) = false.
Proof.
  induction s as [|c s IH]; [reflexivity|]. cbn [splitnetloc].
  destruct (Ascii.eqb c "/") eqn:Ec; [reflexivity|]. cbn [orb].
  destruct (Ascii.eqb c "?" || Ascii.eqb c "#")%bool; [reflexivity|].
  destruct (splitnetloc s) as [n rest]. cbn [fst char_in] in *.
  rewrite Ec, IH. reflexivity.
Qed.

Lemma urlsplit_parts (url sc nl pa q fr : string) :
  urlsplit url = Ok (sc, nl, pa, q, fr) ->
  (String.length sc + String.length nl + String.length pa + String.length q
   + String.length fr <= String.length url)%nat.
Proof.
  unfold urlsplit.
  destruct (cleaned_url url) as [Hlen _].
  set (u := filter_chars (fun c => negb (is_unsafe_url_byte c))
              (lstrip is_c0_control_or_space url)) in *.
  assert (Hscheme : exists s1 u1,
             match partition_char ":" u with
             | Some (pre, rest) =>
                 if (negb (String.eqb pre "") && first_is is_ascii_alpha u
                     && all_chars is_scheme_char pre)%bool
                 then (lower pre, rest) else (EmptyString, u)
             | None => (EmptyString, u)
             end = (s1, u1) /\
             (String.length s1 + String.length u1 <= String.length u)%nat).
  { destruct (partition_char ":" u) as [[pre rest]|] eqn:Ep.
    - apply partition_char_eq in Ep.
      destruct (negb (String.eqb pre "") && first_is is_ascii_alpha u
                && all_chars is_scheme_char pre)%bool.
      + exists (lower pre), rest. split; [reflexivity|].
        rewrite Ep, length_app, lower_length. simpl. lia.
      + exists "", u. split; [reflexivity | simpl; lia].
    - exists "", u. split; [reflexivity | simpl; lia]. }
  destruct Hscheme as (s1 & u1 & -> & Hs1).
  assert (Hnet : forall n2 u2,
             (if startswith "//" u1
              then
                let '(nl0, rest) :=
                  splitnetloc (String.substring 2 (String.length u1 - 2) u1) in
                if xorb (char_in "[" nl0) (char_in "]" nl0) then Raise ValueError
                else if (char_in "[" nl0 && char_in "]" nl0)%bool
                     then if check_bracketed_netloc nl0 then Ok (nl0, rest)
                          else Raise ValueError
                     else Ok (nl0, rest)
              else Ok (EmptyString, u1)) = Ok (n2, u2) ->
             (String.length n2 + String.length u2 <= String.length u1)%nat).
  { intros n2 u2. destruct (startswith "//" u1) eqn:Es.
    - pose proof (after_two_slashes u1 Es) as E2.
      destruct (splitnetloc _) as [nl0 rest] eqn:En.
      apply splitnetloc_eq in En.
      assert (String.length nl0 + String.length rest <= String.length u1)%nat
        by (rewrite E2, length_app, En, length_app; simpl; lia).
      destruct (xorb _ _); [discriminate|].
      destruct (char_in "[" nl0 && char_in "]" nl0)%bool;
        [destruct (check_bracketed_netloc nl0); [|discriminate]|];
        intros H'; inversion H'; subst; assumption.
    - intros H'. inversion H'; subst. simpl. lia. }
  match goal with
  | |- bind ?m _ = _ -> _ => destruct m as [[n2 u2]|e] eqn:Em; [|discriminate]
  end.
  specialize (Hnet n2 u2 eq_refl). cbn [bind].
  destruct (partition_char "#" u2) as [[l1 f1]|] eqn:Ef;
    [apply partition_char_eq in Ef|];
    match goal with
    | |- context [partition_char "?" ?x] =>
        destruct (partition_char "?" x) as [[l2 q2]|] eqn:Eq;
        [apply partition_char_eq in Eq|]
    end;
    (destruct (checknetloc n2); [|discriminate]);
    intros H; inversion H; subst; clear H;
    repeat rewrite length_app in *; simpl in *; lia.
Qed.

Lemma splitparams_length (url : string) :
  (String.length (fst (splitparams url)) + String.length (snd (splitparams url))
   <= String.length url)%nat.
Proof.
  unfold splitparams.
  destruct (rpartition_char "/" url) as [[head tail]|] eqn:Er.
  - apply rpartition_char_eq in Er.
    destruct (partition_char ";" tail) as [[l p]|] eqn:Ep; [|simpl; lia].
    apply partition_char_eq in Ep. subst.
    simpl. repeat rewrite length_app. simpl. rewrite length_app. simpl. lia.
  - destruct (partition_char ";" url) as [[l p]|] eqn:Ep; [|simpl; lia].
    apply partition_char_eq in Ep. subst. simpl. rewrite length_app. simpl. lia.
Qed.

Lemma urlparse_text_parts (url : string) (p : ParseResult) :
  urlparse_text url = Ok p ->
  (String.length (scheme p) + String.length (netloc p) + String.length (path p)
   + String.length (params p) + String.length (query p)
   + String.length (fragment p) <= String.length url)%nat.
Proof.
  unfold urlparse_text. intros H.
  apply bind_ok in H as ([[[[sc nl] pa] q] fr] & Es & H).
  apply urlsplit_parts in Es.
  pose proof (splitparams_length pa) as Hp.
  destruct (existsb (String.eqb sc) uses_params && char_in ";" pa)%bool.
  - destruct (splitparams pa) as [pa' pr]. inversion H; subst; simpl in *. lia.
  - inversion H; subst; simpl. lia.
Qed.

(** X8. The parts [urlparse] cuts out of the URL fit in it: in every run
    of the general extractor that returns,
    [path_length + query_length <= url_length], and when the record has no
    [subdomain] field, so that the host of the URL stands in for it,
    [subdomain_length + path_length + query_length <= url_length]. *)
Theorem url_parts_fit_in_url (d : list (string * pyval)) (f : dict) :
  extract_general_features (PDict d) = Ok f ->
  exists url_length path_length query_length subdomain_length,
    assoc "url_length" f = Some (VInt url_length) /\
    assoc "path_length" f = Some (VInt path_length) /\
    assoc "query_length" f = Some (VInt query_length) /\
    assoc "subdomain_length" f = Some (VInt subdomain_length) /\
    0 <= path_length /\ 0 <= query_length /\
    path_length + query_length <= url_length /\
    (assoc "subdomain" d = None ->
     subdomain_length + path_length + query_length <= url_length).
Proof.
  unfold extract_general_features. intros H.
  run_steps H. injection H as <-.
  do 4 eexists. do 4 (split; [reflexivity|]).
  match goal with
  | Hp : urlparse ?u = Ok ?p, Hl : py_len ?u = Ok ?n, Hw : py_lower ?u = Ok _ |- _ =>
      destruct u as [| | | |s| |]; try discriminate Hw;
      cbn [urlparse py_len] in Hp, Hl; injection Hl as <-;
      pose proof (urlparse_text_parts s p Hp) as Hparts
  end.
  unfold len. split; [lia|]. split; [lia|]. split; [lia|].
  intros Hnone. cbn [py_get] in *. rewrite Hnone in *. ok_inj.
  match goal with
  | Hs : py_len (py_or (py_or (PStr "") (PStr (netloc ?p))) (PStr "")) = Ok ?n |- _ =>
      assert (n = len (netloc p))
        by (destruct (netloc p); simpl in Hs; inversion Hs; reflexivity)
  end.
  unfold len in *. lia.
Qed.

Lemma char_not_in_app (c : ascii) (a b : string) :
  char_in c (a ++ b) = false -> char_in c a = false /\ char_in c b = false.
Proof. rewrite char_in_app. apply orb_false_iff. Qed.

Lemma urlsplit_without_brackets (url : string) :
  char_in "[" url = false -> char_in "]" url = false ->
  exists r, urlsplit url = Ok r.
Proof.
  intros Hopen Hclose. unfold urlsplit.
  destruct (cleaned_url url) as [_ Hin].
  set (u := filter_chars (fun c => negb (is_unsafe_url_byte c))
              (lstrip is_c0_control_or_space url)) in *.
  assert (Hu : forall c, char_in c url = false -> char_in c u = false).
  { intros c Hc. destruct (char_in c u) eqn:E; [|reflexivity].
    rewrite (Hin c E) in Hc. discriminate. }
  assert (Hscheme : exists s1 u1,
             match partition_char ":" u with
             | Some (pre, rest) =>
                 if (negb (String.eqb pre "") && first_is is_ascii_alpha u
                     && all_chars is_scheme_char pre)%bool
                 then (lower pre, rest) else (EmptyString, u)
             | None => (EmptyString, u)
             end = (s1, u1) /\
             (forall c, char_in c u = false -> char_in c u1 = false)).
  { destruct (partition_char ":" u) as [[pre rest]|] eqn:Ep.
    - apply partition_char_eq in Ep.
      destruct (negb (String.eqb pre "") && first_is is_ascii_alpha u
                && all_chars is_scheme_char pre)%bool.
      + exists (lower pre), rest. split; [reflexivity|].
        intros c Hc. rewrite Ep in Hc. apply char_not_in_app in Hc as [_ Hc].
        simpl in Hc. apply orb_false_iff in Hc as [_ Hc]. exact Hc.
      + exists "", u. auto.
    - exists "", u. auto. }
  destruct Hscheme as (s1 & u1 & -> & Hu1).
  assert (Hnet : exists n2 u2,
             (if startswith "//" u1
              then
                let '(nl0, rest) :=
                  splitnetloc (String.substring 2 (String.length u1 - 2) u1) in
                if xorb (char_in "[" nl0) (char_in "]" nl0) then Raise ValueError
                else if (char_in "[" nl0 && char_in "]" nl0)%bool
                     then if check_bracketed_netloc nl0 then Ok (nl0, rest)
                          else Raise ValueError
                     else Ok (nl0, rest)
              else Ok (EmptyString, u1)) = Ok (n2, u2) /\
             checknetloc n2 = true).
  { destruct (startswith "//" u1) eqn:Es; [|exists "", u1; split; reflexivity].
    pose proof (after_two_slashes u1 Es) as E2.
    pose proof (splitnetloc_without_slash
                  (String.substring 2 (String.length u1 - 2) u1)) as Hslash.
    destruct (splitnetloc _) as [nl0 rest] eqn:En.
    apply splitnetloc_eq in En.
    assert (Hnl : forall c, char_in c url = false -> char_in c nl0 = false).
    { intros c Hc. apply Hu, Hu1 in Hc. rewrite E2, En in Hc.
      apply char_not_in_app in Hc as [_ Hc].
      apply char_not_in_app in Hc as [Hc _]. exact Hc. }
    rewrite (Hnl _ Hopen), (Hnl _ Hclose). cbn [xorb andb].
    exists nl0, rest. split; [reflexivity|].
    apply checknetloc_without_slash. exact Hslash. }
  destruct Hnet as (n2 & u2 & -> & Hcheck). cbn [bind]. rewrite Hcheck.
  destruct (partition_char "#" u2) as [[l1 f1]|];
    match goal with
    | |- context [partition_char "?" ?x] =>
        destruct (partition_char "?" x) as [[l2 q2]|]
    end; eauto.
Qed.

(** X9. On texts whose code points are all below U+0100, those of this
    model, [urlparse] can fail only on square brackets.  [_checknetloc]
    never raises on the network location [_splitnetloc] cuts out, so a URL
    without [[] and []] is parsed; and a record whose [url] is such a text
    and whose other fields have the expected shape makes the general
    extractor return its full vocabulary. *)
Theorem url_without_brackets_is_accepted :
  (forall s, checknetloc (fst (splitnetloc s)) = true) /\
  (forall url, char_in "[" url = false -> char_in "]" url = false ->
     exists p, urlparse_text url = Ok p) /\
  (forall d url,
     assoc "url" d = Some (PStr url) ->
     char_in "[" url = false -> char_in "]" url = false ->
     absent_or is_null_or_str (assoc "subdomain" d) = true ->
     absent_or is_bool_or_int (assoc "has_subdomain" d) = true ->
     absent_or is_int (assoc "content_status" d) = true ->
     absent_or (is_list_of (fun _ => true)) (assoc "tech_info" d) = true ->
     exists f, extract_general_features (PDict d) = Ok f /\ keys f = general_keys).
Proof.
  assert (Hparse : forall url, char_in "[" url = false -> char_in "]" url = false ->
                     exists p, urlparse_text url = Ok p).
  { intros url Ho Hc. destruct (urlsplit_without_brackets url Ho Hc) as (r & Er).
    unfold urlparse_text. rewrite Er. cbn [bind].
    destruct r as [[[[sc nl] pa] q] fr].
    destruct (existsb (String.eqb sc) uses_params && char_in ";" pa)%bool;
      [destruct (splitparams pa)|]; eauto. }
  split.
  { intros s. apply checknetloc_without_slash, splitnetloc_without_slash. }
  split; [exact Hparse|].
  intros d url Hurl Ho Hc H2 H3 H4 H5.
  destruct (Hparse url Ho Hc) as (p & Ep).
  assert (Hwf : general_wf (PDict d) = true).
  { unfold general_wf. rewrite Hurl, H2, H3, H4, H5.
    cbn [absent_or is_null_or_parsable_url]. rewrite Ep. reflexivity. }
  destruct (general_total _ Hwf) as (f & Hf).
  exists f. split; [exact Hf | exact (general_keys_of_run _ _ Hf)].
Qed.

(* ================================================================= *)
(** ** Further properties of the content extractor *)

Lemma str_in_count (sub s : string) :
  sub <> "" -> (str_in sub s = true <-> (1 <= count_from sub s 0)%nat).
Proof.
  intros Hsub. induction s as [|c s IH].
  - destruct sub; [congruence|]. simpl. split; [discriminate | lia].
  - cbn [str_in count_from]. destruct (startswith sub (String c s)).
    + simpl. split; [lia | reflexivity].
    + simpl. exact IH.
Qed.

(** X10. In every run of the content extractor that returns, the flags
    agree with the counts: [has_html] is 1 exactly when [html_length] is
    positive, [contains_script_tag] is 1 exactly when [num_scripts] is at
    least 1, and [num_scripts] and [num_links] lie between 0 and
    [html_length]. *)
Theorem html_flags_agree_with_counts (content_info : pyval) (f : dict) :
  extract_contentinfo_features content_info = Ok f ->
  exists has_html html_length script_tag scripts links,
    assoc "has_html" f = Some (VInt has_html) /\
    assoc "html_length" f = Some (VInt html_length) /\
    assoc "contains_script_tag" f = Some (VInt script_tag) /\
    assoc "num_scripts" f = Some (VInt scripts) /\
    assoc "num_links" f = Some (VInt links) /\
    (has_html = 1 <-> 0 < html_length) /\
    (has_html = 0 <-> html_length = 0) /\
    (script_tag = 1 <-> 1 <= scripts) /\
    (script_tag = 0 <-> scripts = 0) /\
    0 <= scripts <= html_length /\
    0 <= links <= html_length.
Proof.
  unfold extract_contentinfo_features. intros H.
  run_steps H. injection H as <-.
  do 5 eexists. do 5 (split; [reflexivity|]).
  destruct content_info as [| | | | | |d]; try discriminate.
  cbn [py_get] in *. ok_inj.
  assert (Htext : exists h,
             match assoc "html" d with Some v => v | None => PStr "" end = PStr h /\
             py_truthy (match assoc "html" d with Some v => v | None => PNone end)
               = nonempty h).
  { destruct (assoc "html" d) as [[]|]; try discriminate; eexists; split; reflexivity. }
  destruct Htext as (h & Eh & Et). rewrite Eh, Et in *.
  cbn [py_len py_lower] in *. ok_inj.
  pose proof (nonempty_len h) as Hn.
  pose proof (str_in_count "<script" (lower h) ltac:(discriminate)) as Hs.
  pose proof (str_count_bounds "<script" (lower h) ltac:(discriminate)) as Hb1.
  pose proof (str_count_bounds "href=" (lower h) ltac:(discriminate)) as Hb2.
  assert (Hll : len (lower h) = len h) by (unfold len; rewrite lower_length; reflexivity).
  rewrite Hll in *. unfold str_count in *.
  destruct (nonempty h); destruct (str_in "<script" (lower h));
    unfold int_of_bool; destruct Hn as [Hn1 Hn2]; destruct Hs as [Hs1 Hs2];
    repeat split; intros; try lia;
    try (specialize (Hn1 eq_refl); lia);
    try (specialize (Hs1 eq_refl); lia);
    try (exfalso; assert (true = false -> False) by discriminate;
         first [ assert (0 < len h) by lia; specialize (Hn2 ltac:(assumption)); discriminate
               | assert (1 <= count_from "<script" (lower h) 0)%nat by lia;
                 specialize (Hs2 ltac:(assumption)); discriminate ]).
Qed.

Lemma chars_of_length (s : string) : List.length (chars_of s) = String.length s.
Proof. induction s; simpl; auto. Qed.

Lemma py_iter_length (v : pyval) (l : list pyval) (n : Z) :
  py_iter v = Ok l -> py_len v = Ok n -> n = Z.of_nat (List.length l).
Proof.
  destruct v; simpl; try discriminate; intros H1 H2;
    inversion H1; inversion H2; subst.
  - unfold len. rewrite chars_of_length. reflexivity.
  - reflexivity.
  - rewrite length_map. reflexivity.
Qed.

Lemma md5_list_length (l acc acc' : list pyval) :
  foldM md5_step l acc = Ok acc' ->
  (List.length acc' <= List.length acc + List.length l)%nat.
Proof.
  revert acc. induction l as [|r l IH]; intros acc; simpl.
  - intros H. inversion H. lia.
  - intros H. apply bind_ok in H as (acc1 & E1 & H). apply IH in H.
    unfold md5_step in E1. apply bind_ok in E1 as (b & _ & E1).
    destruct b.
    + apply bind_ok in E1 as (m & _ & E1). inversion E1; subst.
      rewrite List.length_app in H. simpl in H. lia.
    + inversion E1; subst. lia.
Qed.

Lemma distinct_length (l : list pyval) : (List.length (distinct l) <= List.length l)%nat.
Proof.
  induction l as [|x l IH]; simpl; [lia|].
  destruct (existsb (py_eq x) l); simpl; lia.
Qed.

Lemma mapM_length {A B : Type} (f : A -> result B) (l : list A) (ys : list B) :
  mapM f l = Ok ys -> List.length ys = List.length l.
Proof.
  revert ys. induction l as [|x l IH]; intros ys; simpl.
  - intros H. inversion H. reflexivity.
  - intros H. apply bind_ok in H as (y & _ & H). apply bind_ok in H as (ys' & E & H).
    inversion H; subst. simpl. rewrite (IH ys' E). reflexivity.
Qed.

Lemma count_true_bounds (l : list bool) : 0 <= count_true l <= Z.of_nat (List.length l).
Proof.
  unfold count_true. pose proof (filter_length_le id l). lia.
Qed.

Lemma py_len_nonneg (v : pyval) (n : Z) : py_len v = Ok n -> 0 <= n.
Proof.
  destruct v; simpl; try discriminate; intros H; inversion H; unfold len; lia.
Qed.

Lemma file_type_sizes_nonneg (l : list pyval) (sizes : list Z) :
  mapM file_type_len l = Ok sizes -> 0 <= sumZ sizes.
Proof.
  revert sizes. induction l as [|r l IH]; intros sizes; simpl.
  - intros H. inversion H. simpl. lia.
  - intros H. apply bind_ok in H as (n & En & H). apply bind_ok in H as (ys & E & H).
    inversion H; subst. simpl. specialize (IH ys E).
    unfold file_type_len in En. apply bind_ok in En as (ft & _ & En).
    apply py_len_nonneg in En. lia.
Qed.

(** X11. In every run of the content extractor that returns, the three
    counts over [responses] lie between 0 and [num_responses]:
    [num_unique_md5], [num_long_lines_files] and [num_ascii_files].
    [avg_file_size_class] is never negative, and it is 0 when there is no
    response, the divisor then being 1. *)
Theorem response_counts_within_num_responses (content_info : pyval) (f : dict) :
  extract_contentinfo_features content_info = Ok f ->
  exists responses unique long_lines asciis average,
    assoc "num_responses" f = Some (VInt responses) /\
    assoc "num_unique_md5" f = Some (VInt unique) /\
    assoc "num_long_lines_files" f = Some (VInt long_lines) /\
    assoc "num_ascii_files" f = Some (VInt asciis) /\
    assoc "avg_file_size_class" f = Some (VFloat average) /\
    0 <= unique <= responses /\
    0 <= long_lines <= responses /\
    0 <= asciis <= responses /\
    (0 <= average)%Q /\
    (responses = 0 -> average = 0%Q).
Proof.
  unfold extract_contentinfo_features. intros H.
  run_steps H. injection H as <-.
  do 5 eexists. do 5 (split; [reflexivity|]).
  repeat match goal with
    | Hi : py_iter ?v = Ok ?l, Hl : py_len ?v = Ok ?n |- _ =>
        pose proof (py_iter_length v l n Hi Hl); clear Hi
    end.
  repeat match goal with
    | Hm : mapM _ _ = Ok _ |- _ =>
        pose proof (mapM_length _ _ _ Hm);
        try pose proof (file_type_sizes_nonneg _ _ Hm);
        clear Hm
    end.
  match goal with
  | Hm : foldM md5_step _ [] = Ok ?acc, Hs : py_set_size ?acc = Ok ?n |- _ =>
      apply md5_list_length in Hm; unfold py_set_size in Hs;
      destruct (forallb py_hashable acc); [|discriminate Hs];
      injection Hs as <-; pose proof (distinct_length acc)
  end.
  repeat match goal with
    | |- context [count_true ?l] =>
        pose proof (count_true_bounds l); generalize dependent (count_true l); intros
    end.
  simpl in *.
  split; [lia|]. split; [lia|]. split; [lia|]. split.
  - unfold true_div. rewrite Qred_correct. unfold Qle. cbn [Qnum Qden]. lia.
  - intros Hz. subst. unfold true_div.
    match goal with
    | H : Z.of_nat (List.length ?l) = 0, Hlen : List.length ?ys = List.length ?l
      |- context [sumZ ?ys] =>
        destruct ys; [reflexivity | simpl in Hlen; lia]
    end.
Qed.

Lemma header_step_keeps_type (acc acc' : list string * list string) (h : pyval)
    (x : string) :
  header_step acc h = Ok acc' -> In x (snd acc) -> In x (snd acc').
Proof.
  unfold header_step. intros H Hx. run_steps H. inversion H; subst; cbn [snd].
  destruct (String.eqb _ "content-type"); [apply in_or_app; left|]; exact Hx.
Qed.

Lemma headers_keep_type (hs : list pyval) (acc acc' : list string * list string)
    (x : string) :
  foldM header_step hs acc = Ok acc' -> In x (snd acc) -> In x (snd acc').
Proof.
  revert acc. induction hs as [|h hs IH]; simpl; intros acc H Hx.
  - inversion H; subst; exact Hx.
  - apply bind_ok in H as (acc1 & E1 & H). eapply IH; [exact H|].
    eapply header_step_keeps_type; eauto.
Qed.

Lemma headers_collect_type (hs : list pyval) (acc acc' : list string * list string)
    (h : pyval) (key value : string) :
  foldM header_step hs acc = Ok acc' -> In h hs ->
  py_get h "key" (PStr "") = Ok (PStr key) ->
  py_get h "value" (PStr "") = Ok (PStr value) ->
  lower key = "content-type" ->
  In (lower value) (snd acc').
Proof.
  revert acc. induction hs as [|h0 hs IH]; simpl; intros acc H Hin Hk Hv Hs; [contradiction|].
  apply bind_ok in H as (acc1 & E1 & H).
  destruct Hin as [-> | Hin]; [|eapply IH; eauto].
  eapply headers_keep_type; [exact H|].
  unfold header_step in E1. rewrite Hk, Hv in E1. cbn [bind py_lower] in E1.
  rewrite Hs in E1. inversion E1; subst; cbn [snd].
  apply in_or_app. right. left. reflexivity.
Qed.

Lemma entries_keep_type (es : list pyval) (acc acc' : list string * list string)
    (x : string) :
  foldM entry_step es acc = Ok acc' -> In x (snd acc) -> In x (snd acc').
Proof.
  revert acc. induction es as [|e es IH]; simpl; intros acc H Hx.
  - inversion H; subst; exact Hx.
  - apply bind_ok in H as (acc1 & E1 & H). eapply IH; [exact H|].
    unfold entry_step in E1. run_steps E1. eapply headers_keep_type; eauto.
Qed.

Lemma entries_collect_type (es : list pyval) (acc acc' : list string * list string)
    (entry response headers h : pyval) (hs : list pyval) (key value : string) :
  foldM entry_step es acc = Ok acc' -> In entry es ->
  py_get entry "response" (PDict []) = Ok response ->
  py_get response "headers" (PList []) = Ok headers ->
  py_iter headers = Ok hs -> In h hs ->
  py_get h "key" (PStr "") = Ok (PStr key) ->
  py_get h "value" (PStr "") = Ok (PStr value) ->
  lower key = "content-type" ->
  In (lower value) (snd acc').
Proof.
  revert acc. induction es as [|e es IH]; simpl;
    intros acc H Hin Hr Hh Hi Hhin Hk Hv Hs; [contradiction|].
  apply bind_ok in H as (acc1 & E1 & H).
  destruct Hin as [-> | Hin]; [|eapply IH; eauto].
  eapply entries_keep_type; [exact H|].
  unfold entry_step in E1. rewrite Hr in E1; cbn [bind] in E1.
  rewrite Hh in E1; cbn [bind] in E1. rewrite Hi in E1; cbn [bind] in E1.
  eapply headers_collect_type; eauto.
Qed.

Lemma count_containing_member (mark x : string) (l : list string) :
  In x l -> str_in mark x = true -> 1 <= count_containing mark l.
Proof.
  intros Hin Hm. unfold count_containing.
  assert (Hf : In x (filter (str_in mark) l)) by (apply filter_In; auto).
  destruct (filter (str_in mark) l); [contradiction | simpl; lia].
Qed.

(** X12. The content-type headers are read without regard to case, like
    the server headers.  When the content extractor returns, a header
    whose lowercased key is [content-type] puts its lowercased value in
    [content_types]; if that value contains [javascript], [css] or [html]
    the matching file count is at least 1, and if it contains [gzip] then
    [has_gzip_encoding = 1]. *)
Theorem content_type_header_case_insensitive
    (d : list (string * pyval)) (har : pyval) (entries : list pyval)
    (entry response headers : pyval) (hs : list pyval) (h : pyval)
    (key value : string) (f : dict) :
  py_get (PDict d) "har" (PList []) = Ok har ->
  py_iter har = Ok entries -> In entry entries ->
  py_get entry "response" (PDict []) = Ok response ->
  py_get response "headers" (PList []) = Ok headers ->
  py_iter headers = Ok hs -> In h hs ->
  py_get h "key" (PStr "") = Ok (PStr key) ->
  py_get h "value" (PStr "") = Ok (PStr value) ->
  lower key = "content-type" ->
  extract_contentinfo_features (PDict d) = Ok f ->
  exists servers content_types js css html,
    collect_headers har = Ok (servers, content_types) /\
    In (lower value) content_types /\
    assoc "num_js_files" f = Some (VInt js) /\
    assoc "num_css_files" f = Some (VInt css) /\
    assoc "num_html_files" f = Some (VInt html) /\
    (str_in "javascript" (lower value) = true -> 1 <= js) /\
    (str_in "css" (lower value) = true -> 1 <= css) /\
    (str_in "html" (lower value) = true -> 1 <= html) /\
    (str_in "gzip" (lower value) = true ->
     assoc "has_gzip_encoding" f = Some (VInt 1)).
Proof.
  intros Hhar Hit Hin Hr Hh Hhs Hhin Hk Hv Hs H.
  unfold extract_contentinfo_features in H.
  run_steps H. inversion H; subst f; clear H.
  ok_inj.
  match goal with
  | E : collect_headers har = Ok ?c |- _ =>
      destruct c as [servers content_types];
      exists servers, content_types;
      assert (Hval : In (lower value) content_types)
        by (unfold collect_headers in E; rewrite Hit in E; cbn [bind] in E;
            exact (entries_collect_type _ _ _ _ _ _ _ _ _ _ E Hin Hr Hh Hhs Hhin Hk Hv Hs))
  end.
  do 3 eexists.
  split; [assumption|]. split; [exact Hval|].
  do 3 (split; [reflexivity|]).
  split; [apply count_containing_member; exact Hval|].
  split; [apply count_containing_member; exact Hval|].
  split; [apply count_containing_member; exact Hval|].
  intros Hg. cbn [snd assoc String.eqb Ascii.eqb Bool.eqb].
  rewrite (str_in_trans _ _ _ Hg (str_in_join " " _ _ Hval)). reflexivity.
Qed.

(* ================================================================= *)
(** ** Further properties of the aggregator *)

Lemma process_files_records (label : Z) (category_name : string)
    (listing : list (string * file_content)) :
  fst (process_files label category_name
         (filter (fun entry => is_json_name (fst entry)) listing))
  = map (fun r => row_of (snd r) label (fst r) category_name) (records_of listing).
Proof.
  induction listing as [|[filename file] listing IH]; [reflexivity|].
  cbn [filter records_of fst]. unfold record_of. cbn [fst snd].
  destruct (is_json_name filename); [|exact IH].
  change ((filename, file) :: filter (fun entry => is_json_name (fst entry)) listing)
    with ([(filename, file)]
          ++ filter (fun entry => is_json_name (fst entry)) listing)%list.
  rewrite process_files_app, IH.
  destruct file as [| | |v]; try reflexivity.
  destruct v as [| [] | z | x | s | l | d]; try reflexivity;
    try (cbn; match goal with |- context [if ?b then _ else _] => destruct b end;
         reflexivity).
  destruct d as [|b d]; [reflexivity|].
  pose proof (process_file_record label category_name filename (b :: d)
                ltac:(discriminate)) as Hrow.
  cbn [process_files].
  destruct (process_file label category_name (filename, Json (PDict (b :: d)))).
  simpl in Hrow. subst. reflexivity.
Qed.

(** X13. The rows of the dataset are exactly the records of the two
    folders, benign first, each folder in listing order: one row for every
    file whose name ends in [.json] (in any case) and that holds a
    non-empty JSON object, and none for any other file or for a folder
    that does not exist.  The table has one record per row. *)
Theorem rows_are_the_records (fs : filesystem) :
  fst (collect_rows fs categories)
  = (match fs BENIGN_PATH with
     | Some listing =>
         map (fun r => row_of (snd r) 1 (fst r) "benign") (records_of listing)
     | None => []
     end
     ++ match fs MALICIOUS_PATH with
        | Some listing =>
            map (fun r => row_of (snd r) 0 (fst r) "malicious") (records_of listing)
        | None => []
        end)%list /\
  List.length (records (fst (build_global_dataframe fs)))
  = List.length (fst (collect_rows fs categories)).
Proof.
  split.
  - unfold categories. cbn [collect_rows].
    assert (Hcat : forall folder label name,
               fst (process_category fs (folder, label, name))
               = match fs folder with
                 | Some listing =>
                     map (fun r => row_of (snd r) label (fst r) name) (records_of listing)
                 | None => []
                 end).
    { intros folder label name. unfold process_category.
      destruct (fs folder) as [listing|]; [|reflexivity].
      rewrite <- process_files_records.
      destruct (process_files label name _). reflexivity. }
    rewrite <- (Hcat BENIGN_PATH 1 "benign"), <- (Hcat MALICIOUS_PATH 0 "malicious").
    destruct (process_category fs (BENIGN_PATH, 1, "benign")).
    destruct (process_category fs (MALICIOUS_PATH, 0, "malicious")).
    simpl. rewrite app_nil_r. reflexivity.
  - unfold build_global_dataframe.
    destruct (collect_rows fs categories) as [rows lg]. simpl.
    apply length_map.
Qed.

(** X14. A row has the keys of the four contributions and the three
    metadata keys, and no other; its [filename] is the name of the file,
    whatever the extractors put under that key. *)
Theorem row_keys_and_filename (label : Z) (category_name filename : string)
    (d : list (string * pyval)) :
  let general :=
    fst (safe_call general_extractor (PDict d) "extract_general_features" filename) in
  let host :=
    fst (safe_call extract_hostinfo_features (section_of d "host_info")
           "extract_hostinfo_features" filename) in
  let content :=
    fst (safe_call contentinfo_extractor (section_of d "content_info")
           "extract_contentinfo_features" filename) in
  let extra :=
    fst (safe_call extract_additional_features (section_of d "additional")
           "extract_additional_features" filename) in
  let row := fst (build_row d label filename category_name) in
  assoc "filename" row = Some (VStr filename) /\
  (forall k, In k (keys row) <->
             In k (keys general) \/ In k (keys host) \/ In k (keys content)
             \/ In k (keys extra) \/ In k metadata_keys).
Proof.
  intros general host content extra row. unfold row.
  rewrite build_row_merge. fold general host content extra. split.
  - rewrite !assoc_dict_set. reflexivity.
  - intros k. rewrite !keys_dict_set, !keys_dict_update. simpl. intuition.
Qed.

Lemma build_row_log (d : list (string * pyval)) (label : Z)
    (filename category_name : string) :
  snd (build_row d label filename category_name)
  = (snd (safe_call general_extractor (PDict d) "extract_general_features" filename)
     ++ snd (safe_call extract_hostinfo_features (section_of d "host_info")
               "extract_hostinfo_features" filename)
     ++ snd (safe_call contentinfo_extractor (section_of d "content_info")
               "extract_contentinfo_features" filename)
     ++ snd (safe_call extract_additional_features (section_of d "additional")
               "extract_additional_features" filename))%list.
Proof.
  unfold build_row.
  destruct (safe_call general_extractor _ _ _).
  destruct (safe_call extract_hostinfo_features _ _ _).
  destruct (safe_call contentinfo_extractor _ _ _).
  destruct (safe_call extract_additional_features _ _ _).
  reflexivity.
Qed.

Lemma safe_call_written (func : extractor) (arg : pyval) (fname filename : string) :
  snd (safe_call func arg fname filename)
  = match func (if is_none arg then PDict [] else arg) with
    | Raise e => [ExtractorError fname filename e; Traceback]
    | Ok _ => []
    end.
Proof.
  unfold safe_call. destruct (func _) as [[r|]|e]; reflexivity.
Qed.

(** X15. What is written while a row is built is, for each extractor that
    raised and in the order of the calls, its error line, with the name of
    the extractor, the name of the file and the exception, followed by the
    trace that [traceback.print_exc()] writes; an extractor that returns
    writes nothing.  So the content extractor has its error line exactly
    when it raised that exception on the record's [content_info], the
    general extractor exactly when it raised it on the record, a trace is
    written exactly when some extractor raised, and nothing is written but
    error lines of the four extractors and traces. *)
Theorem extractor_errors_are_logged (label : Z) (category_name filename : string)
    (d : list (string * pyval)) :
  let log := snd (build_row d label filename category_name) in
  let report := fun (A : Type) (fname : string) (r : result A) =>
    match r with
    | Raise e => [ExtractorError fname filename e; Traceback]
    | Ok _ => []
    end in
  log = (report _ "extract_general_features" (extract_general_features (PDict d))
         ++ report _ "extract_hostinfo_features"
              (extract_hostinfo_features (section_of d "host_info"))
         ++ report _ "extract_contentinfo_features"
              (extract_contentinfo_features (section_of d "content_info"))
         ++ report _ "extract_additional_features"
              (extract_additional_features (section_of d "additional")))%list /\
  (forall e, In (ExtractorError "extract_contentinfo_features" filename e) log <->
             extract_contentinfo_features (section_of d "content_info") = Raise e) /\
  (forall e, In (ExtractorError "extract_general_features" filename e) log <->
             extract_general_features (PDict d) = Raise e) /\
  (In Traceback log <->
     (exists e, extract_general_features (PDict d) = Raise e) \/
     (exists e, extract_hostinfo_features (section_of d "host_info") = Raise e) \/
     (exists e, extract_contentinfo_features (section_of d "content_info") = Raise e) \/
     (exists e, extract_additional_features (section_of d "additional") = Raise e)) /\
  (forall line, In line log ->
     line = Traceback \/
     exists fname e, line = ExtractorError fname filename e /\ In fname extractor_names).
Proof.
  intros log report.
  assert (Hlog : log
            = (report _ "extract_general_features" (extract_general_features (PDict d))
               ++ report _ "extract_hostinfo_features"
                    (extract_hostinfo_features (section_of d "host_info"))
               ++ report _ "extract_contentinfo_features"
                    (extract_contentinfo_features (section_of d "content_info"))
               ++ report _ "extract_additional_features"
                    (extract_additional_features (section_of d "additional")))%list).
  { unfold log. rewrite build_row_log, !safe_call_written, !section_of_not_none.
    cbn [is_none]. unfold general_extractor, contentinfo_extractor, report.
    destruct (extract_general_features (PDict d));
      destruct (extract_contentinfo_features (section_of d "content_info"));
      reflexivity. }
  split; [exact Hlog|]. rewrite Hlog. clear Hlog. unfold report.
  destruct (extract_general_features (PDict d)) as [f|e1];
    destruct (extract_hostinfo_features (section_of d "host_info")) as [h|e2];
    destruct (extract_contentinfo_features (section_of d "content_info")) as [g|e3];
    destruct (extract_additional_features (section_of d "additional")) as [x|e4];
    cbn [app];
    (split; [|split; [|split]]).
  all: try (intros e; split;
            [ intros H; simpl in H;
              repeat (destruct H as [H|H]; [try discriminate H|]);
              try contradiction; inversion H; reflexivity
            | intros H; first [discriminate H | inversion H; subst; simpl; auto 10] ]).
  all: try (split;
            [ intros H; simpl in H;
              repeat (destruct H as [H|H]; [try discriminate H|]);
              try contradiction;
              first [ left; eexists; reflexivity
                    | right; left; eexists; reflexivity
                    | right; right; left; eexists; reflexivity
                    | right; right; right; eexists; reflexivity ]
            | intros [(e & H)|[(e & H)|[(e & H)|(e & H)]]];
              try discriminate H; simpl; auto 10 ]).
  all: intros line H; simpl in H;
    repeat (destruct H as [H|H];
            [ subst line;
              first [ left; reflexivity
                    | right; eexists; eexists; split; [reflexivity | simpl; tauto] ] |]);
    contradiction.
Qed.

Lemma in_keys_not_none {A : Type} (k : string) (d : list (string * A)) :
  assoc k d = None -> ~ In k (keys d).
Proof.
  intros H Hin. destruct (in_keys_assoc k d Hin) as (v & Hv). congruence.
Qed.

(** X16. When the content extractor returns, its values reach the row:
    under every key of the content vocabulary that the additional extractor
    does not write, the row holds the content extractor's value.  For the
    three keys the general extractor writes too, [url_length],
    [contains_ip_in_url] and [contains_encoded_chars], the row therefore
    holds what was measured on [destination], not on [url]. *)
Theorem content_values_reach_the_row (label : Z) (category_name filename : string)
    (d : list (string * pyval)) (g : dict) :
  extract_contentinfo_features (section_of d "content_info") = Ok g ->
  let extra :=
    fst (safe_call extract_additional_features (section_of d "additional")
           "extract_additional_features" filename) in
  let row := fst (build_row d label filename category_name) in
  (forall k, In k content_keys -> ~ In k (keys extra) -> assoc k row = assoc k g) /\
  (forall k, In k shared_keys -> In k content_keys).
Proof.
  intros Hg extra row. split.
  - intros k Hk Hx.
    assert (Hmeta : ~ In k metadata_keys).
    { intros Hm. revert Hk. simpl in Hm.
      destruct Hm as [<-|[<-|[<-|[]]]]; vm_compute; intuition discriminate. }
    unfold row. rewrite build_row_merge. fold extra.
    rewrite !assoc_dict_set.
    destruct (String.eqb_spec "category" k) as [<-|_]; [exfalso; apply Hmeta; simpl; auto|].
    destruct (String.eqb_spec "filename" k) as [<-|_]; [exfalso; apply Hmeta; simpl; auto|].
    destruct (String.eqb_spec "label" k) as [<-|_]; [exfalso; apply Hmeta; simpl; auto|].
    rewrite assoc_dict_update.
    destruct (binding k extra) as [x|] eqn:Ex;
      [apply binding_in_keys in Ex; contradiction|].
    rewrite assoc_dict_update.
    assert (Hcontent : fst (safe_call contentinfo_extractor (section_of d "content_info")
                              "extract_contentinfo_features" filename) = g).
    { unfold safe_call. rewrite section_of_not_none.
      unfold contentinfo_extractor. rewrite Hg. reflexivity. }
    rewrite Hcontent.
    pose proof (content_keys_of_run _ _ Hg) as Kg.
    rewrite binding_assoc by (rewrite Kg; exact content_keys_nodup).
    rewrite <- Kg in Hk. destruct (in_keys_assoc _ _ Hk) as (v & ->). reflexivity.
  - intros k Hk. apply shared_keys_are_the_common_keys in Hk as [_ Hk]. exact Hk.
Qed.

(** X17. A record without [content_info], or with a null or otherwise
    falsy one, is treated as having an empty one: the content extractor is
    called on the empty dict, contributes its default vector and nothing is
    printed for it. *)
Theorem missing_content_info_gives_defaults (filename : string)
    (d : list (string * pyval)) :
  (assoc "content_info" d = None \/
   exists v, assoc "content_info" d = Some v /\ py_truthy v = false) ->
  section_of d "content_info" = PDict [] /\
  safe_call contentinfo_extractor (section_of d "content_info")
    "extract_contentinfo_features" filename
  = (zero_vector content_keys, []).
Proof.
  intros H.
  assert (Hs : section_of d "content_info" = PDict []).
  { unfold section_of, py_or. destruct H as [-> | (v & -> & ->)]; reflexivity. }
  split; [exact Hs|]. rewrite Hs. vm_compute. reflexivity.
Qed.

End Extractors.

(* ================================================================= *)
(** ** The theorems on the worked examples *)

Notation sample_general_features :=
  (extract_general_features no_bracketed_host ties_to_even).

Notation sample_row :=
  (row_of no_bracketed_host ties_to_even sample_hostinfo_features
     sample_additional_features).

Notation sample_rows :=
  (fst (collect_rows no_bracketed_host ties_to_even sample_hostinfo_features
          sample_additional_features sample_filesystem categories)).

(* ----------------------------------------------------------------- *)
(** *** C1 *)

(** A [tech_info] that is a number, a null [html] and a [har] that is a
    number make the extractors raise. *)
Lemma extractors_raise_on_malformed_fields :
  sample_general_features (PDict [("tech_info", PInt 5)])
    = Raise TypeError /\
  extract_contentinfo_features (PDict [("html", PNone)]) = Raise TypeError /\
  extract_contentinfo_features (PDict [("har", PInt 3)]) = Raise TypeError /\
  extract_contentinfo_features (PStr "not a dict") = Raise AttributeError.
Proof. repeat split; vm_compute; reflexivity. Qed.

Lemma extractors_total_on_example :
  general_wf no_bracketed_host example_data = true /\
  content_wf har_example = true /\
  (exists f, sample_general_features example_data = Ok f /\
             keys f = general_keys) /\
  (exists f, extract_contentinfo_features har_example = Ok f /\
             keys f = content_keys).
Proof.
  pose proof (extractors_total_on_expected_shapes no_bracketed_host ties_to_even)
    as (_ & _ & Hg & Hc).
  assert (Hwf1 : general_wf no_bracketed_host example_data = true)
    by (vm_compute; reflexivity).
  assert (Hwf2 : content_wf har_example = true) by (vm_compute; reflexivity).
  split; [exact Hwf1|]. split; [exact Hwf2|].
  split; [exact (Hg example_data Hwf1) | exact (Hc har_example Hwf2)].
Defined.

(* ----------------------------------------------------------------- *)
(** *** C2 *)

(** Both extractors write [url_length], and on [redirected_record] the
    merge replaces the general extractor's 8 by the content extractor's 0. *)
Lemma vocabularies_not_disjoint :
  In "url_length" general_keys /\ In "url_length" content_keys /\
  (exists f, sample_general_features (PDict redirected_record) = Ok f /\
             In "url_length" (keys f) /\ assoc "url_length" f = Some (VInt 8)) /\
  (exists g, extract_contentinfo_features (section_of redirected_record "content_info") = Ok g /\
             In "url_length" (keys g) /\ assoc "url_length" g = Some (VInt 0)) /\
  assoc "url_length" (sample_row redirected_record 0 "m.json" "malicious") = Some (VInt 0).
Proof.
  split; [vm_compute; tauto|]. split; [vm_compute; tauto|].
  split; [eexists; split; [vm_compute; reflexivity | split; [vm_compute; tauto | reflexivity]]|].
  split; [eexists; split; [vm_compute; reflexivity | split; [vm_compute; tauto | reflexivity]]|].
  vm_compute; reflexivity.
Qed.

Lemma vocabularies_share_three_keys_on_example :
  sample_general_features (PDict redirected_record) = Ok redirected_features /\
  extract_contentinfo_features (section_of redirected_record "content_info")
    = Ok (zero_vector content_keys) /\
  (In "url_length" (keys redirected_features) /\
   In "url_length" (keys (zero_vector content_keys))) /\
  assoc "url_length" redirected_features = Some (VInt 8) /\
  assoc "url_length" (zero_vector content_keys) = Some (VInt 0) /\
  assoc "url_length" (sample_row redirected_record 0 "m.json" "malicious")
    = Some (VInt 0) /\
  assoc "scheme_http" (sample_row redirected_record 0 "m.json" "malicious")
    = Some (VInt 1).
Proof.
  pose proof (vocabularies_share_three_keys no_bracketed_host ties_to_even
                sample_hostinfo_features sample_additional_features)
    as (Hshared & Hrow).
  assert (H1 : sample_general_features (PDict redirected_record)
               = Ok redirected_features) by (vm_compute; reflexivity).
  assert (H2 : extract_contentinfo_features (section_of redirected_record "content_info")
               = Ok (zero_vector content_keys)) by (vm_compute; reflexivity).
  destruct (Hrow 0 "malicious" "m.json" redirected_record redirected_features
              (zero_vector content_keys) H1 H2) as (Hcontent & Hgeneral).
  assert (Hextra : forall k, k <> "extra_seen" ->
            ~ writes sample_additional_features
                (section_of redirected_record "additional") k).
  { intros k Hk (h & Eh & Hin). inversion Eh; subst h.
    destruct Hin as [Hin|[]]. apply Hk. symmetry. exact Hin. }
  assert (Hhost : forall k, k <> "host_fields" ->
            ~ writes sample_hostinfo_features
                (section_of redirected_record "host_info") k).
  { intros k Hk (h & Eh & Hin). vm_compute in Eh. inversion Eh; subst h.
    destruct Hin as [Hin|[]]. apply Hk. symmetry. exact Hin. }
  split; [exact H1|]. split; [exact H2|].
  split.
  { apply (Hshared (PDict redirected_record)
             (section_of redirected_record "content_info") _ _ H1 H2).
    left. reflexivity. }
  split; [reflexivity|]. split; [reflexivity|].
  unfold row_of. split.
  - destruct (Hcontent "url_length") as (v & Ev & Er).
    + left. reflexivity.
    + apply Hextra. discriminate.
    + rewrite Er, <- Ev. reflexivity.
  - rewrite (Hgeneral "scheme_http").
    + reflexivity.
    + vm_compute. tauto.
    + vm_compute. intuition discriminate.
    + apply Hhost. discriminate.
    + apply Hextra. discriminate.
Defined.

(* ----------------------------------------------------------------- *)
(** *** C3 *)


(* ----------------------------------------------------------------- *)
(** *** C4 *)

(** A [url] that is the number 5 and a [content_status] that is the text
    [abc] or null make the extractor raise; no empty URL and no status 0
    take their place. *)
Lemma non_text_url_and_bad_status_raise :
  sample_general_features (PDict [("url", PInt 5)])
    = Raise AttributeError /\
  sample_general_features (PDict [("url", PList [PStr "http://a"])])
    = Raise AttributeError /\
  sample_general_features (PDict [("content_status", PStr "abc")])
    = Raise ValueError /\
  sample_general_features (PDict [("content_status", PNone)])
    = Raise TypeError.
Proof. repeat split; vm_compute; reflexivity. Qed.

Lemma url_and_status_coercion_on_examples :
  (assoc "url" (@nil (string * pyval)) = None /\ py_truthy PNone = false /\
   sample_general_features (PDict ([] ++ ("url", PNone) :: [("content_status", PStr " 404 ")]))
   = sample_general_features (PDict ([] ++ ("url", PStr "") :: [("content_status", PStr " 404 ")]))) /\
  (assoc "url" [("url", PBool true)] = Some (PBool true) /\
   py_truthy (PBool true) = true /\ is_str (PBool true) = false /\
   sample_general_features (PDict [("url", PBool true)])
   = Raise AttributeError) /\
  (sample_general_features example_data = Ok example_features /\
   exists z,
     py_int (match assoc "content_status" example_record with
             | Some v => v | None => PInt 0 end) = Ok z /\
     assoc "content_status" example_features = Some (VInt z)) /\
  (py_int (match assoc "content_status" [("content_status", PList [])] with
           | Some v => v | None => PInt 0 end) = Raise TypeError /\
   exists e', sample_general_features (PDict [("content_status", PList [])]) = Raise e').
Proof.
  pose proof (url_and_status_coercion no_bracketed_host ties_to_even) as (Hfalsy & Htruthy & Hint & Hraise).
  split; [|split; [|split]].
  - split; [reflexivity|]. split; [reflexivity|].
    apply (Hfalsy [] [("content_status", PStr " 404 ")] PNone); reflexivity.
  - split; [reflexivity|]. split; [reflexivity|]. split; [reflexivity|].
    apply (Htruthy [("url", PBool true)] (PBool true)); reflexivity.
  - assert (H : sample_general_features example_data
                = Ok example_features) by (vm_compute; reflexivity).
    split; [exact H | exact (Hint example_record example_features H)].
  - split; [reflexivity|].
    apply (Hraise [("content_status", PList [])] TypeError). reflexivity.
Defined.

(* ----------------------------------------------------------------- *)
(** *** C5 *)

Lemma default_vector_and_example_keys :
  sample_general_features example_data = Ok example_features /\
  keys example_features = general_keys /\
  extract_contentinfo_features har_example = Ok har_example_features /\
  keys har_example_features = content_keys /\
  sample_general_features (PDict []) = Ok (zero_vector general_keys) /\
  extract_contentinfo_features (PDict []) = Ok (zero_vector content_keys).
Proof.
  pose proof (default_vector_on_empty_input no_bracketed_host ties_to_even) as (Hg0 & Hc0 & Hg & Hc).
  assert (H1 : sample_general_features example_data
               = Ok example_features) by (vm_compute; reflexivity).
  assert (H2 : extract_contentinfo_features har_example = Ok har_example_features)
    by (vm_compute; reflexivity).
  split; [exact H1|]. split; [exact (Hg example_data example_features H1)|].
  split; [exact H2|]. split; [exact (Hc har_example har_example_features H2)|].
  split; [exact Hg0 | exact Hc0].
Defined.

(* ----------------------------------------------------------------- *)
(** *** C6 *)

Lemma http_status_buckets_on_example :
  sample_general_features example_data = Ok example_features /\
  exists raw status ok redirect client server,
    py_get example_data "content_status" (PInt 0) = Ok raw /\
    py_int raw = Ok status /\
    assoc "content_status" example_features = Some (VInt status) /\
    assoc "is_http_ok" example_features = Some (VInt ok) /\
    assoc "is_http_redirect" example_features = Some (VInt redirect) /\
    assoc "is_http_client_error" example_features = Some (VInt client) /\
    assoc "is_http_server_error" example_features = Some (VInt server) /\
    (0 <= ok <= 1 /\ 0 <= redirect <= 1 /\ 0 <= client <= 1 /\ 0 <= server <= 1) /\
    ok + redirect + client + server <= 1 /\
    (200 <= status < 600 -> ok + redirect + client + server = 1) /\
    (status < 200 \/ 600 <= status ->
     ok = 0 /\ redirect = 0 /\ client = 0 /\ server = 0) /\
    (status = 404 -> client = 1 /\ ok = 0 /\ redirect = 0 /\ server = 0).
Proof.
  assert (H : sample_general_features example_data
              = Ok example_features) by (vm_compute; reflexivity).
  split; [exact H|].
  exact (http_status_buckets no_bracketed_host ties_to_even example_data example_features H).
Defined.

(* ----------------------------------------------------------------- *)
(** *** C7 *)

Lemma ratio_features_on_example :
  sample_general_features example_data = Ok example_features /\
  exists digits specials length,
    assoc "num_digits_in_url" example_features = Some (VInt digits) /\
    assoc "num_special_chars" example_features = Some (VInt specials) /\
    assoc "url_length" example_features = Some (VInt length) /\
    assoc "digit_ratio" example_features
      = Some (VFloat (round3_div ties_to_even digits (length + 1))) /\
    assoc "special_char_ratio" example_features
      = Some (VFloat (round3_div ties_to_even specials (length + 1))) /\
    0 < length + 1 /\
    nearest_thousandth digits (length + 1) (round3_div ties_to_even digits (length + 1)) /\
    nearest_thousandth specials (length + 1) (round3_div ties_to_even specials (length + 1)) /\
    (0 <= round3_div ties_to_even digits (length + 1) <= 1)%Q /\
    (0 <= round3_div ties_to_even specials (length + 1) <= 1)%Q.
Proof.
  assert (H : sample_general_features example_data
              = Ok example_features) by (vm_compute; reflexivity).
  split; [exact H|].
  exact (ratio_features no_bracketed_host ties_to_even example_data example_features H).
Defined.

(* ----------------------------------------------------------------- *)
(** *** C8 *)

Lemma har_server_header_on_example :
  py_get har_example "har" (PList []) = Ok (PList [har_entry]) /\
  py_get har_entry "response" (PDict []) = Ok har_response /\
  py_get har_response "headers" (PList []) = Ok (PList [server_header]) /\
  py_get server_header "key" (PStr "") = Ok (PStr "Server") /\
  py_get server_header "value" (PStr "") = Ok (PStr "cloudflare") /\
  lower "Server" = "server" /\
  extract_contentinfo_features har_example = Ok har_example_features /\
  str_in "cloudflare" (lower "cloudflare") = true /\
  assoc "has_cloudflare" har_example_features = Some (VInt 1).
Proof.
  pose proof har_server_header_case_insensitive as (_ & Hgeneral).
  assert (Hrun : extract_contentinfo_features har_example = Ok har_example_features)
    by (vm_compute; reflexivity).
  destruct (Hgeneral [("har", PList [har_entry])] (PList [har_entry]) [har_entry]
              har_entry har_response (PList [server_header]) [server_header]
              server_header "Server" "cloudflare" har_example_features
              eq_refl eq_refl (or_introl eq_refl) eq_refl eq_refl eq_refl
              (or_introl eq_refl) eq_refl eq_refl eq_refl Hrun)
    as (servers & content_types & _ & _ & _ & _ & _ & _ & Hcf).
  do 6 (split; [reflexivity|]).
  split; [exact Hrun|]. split; [reflexivity|].
  apply Hcf. reflexivity.
Defined.

(* ----------------------------------------------------------------- *)
(** *** C9 *)

Lemma label_follows_category_on_sample :
  In (sample_row redirected_record 0 "m.json" "malicious")
     (sample_rows) /\
  assoc "label"
    (sample_row redirected_record 0 "m.json" "malicious")
  = Some (VInt 0) /\
  assoc "category"
    (sample_row redirected_record 0 "m.json" "malicious")
  = Some (VStr "malicious").
Proof.
  pose proof (label_follows_category no_bracketed_host ties_to_even
                sample_hostinfo_features sample_additional_features sample_filesystem)
    as (_ & Hrows).
  assert (Hin : In (sample_row redirected_record 0 "m.json" "malicious")
                   (sample_rows)).
  { vm_compute. right. right. left. reflexivity. }
  destruct (Hrows _ Hin) as (_ & _ & Hzero).
  split; [exact Hin|]. split; [|apply Hzero]; vm_compute; reflexivity.
Defined.

(* ----------------------------------------------------------------- *)
(** *** C10 *)

Lemma equals_sign_on_examples :
  (content_wf (PDict [("destination", PStr "http://x/?a=b")]) = true /\
   exists f,
     extract_contentinfo_features (PDict [("destination", PStr "http://x/?a=b")]) = Ok f /\
     assoc "contains_encoded_chars" f = Some (VInt 0)) /\
  (general_wf no_bracketed_host (PDict [("url", PStr "http://x/?a=b")]) = true /\
   exists f,
     sample_general_features (PDict [("url", PStr "http://x/?a=b")]) = Ok f /\
     assoc "contains_encoded_chars" f = Some (VInt 1)).
Proof.
  pose proof (equals_sign_marks_encoding_in_url_only no_bracketed_host ties_to_even)
    as (Hcontent & Hgeneral).
  split.
  - split; [vm_compute; reflexivity|].
    apply (Hcontent [("destination", PStr "http://x/?a=b")] "http://x/?a=b");
      vm_compute; reflexivity.
  - split; [vm_compute; reflexivity|].
    apply (Hgeneral [("url", PStr "http://x/?a=b")] "http://x/?a=b");
      vm_compute; reflexivity.
Defined.

(* ================================================================= *)
(** ** The further properties on worked examples *)

Lemma query_and_path_counts_on_example :
  sample_general_features (PDict query_record) = Ok query_features /\
  exists has_query query_length params path_length segments,
    assoc "has_query" query_features = Some (VInt has_query) /\
    assoc "query_length" query_features = Some (VInt query_length) /\
    assoc "num_query_params" query_features = Some (VInt params) /\
    assoc "path_length" query_features = Some (VInt path_length) /\
    assoc "num_path_segments" query_features = Some (VInt segments) /\
    (has_query = 1 <-> 0 < query_length) /\
    (has_query = 0 <-> query_length = 0) /\
    (has_query = 0 -> params = 0) /\
    (has_query = 1 -> 1 <= params <= query_length + 1) /\
    0 <= segments <= path_length.
Proof.
  assert (H : sample_general_features (PDict query_record) = Ok query_features)
    by (vm_compute; reflexivity).
  split; [exact H|].
  exact (query_and_path_counts no_bracketed_host ties_to_even
           (PDict query_record) query_features H).
Defined.

Lemma file_extension_bounds_on_example :
  sample_general_features (PDict query_record) = Ok query_features /\
  exists has_ext ext_len path_length,
    assoc "has_file_extension" query_features = Some (VInt has_ext) /\
    assoc "file_extension_len" query_features = Some (VInt ext_len) /\
    assoc "path_length" query_features = Some (VInt path_length) /\
    ((has_ext = 0 /\ ext_len = 0) \/
     (has_ext = 1 /\ 1 <= ext_len <= 6 /\ ext_len < path_length)).
Proof.
  assert (H : sample_general_features (PDict query_record) = Ok query_features)
    by (vm_compute; reflexivity).
  split; [exact H|].
  exact (file_extension_bounds no_bracketed_host ties_to_even
           (PDict query_record) query_features H).
Defined.

Lemma random_subdomain_on_example :
  sample_general_features example_data = Ok example_features /\
  assoc "subdomain_length" example_features = Some (VInt 62) /\
  assoc "num_subdomain_levels" example_features = Some (VInt 2) /\
  assoc "contains_random_subdomain" example_features = Some (VInt 1) /\
  has_run is_random_label_char 15
    "ctcggaptffisfgxbf3b4c7amaazzwni5rt4leqols7tyurhvbokq.ar-io.dev".
Proof.
  assert (H : sample_general_features example_data = Ok example_features)
    by (vm_compute; reflexivity).
  destruct (random_subdomain_is_a_long_run no_bracketed_host ties_to_even
              example_record
              "ctcggaptffisfgxbf3b4c7amaazzwni5rt4leqols7tyurhvbokq.ar-io.dev"
              example_features eq_refl ltac:(discriminate) H)
    as (Hlen & Hlevels & _ & Hrun).
  split; [exact H|]. split; [exact Hlen|]. split; [exact Hlevels|].
  split; [reflexivity|]. apply Hrun. reflexivity.
Defined.

Lemma tech_info_summary_on_example :
  sample_general_features (PDict query_record) = Ok query_features /\
  exists count has,
    assoc "tech_info_count" query_features = Some (VInt count) /\
    assoc "has_tech_info" query_features = Some (VInt has) /\
    0 <= count /\
    (has = 1 <-> 0 < count) /\
    (has = 0 <-> count = 0).
Proof.
  assert (H : sample_general_features (PDict query_record) = Ok query_features)
    by (vm_compute; reflexivity).
  split; [exact H|].
  exact (tech_info_summary no_bracketed_host ties_to_even
           (PDict query_record) query_features H).
Defined.

Lemma suspicious_keyword_on_example :
  assoc "url" login_record = Some (PStr "http://a.b/LogIn") /\
  sample_general_features (PDict login_record) = Ok login_features /\
  In (lower "LogIn") suspicious_terms /\
  str_in "LogIn" "http://a.b/LogIn" = true /\
  assoc "contains_suspicious_keyword" login_features = Some (VInt 1).
Proof.
  assert (H : sample_general_features (PDict login_record) = Ok login_features)
    by (vm_compute; reflexivity).
  assert (Hterm : In (lower "LogIn") suspicious_terms) by (left; reflexivity).
  destruct (suspicious_keyword_ignores_case no_bracketed_host ties_to_even
              login_record "http://a.b/LogIn" login_features eq_refl H)
    as (_ & _ & Hword).
  split; [reflexivity|]. split; [exact H|]. split; [exact Hterm|].
  split; [reflexivity|]. exact (Hword "LogIn" Hterm eq_refl).
Defined.

Lemma non_dict_argument_on_example :
  (forall d, PList [PStr "url"] <> PDict d) /\
  sample_general_features (PList [PStr "url"]) = Raise AttributeError /\
  extract_contentinfo_features (PList [PStr "url"]) = Raise AttributeError.
Proof.
  assert (H : forall d, PList [PStr "url"] <> PDict d) by (intros d; discriminate).
  split; [exact H|].
  exact (non_dict_argument_raises no_bracketed_host ties_to_even (PList [PStr "url"]) H).
Defined.

Lemma url_parts_fit_on_example :
  sample_general_features (PDict query_record) = Ok query_features /\
  assoc "subdomain" query_record = None /\
  exists url_length path_length query_length subdomain_length,
    assoc "url_length" query_features = Some (VInt url_length) /\
    assoc "path_length" query_features = Some (VInt path_length) /\
    assoc "query_length" query_features = Some (VInt query_length) /\
    assoc "subdomain_length" query_features = Some (VInt subdomain_length) /\
    path_length + query_length <= url_length /\
    subdomain_length + path_length + query_length <= url_length.
Proof.
  assert (H : sample_general_features (PDict query_record) = Ok query_features)
    by (vm_compute; reflexivity).
  destruct (url_parts_fit_in_url no_bracketed_host ties_to_even
              query_record query_features H)
    as (u & p & q & s & H1 & H2 & H3 & H4 & _ & _ & H5 & H6).
  split; [exact H|]. split; [reflexivity|].
  exists u, p, q, s. repeat split; try assumption. apply H6. reflexivity.
Defined.

Lemma url_without_brackets_on_example :
  assoc "url" superscript_record = Some (PStr superscript_url) /\
  isascii superscript_url = false /\
  char_in "[" superscript_url = false /\
  char_in "]" superscript_url = false /\
  checknetloc (fst (splitnetloc (String.substring 7 33 superscript_url))) = true /\
  (exists p, urlparse_text no_bracketed_host superscript_url = Ok p) /\
  (exists f, sample_general_features (PDict superscript_record) = Ok f /\
             keys f = general_keys).
Proof.
  pose proof (url_without_brackets_is_accepted no_bracketed_host ties_to_even)
    as (Hcheck & Hparse & Hrun).
  split; [reflexivity|]. split; [reflexivity|].
  split; [reflexivity|]. split; [reflexivity|].
  split; [exact (Hcheck (String.substring 7 33 superscript_url))|].
  split.
  - exact (Hparse superscript_url eq_refl eq_refl).
  - exact (Hrun superscript_record superscript_url eq_refl eq_refl eq_refl
             eq_refl eq_refl eq_refl eq_refl).
Defined.

Lemma html_flags_on_example :
  extract_contentinfo_features (PDict page_example) = Ok page_features /\
  exists has_html html_length script_tag scripts links,
    assoc "has_html" page_features = Some (VInt has_html) /\
    assoc "html_length" page_features = Some (VInt html_length) /\
    assoc "contains_script_tag" page_features = Some (VInt script_tag) /\
    assoc "num_scripts" page_features = Some (VInt scripts) /\
    assoc "num_links" page_features = Some (VInt links) /\
    (has_html = 1 <-> 0 < html_length) /\
    (has_html = 0 <-> html_length = 0) /\
    (script_tag = 1 <-> 1 <= scripts) /\
    (script_tag = 0 <-> scripts = 0) /\
    0 <= scripts <= html_length /\
    0 <= links <= html_length.
Proof.
  assert (H : extract_contentinfo_features (PDict page_example) = Ok page_features)
    by (vm_compute; reflexivity).
  split; [exact H|].
  exact (html_flags_agree_with_counts (PDict page_example) page_features H).
Defined.

Lemma response_counts_on_example :
  extract_contentinfo_features (PDict page_example) = Ok page_features /\
  exists responses unique long_lines asciis average,
    assoc "num_responses" page_features = Some (VInt responses) /\
    assoc "num_unique_md5" page_features = Some (VInt unique) /\
    assoc "num_long_lines_files" page_features = Some (VInt long_lines) /\
    assoc "num_ascii_files" page_features = Some (VInt asciis) /\
    assoc "avg_file_size_class" page_features = Some (VFloat average) /\
    0 <= unique <= responses /\
    0 <= long_lines <= responses /\
    0 <= asciis <= responses /\
    (0 <= average)%Q /\
    (responses = 0 -> average = 0%Q).
Proof.
  assert (H : extract_contentinfo_features (PDict page_example) = Ok page_features)
    by (vm_compute; reflexivity).
  split; [exact H|].
  exact (response_counts_within_num_responses (PDict page_example) page_features H).
Defined.

Lemma content_type_header_on_example :
  py_get (PDict page_example) "har" (PList []) = Ok (PList [page_entry]) /\
  py_get type_header "key" (PStr "") = Ok (PStr "Content-Type") /\
  py_get type_header "value" (PStr "") = Ok (PStr "Text/JavaScript; gzip") /\
  lower "Content-Type" = "content-type" /\
  extract_contentinfo_features (PDict page_example) = Ok page_features /\
  assoc "num_js_files" page_features = Some (VInt 1) /\
  assoc "has_gzip_encoding" page_features = Some (VInt 1).
Proof.
  assert (Hrun : extract_contentinfo_features (PDict page_example) = Ok page_features)
    by (vm_compute; reflexivity).
  destruct (content_type_header_case_insensitive page_example (PList [page_entry])
              [page_entry] page_entry
              (PDict [("headers", PList [server_header; type_header])])
              (PList [server_header; type_header]) [server_header; type_header]
              type_header "Content-Type" "Text/JavaScript; gzip" page_features
              eq_refl eq_refl (or_introl eq_refl) eq_refl eq_refl eq_refl
              (or_intror (or_introl eq_refl)) eq_refl eq_refl eq_refl Hrun)
    as (servers & content_types & js & css & html & _ & _ & _ & _ & _ & _ & _ & _ & Hgzip).
  do 4 (split; [reflexivity|]). split; [exact Hrun|].
  split; [reflexivity|]. apply Hgzip. reflexivity.
Defined.

Lemma row_keys_and_filename_on_example :
  assoc "filename" (sample_row null_html_record 1 "a.json" "benign")
    = Some (VStr "a.json") /\
  In "host_fields" (keys (sample_row null_html_record 1 "a.json" "benign")) /\
  ~ In "html_length" (keys (sample_row null_html_record 1 "a.json" "benign")).
Proof.
  destruct (row_keys_and_filename no_bracketed_host ties_to_even
              sample_hostinfo_features sample_additional_features
              1 "benign" "a.json" null_html_record) as (Hname & Hkeys).
  split; [exact Hname|]. split.
  - apply Hkeys. right. left. vm_compute. tauto.
  - intros Hin. apply Hkeys in Hin. vm_compute in Hin. intuition discriminate.
Defined.

Lemma extractor_errors_on_example :
  extract_contentinfo_features (section_of null_html_record "content_info")
    = Raise TypeError /\
  snd (build_row no_bracketed_host ties_to_even sample_hostinfo_features
         sample_additional_features null_html_record 1 "a.json" "benign")
  = [ExtractorError "extract_contentinfo_features" "a.json" TypeError; Traceback] /\
  In (ExtractorError "extract_contentinfo_features" "a.json" TypeError)
     (snd (build_row no_bracketed_host ties_to_even sample_hostinfo_features
             sample_additional_features null_html_record 1 "a.json" "benign")) /\
  ~ In (ExtractorError "extract_general_features" "a.json" TypeError)
       (snd (build_row no_bracketed_host ties_to_even sample_hostinfo_features
               sample_additional_features null_html_record 1 "a.json" "benign")) /\
  In Traceback
     (snd (build_row no_bracketed_host ties_to_even sample_hostinfo_features
             sample_additional_features null_html_record 1 "a.json" "benign")).
Proof.
  destruct (extractor_errors_are_logged no_bracketed_host ties_to_even
              sample_hostinfo_features sample_additional_features
              1 "benign" "a.json" null_html_record)
    as (Hlog & Hcontent & Hgeneral & Htrace & _).
  assert (Hraise : extract_contentinfo_features
                     (section_of null_html_record "content_info") = Raise TypeError)
    by (vm_compute; reflexivity).
  split; [exact Hraise|]. split; [|split; [|split]].
  - rewrite Hlog. vm_compute. reflexivity.
  - apply Hcontent. exact Hraise.
  - intros Hin. apply Hgeneral in Hin. vm_compute in Hin. discriminate Hin.
  - apply Htrace. right. right. left. exists TypeError. exact Hraise.
Defined.

Lemma content_values_on_example :
  extract_contentinfo_features (section_of redirected_record "content_info")
    = Ok (zero_vector content_keys) /\
  In "url_length" content_keys /\
  assoc "url_length" (sample_row redirected_record 0 "m.json" "malicious")
    = assoc "url_length" (zero_vector content_keys).
Proof.
  assert (Hrun : extract_contentinfo_features
                   (section_of redirected_record "content_info")
                 = Ok (zero_vector content_keys)) by (vm_compute; reflexivity).
  assert (Hkey : In "url_length" content_keys) by (vm_compute; tauto).
  destruct (content_values_reach_the_row no_bracketed_host ties_to_even
              sample_hostinfo_features sample_additional_features
              0 "malicious" "m.json" redirected_record (zero_vector content_keys) Hrun)
    as (Hvalues & _).
  split; [exact Hrun|]. split; [exact Hkey|].
  apply (Hvalues "url_length" Hkey). vm_compute. intuition discriminate.
Defined.

Lemma missing_content_info_on_example :
  assoc "content_info" query_record = None /\
  section_of query_record "content_info" = PDict [] /\
  safe_call contentinfo_extractor (section_of query_record "content_info")
    "extract_contentinfo_features" "q.json"
  = (zero_vector content_keys, []).
Proof.
  split; [reflexivity|].
  exact (missing_content_info_gives_defaults "q.json" query_record (or_introl eq_refl)).
Defined.
